(** * Whispers: the key, cipher and relay-authentication core

    A shallow embedding of the client module [utils/keys.ts]
    (conversation ids, key generation, request signing, message
    encryption and decryption), of the client hook [useBackend.tsx]
    ([sendMessage]) and of the relay [server.js] ([/register], [/send],
    [verifyRequestSignature] and the validation helpers).

    JavaScript strings are sequences of UTF-16 code units ([list N], a
    code unit being a number below 2^16; no definition depends on the
    bound), [Uint8Array] and [Buffer] values are lists of bytes, numbers
    are the integers ([Z]: [Date.now()] and the timestamps of the wire
    format).  A computation returns or throws ([Res]); code that reads
    the clock, the random source, the secure store or the database
    threads a state ([M]).

    What the source imports from libraries and from the JavaScript
    runtime (JSON, UTF-8, SHA-256, Ed25519, X25519, ChaCha20-Poly1305,
    the Expo client) is an interface, [Platform]; what the proofs need of
    it is [PlatformLaws].  [Toy] is a small platform that satisfies the
    laws, on which the examples run.

    The later modules cover the rest of these files and their callers:
    [KeyManagement] ([regenerateKeys], [clearKeys],
    [debugEncryptMessage]), [Admin] (the relay's [/cleanup]), [Backend]
    (the whole hook: [register], [needsRegistrationRefresh],
    [refreshRegistrationIfNeeded], [sendMessage] with its handling of
    the relay's answers, over a network that answers each request), and
    [Compact], a second small platform whose text encoding keeps an
    envelope within the relay's limits. *)

From stdpp Require Import gmap list strings.
From Stdlib Require Import ZArith NArith DecimalString Lia.
From Stdlib Require Strings.Byte.

Set Warnings "-register-all".

Abbreviation byte := Byte.byte.
Abbreviation bytes := (list Byte.byte).
Abbreviation jsstring := (list N).

(** A string literal of the source, as code units. *)
Definition js (s : string) : jsstring :=
  map Ascii.N_of_ascii (String.list_ascii_of_string s).

(** ** Results and exceptions *)

(** A JavaScript computation returns a value or throws. *)
Inductive Res (A : Type) : Type :=
| Ok (a : A)
| Throw.
Arguments Ok {A} a.
Arguments Throw {A}.

Definition rbind {A B} (r : Res A) (k : A → Res B) : Res B :=
  match r with
  | Ok a => k a
  | Throw => Throw
  end.

(** A library call that throws is an [option] in [Platform]. *)
Definition of_option {A} (o : option A) : Res A :=
  match o with
  | Some a => Ok a
  | None => Throw
  end.

Declare Scope res_scope.
Delimit Scope res_scope with res.
Notation "'let?' x := e 'in' k" := (rbind e (fun x => k))
  (at level 10, x pattern, e at level 100, k at level 200) : res_scope.

(** ** JavaScript values, as [JSON.parse] and object literals give them *)

Inductive jsval : Type :=
| VUndefined
| VNull
| VBool (b : bool)
| VNum (n : Z)
| VStr (s : jsstring)
| VArr (l : list jsval)
| VObj (fields : list (jsstring * jsval)).

(** [ToBoolean]: what [!v], [v && _] and [v || _] test. *)
Definition truthy (v : jsval) : bool :=
  match v with
  | VUndefined | VNull => false
  | VBool b => b
  | VNum n => negb (n =? 0)%Z
  | VStr s => if s is [] then false else true
  | VArr _ | VObj _ => true
  end.

(** Equality of strings, [===]. *)
Fixpoint str_eqb (a b : jsstring) : bool :=
  match a, b with
  | [], [] => true
  | x :: a', y :: b' => (x =? y)%N && str_eqb a' b'
  | _, _ => false
  end.

Fixpoint assoc (k : jsstring) (fs : list (jsstring * jsval)) : option jsval :=
  match fs with
  | [] => None
  | (k', v) :: r => if str_eqb k k' then Some v else assoc k r
  end.

(** [v.k] for the field names the source reads ([ed25519], [x25519],
    [publicKey], [privateKey], [encrypted], [nonce], [signature], ...):
    a [TypeError] on [undefined] and [null], the own property of an
    object, [undefined] on any other value (none of these names is a
    property of a string, a number, a boolean or an array). *)
Definition prop (v : jsval) (k : string) : Res jsval :=
  match v with
  | VUndefined | VNull => Throw
  | VObj fs => Ok (default VUndefined (assoc (js k) fs))
  | _ => Ok VUndefined
  end.

(** Destructuring [const { k } = body] of a request body (an object or
    an array, as [express.json()] delivers it). *)
Definition field (body : jsval) (k : string) : jsval :=
  match body with
  | VObj fs => default VUndefined (assoc (js k) fs)
  | _ => VUndefined
  end.

(** An object literal [{ k1: v1, ... }] with the source's field names. *)
Definition obj (fs : list (string * jsval)) : jsval :=
  VObj (map (fun kv => (js kv.1, kv.2)) fs).

(** ** Hexadecimal: [toHex] and [hexToBytes] (keys.ts) *)

Definition hexdigit (n : N) : N :=
  (if n <? 10 then 48 + n else 87 + n)%N.

(** [b.toString(16)] for a byte. *)
Definition toString16 (b : byte) : jsstring :=
  let n := Byte.to_N b in
  (if n <? 16 then [hexdigit n] else [hexdigit (n / 16); hexdigit (n mod 16)])%N.

(** [s.padStart(2, '0')]. *)
Definition padStart2 (s : jsstring) : jsstring :=
  repeat 48%N (2 - length s) ++ s.

Definition toHex (bs : bytes) : jsstring :=
  concat (map (fun b => padStart2 (toString16 b)) bs).

(** [parseInt(s, 16)]: leading white space, a sign, an optional [0x],
    then the longest run of hexadecimal digits; [None] is [NaN]. *)
Definition is_ws (c : N) : bool :=
  existsb (N.eqb c) [9; 10; 11; 12; 13; 32; 160; 5760; 8232; 8233; 8239;
                     8287; 12288; 65279]%N
  || ((8192 <=? c) && (c <=? 8202))%N.

Fixpoint skip_ws (s : jsstring) : jsstring :=
  match s with
  | c :: r => if is_ws c then skip_ws r else s
  | [] => []
  end.

Definition hexval (c : N) : option N :=
  (if (48 <=? c) && (c <=? 57) then Some (c - 48)
   else if (97 <=? c) && (c <=? 102) then Some (c - 87)
   else if (65 <=? c) && (c <=? 70) then Some (c - 55)
   else None)%N.

Fixpoint hex_run (acc : option N) (s : jsstring) : option N :=
  match s with
  | c :: r =>
      match hexval c with
      | Some d => hex_run (Some (16 * default 0 acc + d)%N) r
      | None => acc
      end
  | [] => acc
  end.

Definition parseInt16 (s : jsstring) : option Z :=
  let s1 := skip_ws s in
  let '(neg, s2) :=
    match s1 with
    | 45%N :: r => (true, r)
    | 43%N :: r => (false, r)
    | _ => (false, s1)
    end in
  let s3 :=
    match s2 with
    | 48%N :: 120%N :: r | 48%N :: 88%N :: r => r
    | _ => s2
    end in
  match hex_run None s3 with
  | None => None
  | Some n => Some (if neg : bool then - Z.of_N n else Z.of_N n)%Z
  end.

(** Storing a number in a [Uint8Array]: [NaN] is 0, integers wrap. *)
Definition ToUint8 (v : option Z) : byte :=
  match v with
  | None => Byte.x00
  | Some z => default Byte.x00 (Byte.of_N (Z.to_N (z mod 256)))
  end.

(** [hexToBytes]: [hex.length / 2] bytes (the length is truncated), one
    per pair [hex.substr(i, 2)]; the write for a trailing odd character
    is out of range and dropped. *)
Fixpoint hexToBytes (hex : jsstring) : bytes :=
  match hex with
  | a :: b :: rest => ToUint8 (parseInt16 [a; b]) :: hexToBytes rest
  | _ => []
  end.

(** Node's [Buffer.from(s, 'hex')]: pairs of hexadecimal digits, the
    input truncated at the first pair that is not one. *)
Fixpoint Buffer_from_hex (s : jsstring) : bytes :=
  match s with
  | a :: b :: rest =>
      match hexval a, hexval b with
      | Some x, Some y =>
          default Byte.x00 (Byte.of_N (16 * x + y)) :: Buffer_from_hex rest
      | _, _ => []
      end
  | _ => []
  end.

(** ** Coercions of the language *)

(** [String(n)] and [`${n}`] for an integer (below 10^21 in absolute
    value): its decimal digits. *)
Definition Number_toString (n : Z) : jsstring :=
  js (NilZero.string_of_int (Z.to_int n)).

Fixpoint join_comma (parts : list jsstring) : jsstring :=
  match parts with
  | [] => []
  | [p] => p
  | p :: rest => p ++ 44%N :: join_comma rest
  end.

(** [ToString]: an array is its elements joined by commas ([null] and
    [undefined] elements empty), a plain object [[object Object]]. *)
Fixpoint ToString (v : jsval) : jsstring :=
  match v with
  | VUndefined => js "undefined"
  | VNull => js "null"
  | VBool b => js (if b then "true" else "false")
  | VNum n => Number_toString n
  | VStr s => s
  | VArr l =>
      join_comma
        (map (fun x => match x with
                       | VUndefined | VNull => []
                       | _ => ToString x
                       end) l)
  | VObj _ => js "[object Object]"
  end.

(** [a < b] on strings: by code units. *)
Fixpoint str_lt (a b : jsstring) : bool :=
  match a, b with
  | _, [] => false
  | [], _ :: _ => true
  | x :: a', y :: b' => (x <? y)%N || ((x =? y)%N && str_lt a' b')
  end.

(** [[a, b].sort()] with the default comparison: [undefined] last, the
    others by their [ToString], equal elements in their order. *)
Definition sort2 (a b : jsval) : jsval * jsval :=
  match a, b with
  | VUndefined, VUndefined => (a, b)
  | VUndefined, _ => (b, a)
  | _, VUndefined => (a, b)
  | _, _ => if str_lt (ToString b) (ToString a) then (b, a) else (a, b)
  end.

(** Whether [ToPrimitive] of a value is a string. *)
Definition stringish (v : jsval) : bool :=
  match v with
  | VStr _ | VArr _ | VObj _ => true
  | _ => false
  end.

(** ** The platform: JSON, text encoding and the cryptographic libraries *)

Class Platform := {
  (** [JSON.stringify] of an object and [JSON.parse] ([None]: [SyntaxError]) *)
  JSON_stringify : jsval → jsstring;
  JSON_parse : jsstring → option jsval;
  (** [StringToNumber], [None] for [NaN] *)
  StringToNumber : jsstring → option Z;
  (** [new TextEncoder().encode], [Buffer.from(_, 'utf8')] and
      [new TextDecoder().decode] *)
  utf8_encode : jsstring → bytes;
  utf8_decode : bytes → jsstring;
  (** [Crypto.digest(SHA256, _)] *)
  sha256 : bytes → bytes;
  (** @noble/curves: [ed25519.getPublicKey(secret)],
      [ed25519.sign(message, secret)],
      [ed25519.verify(signature, message, publicKey)],
      [x25519.getPublicKey(secret)],
      [x25519.getSharedSecret(secret, peerPublic)]; [None] when the call
      throws *)
  ed25519_getPublicKey : bytes → option bytes;
  ed25519_sign : bytes → bytes → option bytes;
  ed25519_verify : bytes → bytes → bytes → option bool;
  x25519_getPublicKey : bytes → option bytes;
  x25519_getSharedSecret : bytes → bytes → option bytes;
  (** @noble/ciphers: [chacha20poly1305(key, nonce).encrypt(plaintext)]
      and [.decrypt(ciphertext)]; [None] when the call throws (a wrong
      key or nonce length, a tag that does not match) *)
  chacha20poly1305_encrypt : bytes → bytes → bytes → option bytes;
  chacha20poly1305_decrypt : bytes → bytes → bytes → option bytes;
  (** tweetnacl: [nacl.sign.detached.verify(message, signature, publicKey)] *)
  nacl_sign_detached_verify : bytes → bytes → bytes → option bool;
  (** expo-server-sdk: [Expo.isExpoPushToken] on a string (it is false
      on any other value) and
      [expo.sendPushNotificationsAsync([message])[0]] *)
  isExpoPushToken : jsstring → bool;
  sendPushNotification : jsval → option jsval;
}.

(** [ToNumber], [None] for [NaN]. *)
Definition ToNumber `{Platform} (v : jsval) : option Z :=
  match v with
  | VUndefined => None
  | VNull => Some 0%Z
  | VBool b => Some (if b then 1 else 0)%Z
  | VNum n => Some n
  | VStr s => StringToNumber s
  | VArr _ | VObj _ => StringToNumber (ToString v)
  end.

(** The text of [a + b], as [TextEncoder.encode(a + b)] reads it: a
    concatenation when either side is a string, an array or an object,
    a sum of numbers otherwise. *)
Definition add_text `{Platform} (a b : jsval) : jsstring :=
  if stringish a || stringish b then ToString a ++ ToString b
  else match ToNumber a, ToNumber b with
       | Some x, Some y => Number_toString (x + y)
       | _, _ => js "NaN"
       end.

(** [hexToBytes] on a value read out of parsed JSON (the source passes
    it at type [any]).  [hex.length] throws on [undefined] and [null];
    [new Uint8Array(hex.length / 2)] throws on a length of -2 or less;
    the loop runs when [0 < hex.length], and its first step throws unless
    [hex] is a string ([hex.substr] is not a function). *)
Definition hexToBytes_any `{Platform} (v : jsval) : Res bytes :=
  match v with
  | VStr s => Ok (hexToBytes s)
  | VUndefined | VNull => Throw
  | VBool _ | VNum _ => Ok []
  | VArr l => if l is [] then Ok [] else Throw
  | VObj fs =>
      match ToNumber (default VUndefined (assoc (js "length") fs)) with
      | None => Ok []
      | Some n => if ((n <=? -2) || (0 <? n))%Z then Throw else Ok []
      end
  end.

(** Values that [JSON.stringify] and [JSON.parse] carry unchanged: no
    [undefined], numbers that are safe integers, objects whose keys are
    distinct and start with a letter (so that insertion order is the
    enumeration order). *)
Definition is_letter (c : N) : bool :=
  (((65 <=? c) && (c <=? 90)) || ((97 <=? c) && (c <=? 122)))%N.

Definition plain_key (k : jsstring) : bool :=
  match k with
  | c :: _ => is_letter c
  | [] => false
  end.

Fixpoint distinct (ks : list jsstring) : bool :=
  match ks with
  | [] => true
  | k :: r => negb (existsb (str_eqb k) r) && distinct r
  end.

Definition safe_integer (n : Z) : bool :=
  (Z.abs n <=? 9007199254740991)%Z.

Fixpoint json_ok (v : jsval) : bool :=
  match v with
  | VUndefined => false
  | VNull | VBool _ | VStr _ => true
  | VNum n => safe_integer n
  | VArr l => forallb json_ok l
  | VObj fs =>
      forallb (fun kv => plain_key kv.1 && json_ok kv.2) fs
      && distinct (map fst fs)
  end.

(** What the proofs use of the platform. *)
Class PlatformLaws (P : Platform) : Prop := {
  (** JSON round trip, and the empty string is not JSON *)
  json_roundtrip v : json_ok v = true → JSON_parse (JSON_stringify v) = Some v;
  json_parse_empty : JSON_parse [] = None;
  (** the text [JSON.stringify] writes is well-formed UTF-16 *)
  utf8_roundtrip v :
    json_ok v = true →
    utf8_decode (utf8_encode (JSON_stringify v)) = JSON_stringify v;
  (** Ed25519 (RFC 8032): a 32-byte secret has a 32-byte public key and
      signs with 64 bytes; both verifiers accept the signature *)
  ed25519_correct sk msg :
    length sk = 32 →
    ∃ pk sig,
      ed25519_getPublicKey sk = Some pk ∧ length pk = 32
      ∧ ed25519_sign msg sk = Some sig ∧ length sig = 64
      ∧ ed25519_verify sig msg pk = Some true
      ∧ nacl_sign_detached_verify msg sig pk = Some true;
  (** X25519: both sides of the exchange derive the same 32-byte secret *)
  x25519_agreement a b :
    length a = 32 → length b = 32 →
    ∃ pa pb k,
      x25519_getPublicKey a = Some pa ∧ x25519_getPublicKey b = Some pb
      ∧ length pa = 32 ∧ length pb = 32
      ∧ x25519_getSharedSecret a pb = Some k
      ∧ x25519_getSharedSecret b pa = Some k
      ∧ length k = 32;
  (** ChaCha20-Poly1305 with a 32-byte key and a 12-byte nonce *)
  chacha20poly1305_correct k n pt :
    length k = 32 → length n = 12 →
    ∃ ct, chacha20poly1305_encrypt k n pt = Some ct
          ∧ chacha20poly1305_decrypt k n ct = Some pt;
}.

(** ** Stateful computations: a state and exception monad *)

Definition M (W A : Type) : Type := W → Res A * W.

Definition ret {W A} (a : A) : M W A := fun w => (Ok a, w).

Definition bind {W A B} (m : M W A) (k : A → M W B) : M W B :=
  fun w =>
    match m w with
    | (Ok a, w') => k a w'
    | (Throw, w') => (Throw, w')
    end.

Definition lift {W A} (r : Res A) : M W A := fun w => (r, w).

(** [try { body } catch { handler }]: what [body] did to the state
    before it threw stays done. *)
Definition try_catch {W A} (body handler : M W A) : M W A :=
  fun w =>
    match body w with
    | (Ok a, w') => (Ok a, w')
    | (Throw, w') => handler w'
    end.

Declare Scope m_scope.
Delimit Scope m_scope with m.
Notation "'let*' x := e 'in' k" := (bind e (fun x => k))
  (at level 10, x pattern, e at level 100, k at level 200) : m_scope.
Notation "e ;; k" := (bind e (fun _ => k))
  (at level 100, k at level 200, right associativity) : m_scope.

(** * The client: utils/keys.ts *)

Module Client.
Section WithPlatform.
Context `{P : Platform}.

Local Open Scope m_scope.

(** The device: the secure store, the random source, the clock and the
    error console. *)
Record World := {
  secureStore : gmap string jsstring;
  secureStore_down : bool;      (* every SecureStore call rejects *)
  entropy : nat → byte;         (* the random bytes, in the order drawn *)
  drawn : nat;
  clock : Z;                    (* [Date.now()] *)
  console : list string;        (* [console.error], newest first *)
}.

Definition getItemAsync (k : string) : M World (option jsstring) :=
  fun w => if secureStore_down w then (Throw, w) else (Ok (secureStore w !! k), w).

Definition setItemAsync (k : string) (v : jsstring) : M World unit :=
  fun w =>
    if secureStore_down w then (Throw, w)
    else (Ok (), {| secureStore := <[k := v]> (secureStore w);
                    secureStore_down := secureStore_down w;
                    entropy := entropy w; drawn := drawn w;
                    clock := clock w; console := console w |}).

Definition getRandomBytes (n : nat) : M World bytes :=
  fun w =>
    (Ok (map (fun i => entropy w (drawn w + i)) (seq 0 n)),
     {| secureStore := secureStore w; secureStore_down := secureStore_down w;
        entropy := entropy w; drawn := drawn w + n;
        clock := clock w; console := console w |}).

Definition Date_now : M World Z := fun w => (Ok (clock w), w).

Definition console_error (msg : string) : M World unit :=
  fun w =>
    (Ok (), {| secureStore := secureStore w;
               secureStore_down := secureStore_down w;
               entropy := entropy w; drawn := drawn w;
               clock := clock w; console := msg :: console w |}).

Definition PUBLIC_KEY : string := "user_public_key".
Definition PRIVATE_KEY : string := "user_private_key".

(** [JSON.parse] in a computation. *)
Definition parse (s : jsstring) : Res jsval := of_option (JSON_parse s).

Definition generateConversationId (publicKey1 publicKey2 : jsstring) : Res jsstring :=
  (let? key1Data := parse publicKey1 in
   let? key2Data := parse publicKey2 in
   let? k1 := prop key1Data "ed25519" in
   let? k2 := prop key2Data "ed25519" in
   let '(sortedKey1, sortedKey2) := sort2 k1 k2 in
   let combined := add_text sortedKey1 sortedKey2 in
   Ok (toHex (sha256 (utf8_encode combined))))%res.

Record Keys := { publicKey : jsstring; privateKey : jsstring }.

(** [ed25519.utils.randomSecretKey()]: 32 bytes of the random source. *)
Definition randomSecretKey : M World bytes := getRandomBytes 32.

(** The two key pairs of a seed, as [generateKeyPair] builds and
    serialises them. *)
Definition keyPair_of (seed ed25519PublicKey x25519PublicKey : bytes) : jsval :=
  obj [("ed25519", obj [("publicKey", VStr (toHex ed25519PublicKey));
                        ("privateKey", VStr (toHex seed))]);
       ("x25519", obj [("publicKey", VStr (toHex x25519PublicKey));
                       ("privateKey", VStr (toHex seed))])].

Definition publicKeyData_of (ed25519PublicKey x25519PublicKey : bytes) : jsval :=
  obj [("ed25519", VStr (toHex ed25519PublicKey));
       ("x25519", VStr (toHex x25519PublicKey))].

Definition generateKeyPair : M World Keys :=
  let* seed := randomSecretKey in
  let ed25519PrivateKey := seed in
  let* ed25519PublicKey := lift (of_option (ed25519_getPublicKey ed25519PrivateKey)) in
  let x25519PrivateKey := seed in
  let* x25519PublicKey := lift (of_option (x25519_getPublicKey x25519PrivateKey)) in
  let keyPair :=
    obj [("ed25519", obj [("publicKey", VStr (toHex ed25519PublicKey));
                          ("privateKey", VStr (toHex ed25519PrivateKey))]);
         ("x25519", obj [("publicKey", VStr (toHex x25519PublicKey));
                         ("privateKey", VStr (toHex x25519PrivateKey))])] in
  let publicKeyData :=
    obj [("ed25519", VStr (toHex ed25519PublicKey));
         ("x25519", VStr (toHex x25519PublicKey))] in
  ret {| publicKey := JSON_stringify publicKeyData;
         privateKey := JSON_stringify keyPair |}.

(** [!s] for a stored item: [null] and the empty string are falsy. *)
Definition missing (s : option jsstring) : bool :=
  match s with
  | None | Some [] => true
  | Some _ => false
  end.

Definition getKeys : M World Keys :=
  try_catch
    (let* storedPublicKey := getItemAsync PUBLIC_KEY in
     let* storedPrivateKey := getItemAsync PRIVATE_KEY in
     if missing storedPublicKey || missing storedPrivateKey then
       let* keys := generateKeyPair in
       setItemAsync PUBLIC_KEY (publicKey keys);;
       setItemAsync PRIVATE_KEY (privateKey keys);;
       ret keys
     else
       ret {| publicKey := default [] storedPublicKey;
              privateKey := default [] storedPrivateKey |})
    (console_error "Error getting keys:";;
     generateKeyPair).

Definition signMessage (message : jsstring) : M World jsstring :=
  try_catch
    (let* keys := getKeys in
     let* keyPair := lift (parse (privateKey keys)) in
     let* ed25519PrivateKeyBytes :=
       lift (let? ed := prop keyPair "ed25519" in
             let? sk := prop ed "privateKey" in
             hexToBytes_any sk)%res in
     let messageBytes := utf8_encode message in
     let* signature := lift (of_option (ed25519_sign messageBytes ed25519PrivateKeyBytes)) in
     ret (toHex signature))
    (console_error "Error signing message:";;
     lift Throw).

Record Encrypted := { destination : jsstring; message : jsstring }.

Definition encryptMessage (message recipientPublicKey : jsstring) : M World Encrypted :=
  try_catch
    (let* keys := getKeys in
     let* keyPair := lift (parse (privateKey keys)) in
     let* timestamp := Date_now in
     let payload :=
       obj [("publicKey", VStr (publicKey keys));
            ("message", VStr message);
            ("timestamp", VNum timestamp)] in
     let payloadString := JSON_stringify payload in
     let* recipientPublicKeyData := lift (parse recipientPublicKey) in
     let* x25519PrivateKeyBytes :=
       lift (let? x := prop keyPair "x25519" in
             let? sk := prop x "privateKey" in
             hexToBytes_any sk)%res in
     let* recipientX25519PublicKeyBytes :=
       lift (let? x := prop recipientPublicKeyData "x25519" in
             hexToBytes_any x)%res in
     let* sharedSecret :=
       lift (of_option (x25519_getSharedSecret x25519PrivateKeyBytes
                          recipientX25519PublicKeyBytes)) in
     let payloadBytes := utf8_encode payloadString in
     let* nonce := getRandomBytes 12 in
     let* encrypted :=
       lift (of_option (chacha20poly1305_encrypt sharedSecret nonce payloadBytes)) in
     let encryptedHex := toHex encrypted in
     let nonceHex := toHex nonce in
     let* ed25519PrivateKeyBytes :=
       lift (let? ed := prop keyPair "ed25519" in
             let? sk := prop ed "privateKey" in
             hexToBytes_any sk)%res in
     let* signature := lift (of_option (ed25519_sign encrypted ed25519PrivateKeyBytes)) in
     let encryptedMessage :=
       JSON_stringify (obj [("encrypted", VStr encryptedHex);
                            ("nonce", VStr nonceHex);
                            ("signature", VStr (toHex signature))]) in
     ret {| destination := recipientPublicKey; message := encryptedMessage |})
    (console_error "Error encrypting message:";;
     lift Throw).

(** The argument of [decryptMessage], at its declared type. *)
Record EncryptedMessage := {
  encrypted : jsstring;
  nonce : option jsstring;      (* [nonce?: string] *)
  signature : jsstring;
}.

Record EncryptedPayload := {
  origin : jsstring;
  payload_destination : jsstring;
  encryptedMessage : EncryptedMessage;
}.

Record Decrypted := {
  senderPublicKey : jsval;
  decrypted_message : jsval;
  timestamp : jsval;
}.

Definition decryptMessage (encryptedPayload : EncryptedPayload) : M World (option Decrypted) :=
  try_catch
    (let* keys := getKeys in
     let* keyPair := lift (parse (privateKey keys)) in
     let parsed := encryptedMessage encryptedPayload in
     if missing (nonce parsed) then
       console_error "Missing nonce - old message format not supported";;
       ret None
     else
       let nonce := default [] (nonce parsed) in
       let* senderPublicKeyData := lift (parse (origin encryptedPayload)) in
       let* senderEd25519PublicKeyBytes :=
         lift (let? ed := prop senderPublicKeyData "ed25519" in
               hexToBytes_any ed)%res in
       let signatureBytes := hexToBytes (signature parsed) in
       let encryptedBytesForVerification := hexToBytes (encrypted parsed) in
       let* isValid :=
         lift (of_option (ed25519_verify signatureBytes encryptedBytesForVerification
                            senderEd25519PublicKeyBytes)) in
       (if isValid : bool then ret ()
        else console_error "Signature verification failed");;
       let* x25519PrivateKeyBytes :=
         lift (let? x := prop keyPair "x25519" in
               let? sk := prop x "privateKey" in
               hexToBytes_any sk)%res in
       let* senderX25519PublicKeyBytes :=
         lift (let? x := prop senderPublicKeyData "x25519" in
               hexToBytes_any x)%res in
       let* sharedSecret :=
         lift (of_option (x25519_getSharedSecret x25519PrivateKeyBytes
                            senderX25519PublicKeyBytes)) in
       let encryptedBytes := hexToBytes (encrypted parsed) in
       let nonceBytes := hexToBytes nonce in
       let* decryptedBytes :=
         lift (of_option (chacha20poly1305_decrypt sharedSecret nonceBytes encryptedBytes)) in
       let decrypted := utf8_decode decryptedBytes in
       let* payload := lift (parse decrypted) in
       let* result :=
         lift (let? pk := prop payload "publicKey" in
               let? m := prop payload "message" in
               let? t := prop payload "timestamp" in
               Ok {| senderPublicKey := pk; decrypted_message := m; timestamp := t |})%res in
       ret (Some result))
    (console_error "Error decrypting message:";;
     ret None).

(** hooks/useBackend.tsx, [sendMessage]: the request body it posts to
    [/send]. *)
Record SendPayload := {
  send_origin : jsstring;
  send_destination : jsstring;
  send_encryptedMessage : jsstring;
}.

Definition messageToSign (timestamp : Z) (payload : SendPayload) : jsstring :=
  Number_toString timestamp ++ send_destination payload ++ send_encryptedMessage payload.

Definition authenticatedPayload (payload : SendPayload) : M World jsval :=
  let* timestamp := Date_now in
  let* signature := signMessage (messageToSign timestamp payload) in
  ret (obj [("origin", VStr (send_origin payload));
            ("destination", VStr (send_destination payload));
            ("encryptedMessage", VStr (send_encryptedMessage payload));
            ("timestamp", VNum timestamp);
            ("signature", VStr signature)]).

End WithPlatform.
End Client.

(** * The relay: server.js *)

Module Server.
Section WithPlatform.
Context `{P : Platform}.

Local Open Scope m_scope.

(** A row of [recipients], keyed by [recipient_id]; the times are
    [CURRENT_TIMESTAMP], in seconds.  (The [id] column is never read.) *)
Record Recipient := {
  expo_push_token : jsstring;
  created_at : Z;
  updated_at : Z;
}.

(** What a handler calls outside itself, in order. *)
Inductive Event :=
| ReadClock
| VerifySignature
| SelectRecipient (recipient_id : jsstring)
| UpsertRecipient (recipient_id : jsstring)
| PushNotification
| Log (msg : string).

Record World := {
  recipients : gmap jsstring Recipient;
  clock : Z;                          (* [Date.now()], milliseconds *)
  env_TIMESTAMP_TOLERANCE : option Z; (* [parseInt(process.env.TIMESTAMP_TOLERANCE)], [None] for [NaN] *)
  trace : list Event;                 (* newest first *)
}.

Definition emit (e : Event) : M World unit :=
  fun w => (Ok (), {| recipients := recipients w; clock := clock w;
                      env_TIMESTAMP_TOLERANCE := env_TIMESTAMP_TOLERANCE w;
                      trace := e :: trace w |}).

Definition Date_now : M World Z :=
  emit ReadClock;; fun w => (Ok (clock w), w).

(** [parseInt(process.env.TIMESTAMP_TOLERANCE) || 300000] *)
Definition TIMESTAMP_TOLERANCE (w : World) : Z :=
  match env_TIMESTAMP_TOLERANCE w with
  | None | Some 0%Z => 300000
  | Some n => n
  end.

Definition CURRENT_TIMESTAMP (w : World) : Z := (clock w / 1000)%Z.

(** ** Validation helpers *)

Definition all_hex (s : jsstring) : bool :=
  forallb (fun c => if hexval c is Some _ then true else false) s.

(** [/^(0x)?[a-f0-9]{64}$/i] *)
Definition hexPattern_key (s : jsstring) : bool :=
  let digits :=
    match s with
    | c1 :: c2 :: r =>
        if ((c1 =? 48) && ((c2 =? 120) || (c2 =? 88)))%N then r else s
    | _ => s
    end in
  (length digits =? 64) && all_hex digits.

(** [/^[a-f0-9]+$/i] *)
Definition hexPattern (s : jsstring) : bool :=
  negb (length s =? 0) && all_hex s.

(** [/^[a-f0-9]{128}$/i] *)
Definition hexPattern_signature (s : jsstring) : bool :=
  (length s =? 128) && all_hex s.

(** A [try { ... } catch { return false }] around a test. *)
Definition or_false (r : Res bool) : bool :=
  match r with
  | Ok b => b
  | Throw => false
  end.

Definition isValidKeyObject (keyObj : jsval) : bool :=
  match keyObj with
  | VStr s =>
      if 500 <? length s then false
      else
        or_false
          (let? parsed := of_option (JSON_parse s) in
           let? ed25519 := prop parsed "ed25519" in
           let? x25519 := prop parsed "x25519" in
           if negb (truthy ed25519) || negb (truthy x25519) then Ok false
           else
             Ok (match ed25519, x25519 with
                 | VStr e, VStr x => hexPattern_key e && hexPattern_key x
                 | _, _ => false
                 end))%res
  | _ => false
  end.

Definition isValidEncryptedMessage (msg : jsval) : bool :=
  match msg with
  | VStr s =>
      if 5000 <? length s then false
      else
        or_false
          (let? parsed := of_option (JSON_parse s) in
           let? encrypted := prop parsed "encrypted" in
           let? signature := prop parsed "signature" in
           let? nonce := prop parsed "nonce" in
           if negb (truthy encrypted) || negb (truthy signature) || negb (truthy nonce)
           then Ok false
           else
             Ok (match encrypted, signature, nonce with
                 | VStr e, VStr s, VStr n => hexPattern e && hexPattern s && hexPattern n
                 | _, _, _ => false
                 end))%res
  | _ => false
  end.

(** [s.replace(/^0x/, '')] *)
Definition strip_0x (s : jsstring) : jsstring :=
  match s with
  | c1 :: c2 :: r => if ((c1 =? 48) && (c2 =? 120))%N then r else s
  | _ => s
  end.

(** The bytes the relay checks the request signature against. *)
Definition signedMessage (timestamp : Z) (destination encryptedMessage : jsstring) : jsstring :=
  Number_toString timestamp ++ destination ++ encryptedMessage.

(** [verifyRequestSignature], on arguments that passed the handler's
    checks: [origin], [destination], [encryptedMessage] and [signature]
    strings, [timestamp] a number. *)
Definition verifyRequestSignature
    (origin : jsstring) (timestamp : Z)
    (destination encryptedMessage signature : jsstring) : M World bool :=
  try_catch
    (let* now := Date_now in
     let* tolerance := (fun w => (Ok (TIMESTAMP_TOLERANCE w), w)) in
     if (tolerance <? Z.abs (now - timestamp))%Z then
       emit (Log "Timestamp validation failed:");;
       ret false
     else
       let message := signedMessage timestamp destination encryptedMessage in
       let messageBytes := utf8_encode message in
       let signatureBytes := Buffer_from_hex signature in
       let* originKeys := lift (of_option (JSON_parse origin)) in
       let* publicKeyHex :=
         lift (let? ed := prop originKeys "ed25519" in
               match ed with
               | VStr e => Ok (strip_0x e)
               | _ => Throw
               end)%res in
       let publicKey := Buffer_from_hex publicKeyHex in
       emit VerifySignature;;
       let* isValid :=
         lift (of_option (nacl_sign_detached_verify messageBytes signatureBytes publicKey)) in
       (if isValid : bool then ret ()
        else emit (Log "Signature verification failed"));;
       ret isValid)
    (emit (Log "Signature verification error:");;
     ret false).

(** [sanitizeForLog(req.body)]: the copy is only printed.  It throws
    where it calls [substring] on a value that is not a string: a truthy
    [signature], or a truthy [expoPushToken] whose [length] exceeds 30.
    (The [recipientId], [destination], [origin] and [encryptedMessage]
    branches run inside [try] blocks.) *)
Definition length_of (v : jsval) : jsval :=
  match v with
  | VStr s => VNum (Z.of_nat (length s))
  | VArr l => VNum (Z.of_nat (length l))
  | VObj fs => default VUndefined (assoc (js "length") fs)
  | _ => VUndefined
  end.

Definition sanitizeForLog (body : jsval) : Res unit :=
  let token := field body "expoPushToken" in
  let signature := field body "signature" in
  (let? _ :=
     if truthy token then
       match token, ToNumber (length_of token) with
       | VStr _, _ => Ok ()
       | _, Some n => if (30 <? n)%Z then Throw else Ok ()
       | _, None => Ok ()
       end
     else Ok () in
   if truthy signature then
     match signature with
     | VStr _ => Ok ()
     | _ => Throw
     end
   else Ok ())%res.

Record Response := { status : Z; json : jsval }.

Definition error_response (code : Z) (msg : string) : Response :=
  {| status := code;
     json := obj [("success", VBool false); ("error", VStr (js msg))] |}.

(** ** [POST /register] *)

Definition upsert (recipientId expoPushToken : jsstring) : M World unit :=
  emit (UpsertRecipient recipientId);;
  fun w =>
    let row :=
      match recipients w !! recipientId with
      | Some r => {| expo_push_token := expoPushToken;
                     created_at := created_at r;
                     updated_at := CURRENT_TIMESTAMP w |}
      | None => {| expo_push_token := expoPushToken;
                   created_at := CURRENT_TIMESTAMP w;
                   updated_at := CURRENT_TIMESTAMP w |}
      end in
    (Ok (), {| recipients := <[recipientId := row]> (recipients w);
               clock := clock w;
               env_TIMESTAMP_TOLERANCE := env_TIMESTAMP_TOLERANCE w;
               trace := trace w |}).

Definition register (body : jsval) : M World Response :=
  let recipientId := field body "recipientId" in
  let expoPushToken := field body "expoPushToken" in
  lift (sanitizeForLog body);;
  if negb (truthy recipientId) || negb (truthy expoPushToken) then
    ret (error_response 400 "Missing required fields: recipientId, expoPushToken")
  else if negb (isValidKeyObject recipientId) then
    ret (error_response 400 "Invalid recipientId: must be JSON with ed25519 and x25519 keys")
  else
    match recipientId, expoPushToken with
    | VStr id, VStr token =>
        if isExpoPushToken token then
          upsert id token;;
          ret {| status := 200;
                 json := obj [("success", VBool true); ("recipient", recipientId)] |}
        else ret (error_response 400 "Invalid Expo push token format")
    | _, _ => ret (error_response 400 "Invalid Expo push token format")
    end.

(** ** [POST /send] *)

(** [SELECT expo_push_token FROM recipients WHERE recipient_id = ?] *)
Definition lookup (destination : jsstring) : M World (option jsstring) :=
  emit (SelectRecipient destination);;
  fun w => (Ok (expo_push_token <$> recipients w !! destination), w).

Definition send (body : jsval) : M World Response :=
  let recipientId := field body "recipientId" in
  let sound := field body "sound" in
  let badge := field body "badge" in
  let channelId := field body "channelId" in
  let encryptedMessage := field body "encryptedMessage" in
  let destination := field body "destination" in
  let origin := field body "origin" in
  let timestamp := field body "timestamp" in
  let signature := field body "signature" in
  lift (sanitizeForLog body);;
  if negb (truthy encryptedMessage) || negb (truthy destination)
     || negb (truthy timestamp) || negb (truthy signature) then
    ret (error_response 400
           "Missing required fields: encryptedMessage, destination, timestamp, signature")
  else
    match timestamp with
    | VNum ts =>
        if (ts <=? 0)%Z then
          ret (error_response 400 "Invalid timestamp: must be a positive number")
        else
          match signature with
          | VStr sig =>
              if negb (hexPattern_signature sig) then
                ret (error_response 400 "Invalid signature: must be 128-character hex string")
              else if negb (isValidKeyObject destination) then
                ret (error_response 400
                       "Invalid destination format: must be JSON with ed25519 and x25519 keys")
              else if truthy origin && negb (isValidKeyObject origin) then
                ret (error_response 400
                       "Invalid origin format: must be JSON with ed25519 and x25519 keys")
              else if negb (isValidEncryptedMessage encryptedMessage) then
                ret (error_response 400
                       "Invalid encrypted message format: must contain encrypted, signature, and nonce hex strings")
              else
                match origin, destination, encryptedMessage with
                | VStr o, VStr d, VStr em =>
                    let* authentic :=
                      if negb (truthy origin) then ret false
                      else verifyRequestSignature o ts d em sig in
                    if negb authentic then
                      ret (error_response 401 "Unauthorized: Invalid or expired signature")
                    else
                      try_catch
                        (let* recipient := lookup d in
                         match recipient with
                         | None => ret (error_response 404 "Recipient not found")
                         | Some token =>
                             let* parsed := lift (of_option (JSON_parse em)) in
                             let* encrypted := lift (prop parsed "encrypted") in
                             let* signature := lift (prop parsed "signature") in
                             let* nonce := lift (prop parsed "nonce") in
                             let message :=
                               VObj ([(js "to", VStr token);
                                      (js "title", VStr (js "Ring ring!"));
                                      (js "body", VStr (js "A new message has arrived"));
                                      (js "data",
                                        obj [("origin", origin);
                                             ("destination", destination);
                                             ("encryptedMessage",
                                               obj [("encrypted", encrypted);
                                                    ("signature", signature);
                                                    ("nonce", nonce)])]);
                                      (js "sound",
                                        if truthy sound then sound else VStr (js "default"))]
                                     ++ (if badge is VUndefined then [] else [(js "badge", badge)])
                                     ++ (if truthy channelId then [(js "channelId", channelId)] else [])) in
                             emit PushNotification;;
                             let* ticket := lift (of_option (sendPushNotification message)) in
                             ret {| status := 200;
                                    json := obj [("success", VBool true);
                                                 ("recipient", recipientId);
                                                 ("ticket", ticket)] |}
                         end)
                        (ret (error_response 500 "Failed to send notification"))
                | _, _, _ =>
                    ret (error_response 401 "Unauthorized: Invalid or expired signature")
                end
          | _ => ret (error_response 400 "Invalid signature: must be 128-character hex string")
          end
    | _ => ret (error_response 400 "Invalid timestamp: must be a positive number")
    end.

End WithPlatform.
End Server.

(** * Definitions the statements use *)

Module Spec.
Section WithPlatform.
Context `{P : Platform}.

(** The public Identity and the stored secret of a seed, as
    [generateKeyPair] serialises them. *)
Definition identity_of (seed : bytes) : option jsstring :=
  edPub ← ed25519_getPublicKey seed;
  xPub ← x25519_getPublicKey seed;
  Some (JSON_stringify (Client.publicKeyData_of edPub xPub)).

Definition secret_of (seed : bytes) : option jsstring :=
  edPub ← ed25519_getPublicKey seed;
  xPub ← x25519_getPublicKey seed;
  Some (JSON_stringify (Client.keyPair_of seed edPub xPub)).

(** The private key of each role, as [signMessage], [encryptMessage] and
    [decryptMessage] read it out of the stored secret. *)
Definition ed25519PrivateKeyBytes (privateKey : jsstring) : Res bytes :=
  (let? keyPair := Client.parse privateKey in
   let? ed := prop keyPair "ed25519" in
   let? sk := prop ed "privateKey" in
   hexToBytes_any sk)%res.

Definition x25519PrivateKeyBytes (privateKey : jsstring) : Res bytes :=
  (let? keyPair := Client.parse privateKey in
   let? x := prop keyPair "x25519" in
   let? sk := prop x "privateKey" in
   hexToBytes_any sk)%res.

(** A device whose secure store works and holds the keys generated from
    [seed]. *)
Definition installed (w : Client.World) (seed : bytes) : Prop :=
  Client.secureStore_down w = false
  ∧ length seed = 32
  ∧ Client.secureStore w !! Client.PUBLIC_KEY = identity_of seed
  ∧ Client.secureStore w !! Client.PRIVATE_KEY = secret_of seed.

(** A device before its first use. *)
Definition fresh (w : Client.World) : Prop :=
  Client.secureStore_down w = false
  ∧ Client.secureStore w !! Client.PUBLIC_KEY = None.

(** The next [n] bytes the random source will give. *)
Definition next_random (w : Client.World) (n : nat) : bytes :=
  map (fun i => Client.entropy w (Client.drawn w + i)) (seq 0 n).

(** [data.encryptedMessage] of a notification, at the type
    [decryptMessage] declares for it. *)
Definition as_EncryptedMessage (v : jsval) : option Client.EncryptedMessage :=
  match v with
  | VObj fs =>
      match assoc (js "encrypted") fs, assoc (js "signature") fs with
      | Some (VStr e), Some (VStr s) =>
          match assoc (js "nonce") fs with
          | Some (VStr n) =>
              Some {| Client.encrypted := e; Client.nonce := Some n; Client.signature := s |}
          | None | Some VUndefined =>
              Some {| Client.encrypted := e; Client.nonce := None; Client.signature := s |}
          | Some _ => None
          end
      | _, _ => None
      end
  | _ => None
  end.

(** The plaintext payload and the envelope of [encryptMessage]. *)
Definition payload_of (senderPublicKey message : jsstring) (timestamp : Z) : jsval :=
  obj [("publicKey", VStr senderPublicKey);
       ("message", VStr message);
       ("timestamp", VNum timestamp)].

Definition envelope_of (encrypted nonce signature : bytes) : jsval :=
  obj [("encrypted", VStr (toHex encrypted));
       ("nonce", VStr (toHex nonce));
       ("signature", VStr (toHex signature))].

(** What an honest exchange from the holder of seed [a] to the holder of
    seed [b] fixes: the public keys of both, the shared secret, the
    ciphertext [ct] of the payload under nonce [n] and the signature
    [sig] over it. *)
Inductive Exchange (a b : bytes) (A B m : jsstring) (ts : Z) (n ct sig : bytes) : Prop :=
| exchange (edA xA edB xB k : bytes)
    (ex_ed_a : ed25519_getPublicKey a = Some edA)
    (ex_x_a : x25519_getPublicKey a = Some xA)
    (ex_ed_b : ed25519_getPublicKey b = Some edB)
    (ex_x_b : x25519_getPublicKey b = Some xB)
    (ex_A : A = JSON_stringify (Client.publicKeyData_of edA xA))
    (ex_B : B = JSON_stringify (Client.publicKeyData_of edB xB))
    (ex_ab : x25519_getSharedSecret a xB = Some k)
    (ex_ba : x25519_getSharedSecret b xA = Some k)
    (ex_enc : chacha20poly1305_encrypt k n
                (utf8_encode (JSON_stringify (payload_of A m ts))) = Some ct)
    (ex_dec : chacha20poly1305_decrypt k n ct
              = Some (utf8_encode (JSON_stringify (payload_of A m ts))))
    (ex_sign : ed25519_sign ct a = Some sig)
    (ex_verify : ed25519_verify sig ct edA = Some true).

(** [console.error(msg)] on a device. *)
Definition logged (msg : string) (w : Client.World) : Client.World :=
  (Client.console_error msg w).2.

(** The signature check of [decryptMessage]: [isValid], over the
    ciphertext, under the signing key of [origin]. *)
Definition isValid (origin : jsstring) (em : Client.EncryptedMessage) : Res bool :=
  (let? senderPublicKeyData := Client.parse origin in
   let? senderEd25519PublicKeyBytes :=
     (let? ed := prop senderPublicKeyData "ed25519" in hexToBytes_any ed) in
   of_option (ed25519_verify (hexToBytes (Client.signature em))
                (hexToBytes (Client.encrypted em)) senderEd25519PublicKeyBytes))%res.

(** The key [decryptMessage] opens the ciphertext with. *)
Definition sharedSecret (privateKey origin : jsstring) : Res bytes :=
  (let? sk := x25519PrivateKeyBytes privateKey in
   let? senderPublicKeyData := Client.parse origin in
   let? pk := (let? x := prop senderPublicKeyData "x25519" in hexToBytes_any x) in
   of_option (x25519_getSharedSecret sk pk))%res.

(** The envelope string of [encryptMessage], as the recipient's
    notification carries it. *)
Definition received (encryptedMessage : jsstring) : option Client.EncryptedMessage :=
  v ← JSON_parse encryptedMessage; as_EncryptedMessage v.

(** The server at another time of day. *)
Definition at_time (t : Z) (w : Server.World) : Server.World :=
  {| Server.recipients := Server.recipients w;
     Server.clock := t;
     Server.env_TIMESTAMP_TOLERANCE := Server.env_TIMESTAMP_TOLERANCE w;
     Server.trace := Server.trace w |}.

(** The sequence a request signature covers, in the words of the
    specification: the timestamp in decimal ASCII, then the destination
    Identity, then the envelope, with no separators. *)
Definition signed_sequence (timestamp : Z) (destination envelope : jsstring) : jsstring :=
  Number_toString timestamp ++ destination ++ envelope.

(** The signature check of [verifyRequestSignature], past its timestamp
    check. *)
Definition request_signature_valid
    (origin : jsstring) (timestamp : Z) (destination encryptedMessage signature : jsstring)
    : Res bool :=
  (let? originKeys := of_option (JSON_parse origin) in
   let? publicKeyHex :=
     (let? ed := prop originKeys "ed25519" in
      match ed with
      | VStr e => Ok (Server.strip_0x e)
      | _ => Throw
      end) in
   of_option (nacl_sign_detached_verify
                (utf8_encode (Server.signedMessage timestamp destination encryptedMessage))
                (Buffer_from_hex signature) (Buffer_from_hex publicKeyHex)))%res.

(** The server after the events [es], newest first. *)
Definition traced (es : list Server.Event) (w : Server.World) : Server.World :=
  {| Server.recipients := Server.recipients w;
     Server.clock := Server.clock w;
     Server.env_TIMESTAMP_TOLERANCE := Server.env_TIMESTAMP_TOLERANCE w;
     Server.trace := es ++ Server.trace w |}.

(** A call of [verifyRequestSignature] that stopped at the timestamp
    check: it read the clock, logged the failure and did nothing else. *)
Definition rejected_for_timestamp (w w' : Server.World) : Prop :=
  Server.trace w' = Server.Log "Timestamp validation failed:" :: Server.ReadClock
                    :: Server.trace w.

(** A registration the relay accepts. *)
Definition valid_registration (identity token : jsstring) : bool :=
  truthy (VStr identity) && truthy (VStr token)
  && Server.isValidKeyObject (VStr identity) && isExpoPushToken token.

(** A request body that passes the shape checks of [/send] up to the
    origin. *)
Definition shape_ok (body : jsval) (ts : Z) (d em sig : jsstring) : Prop :=
  Server.sanitizeForLog body = Ok ()
  ∧ field body "timestamp" = VNum ts ∧ (0 < ts)%Z
  ∧ field body "signature" = VStr sig ∧ Server.hexPattern_signature sig = true
  ∧ field body "destination" = VStr d ∧ d ≠ []
  ∧ Server.isValidKeyObject (VStr d) = true
  ∧ field body "encryptedMessage" = VStr em ∧ em ≠ []
  ∧ Server.isValidEncryptedMessage (VStr em) = true.

(** The body of a registration request. *)
Definition register_body (identity token : jsstring) : jsval :=
  obj [("recipientId", VStr identity); ("expoPushToken", VStr token)].

(** The state a handler leaves. *)
Definition after {A} (m : M Server.World A) (w : Server.World) : Server.World := (m w).2.

Definition unauthorized : Server.Response :=
  Server.error_response 401 "Unauthorized: Invalid or expired signature".


End WithPlatform.
End Spec.

(** * A small platform, for examples *)

Module Toy.

(** A number is written in binary. *)
Fixpoint encode_pos (p : positive) : jsstring :=
  match p with
  | xH => [1%N]
  | xO q => 2%N :: encode_pos q
  | xI q => 3%N :: encode_pos q
  end.

Fixpoint decode_pos (s : jsstring) : option (positive * jsstring) :=
  match s with
  | 1%N :: r => Some (xH, r)
  | 2%N :: r =>
      match decode_pos r with
      | Some (q, r') => Some (xO q, r')
      | None => None
      end
  | 3%N :: r =>
      match decode_pos r with
      | Some (q, r') => Some (xI q, r')
      | None => None
      end
  | _ => None
  end.

Fixpoint encode (v : jsval) : jsstring :=
  match v with
  | VUndefined => [0%N]
  | VNull => [1%N]
  | VBool b => [2%N; if b then 1%N else 0%N]
  | VNum n =>
      3%N :: match n with
             | Z0 => [0%N]
             | Zpos p => 1%N :: encode_pos p
             | Zneg p => 2%N :: encode_pos p
             end
  | VStr s => 4%N :: N.of_nat (length s) :: s
  | VArr l => 5%N :: N.of_nat (length l) :: concat (map encode l)
  | VObj fs =>
      6%N :: N.of_nat (length fs)
      :: concat (map (fun kv => N.of_nat (length kv.1) :: kv.1 ++ encode kv.2) fs)
  end.

Fixpoint many {A} (d : jsstring → option (A * jsstring)) (count : nat) (s : jsstring)
    : option (list A * jsstring) :=
  match count with
  | 0 => Some ([], s)
  | S c =>
      match d s with
      | Some (a, s') =>
          match many d c s' with
          | Some (l, s'') => Some (a :: l, s'')
          | None => None
          end
      | None => None
      end
  end.

Definition chunk (n : N) (s : jsstring) : option (jsstring * jsstring) :=
  if length s <? N.to_nat n then None
  else Some (take (N.to_nat n) s, drop (N.to_nat n) s).

Fixpoint decode (fuel : nat) (s : jsstring) : option (jsval * jsstring) :=
  match fuel with
  | 0 => None
  | S f =>
      match s with
      | 0%N :: r => Some (VUndefined, r)
      | 1%N :: r => Some (VNull, r)
      | 2%N :: b :: r => Some (VBool (negb (b =? 0)%N), r)
      | 3%N :: 0%N :: r => Some (VNum 0, r)
      | 3%N :: 1%N :: r =>
          match decode_pos r with
          | Some (p, r') => Some (VNum (Zpos p), r')
          | None => None
          end
      | 3%N :: 2%N :: r =>
          match decode_pos r with
          | Some (p, r') => Some (VNum (Zneg p), r')
          | None => None
          end
      | 4%N :: n :: r =>
          match chunk n r with
          | Some (str, r') => Some (VStr str, r')
          | None => None
          end
      | 5%N :: n :: r =>
          match many (decode f) (N.to_nat n) r with
          | Some (l, r') => Some (VArr l, r')
          | None => None
          end
      | 6%N :: n :: r =>
          match many (fun s =>
                        match s with
                        | kn :: s1 =>
                            match chunk kn s1 with
                            | Some (k, s2) =>
                                match decode f s2 with
                                | Some (v, s3) => Some ((k, v), s3)
                                | None => None
                                end
                            | None => None
                            end
                        | [] => None
                        end) (N.to_nat n) r with
          | Some (fs, r') => Some (VObj fs, r')
          | None => None
          end
      | _ => None
      end
  end.

(** The fuel [decode] needs for a value. *)
Fixpoint weight (v : jsval) : nat :=
  match v with
  | VArr l => S (list_sum (map weight l))
  | VObj fs => S (list_sum (map (fun kv => weight kv.2) fs))
  | _ => 1
  end.

Definition parse (s : jsstring) : option jsval :=
  match decode (S (length s)) s with
  | Some (v, []) => Some v
  | _ => None
  end.

(** Text: each code unit [n] as [n] bytes 1 and a byte 0. *)
Definition text_encode (s : jsstring) : bytes :=
  concat (map (fun c => repeat Byte.x01 (N.to_nat c) ++ [Byte.x00]) s).

Fixpoint text_decode_from (acc : nat) (bs : bytes) : jsstring :=
  match bs with
  | [] => []
  | Byte.x00 :: r => N.of_nat acc :: text_decode_from 0 r
  | _ :: r => text_decode_from (S acc) r
  end.

Fixpoint same_bytes (a b : bytes) : bool :=
  match a, b with
  | [], [] => true
  | x :: a', y :: b' => Byte.eqb x y && same_bytes a' b'
  | _, _ => false
  end.

Definition pad32 (bs : bytes) : bytes := take 32 (bs ++ repeat Byte.x00 32).

(** Keys: the public key of a 32-byte secret is the secret; a signature
    is the public key followed by the first 32 bytes of the message. *)
Definition getPublicKey (sk : bytes) : option bytes :=
  if length sk =? 32 then Some sk else None.

Definition sign (msg sk : bytes) : option bytes :=
  if length sk =? 32 then Some (sk ++ pad32 msg) else None.

Definition verify (sig msg pk : bytes) : option bool :=
  if (length sig =? 64) && (length pk =? 32)
  then Some (same_bytes sig (pk ++ pad32 msg))
  else None.

Definition xor_byte (a b : byte) : byte :=
  default Byte.x00 (Byte.of_N (N.lxor (Byte.to_N a) (Byte.to_N b))).

Definition getSharedSecret (sk pk : bytes) : option bytes :=
  if (length sk =? 32) && (length pk =? 32)
  then Some (zip_with xor_byte sk pk)
  else None.

(** The cipher: the nonce and four bytes of the key as a tag, then the
    plaintext. *)
Definition tag (k n : bytes) : bytes := n ++ take 4 k.

Definition encrypt (k n pt : bytes) : option bytes :=
  if (length k =? 32) && (length n =? 12) then Some (tag k n ++ pt) else None.

Definition decrypt (k n ct : bytes) : option bytes :=
  if (length k =? 32) && (length n =? 12) && same_bytes (take 16 ct) (tag k n)
  then Some (drop 16 ct)
  else None.

Definition platform : Platform := {|
  JSON_stringify := encode;
  JSON_parse := parse;
  StringToNumber := fun _ => None;
  utf8_encode := text_encode;
  utf8_decode := text_decode_from 0;
  sha256 := pad32;
  ed25519_getPublicKey := getPublicKey;
  ed25519_sign := sign;
  ed25519_verify := verify;
  x25519_getPublicKey := getPublicKey;
  x25519_getSharedSecret := getSharedSecret;
  chacha20poly1305_encrypt := encrypt;
  chacha20poly1305_decrypt := decrypt;
  nacl_sign_detached_verify := fun msg sig pk => verify sig msg pk;
  isExpoPushToken := fun s => negb (length s =? 0);
  sendPushNotification := fun _ => Some (obj [("status", VStr (js "ok"))]);
|}.

End Toy.

(** * Examples on the small platform *)

Module Example.
Import Spec.

#[local] Existing Instance Toy.platform.

Definition seedA : bytes := repeat Byte.x01 32.
Definition seedB : bytes := repeat Byte.x02 32.

Definition Alice : jsstring := default [] (identity_of seedA).
Definition Bob : jsstring := default [] (identity_of seedB).

Definition device (seed : bytes) (now : Z) : Client.World :=
  {| Client.secureStore :=
       {[ Client.PUBLIC_KEY := default [] (identity_of seed);
          Client.PRIVATE_KEY := default [] (secret_of seed) ]};
     Client.secureStore_down := false;
     Client.entropy := fun _ => Byte.x07;
     Client.drawn := 0;
     Client.clock := now;
     Client.console := [] |}.

Definition new_device : Client.World :=
  {| Client.secureStore := ∅;
     Client.secureStore_down := false;
     Client.entropy := fun _ => Byte.x07;
     Client.drawn := 0;
     Client.clock := 1700000000000;
     Client.console := [] |}.

Definition alice_device : Client.World := device seedA 1700000000000.
Definition bob_device : Client.World := device seedB 1700000000500.

Definition hi : jsstring := js "hi".

(** Alice's envelope for ["hi"], and what Bob's notification carries. *)
Definition hi_envelope : jsstring :=
  match (Client.encryptMessage hi Bob alice_device).1 with
  | Ok e => Client.message e
  | Throw => []
  end.

Definition hi_received : Client.EncryptedMessage :=
  default {| Client.encrypted := []; Client.nonce := None; Client.signature := [] |}
    (received hi_envelope).

(** The signature of that envelope with the lowest bit of its first byte
    flipped. *)
Definition flip_first_bit (signature : jsstring) : jsstring :=
  match signature with
  | c1 :: c2 :: rest => c1 :: (if (c2 =? 49)%N then 48%N else 49%N) :: rest
  | _ => signature
  end.

Definition forged_signature : jsstring :=
  flip_first_bit (Client.signature hi_received).

Definition forged_message : Client.EncryptedMessage :=
  {| Client.encrypted := Client.encrypted hi_received;
     Client.nonce := Client.nonce hi_received;
     Client.signature := forged_signature |}.

(** The same envelope with a stray character after the ciphertext. *)
Definition stray_payload : Client.EncryptedPayload :=
  {| Client.origin := Alice;
     Client.payload_destination := Bob;
     Client.encryptedMessage :=
       {| Client.encrypted := Client.encrypted hi_received ++ [122%N];
          Client.nonce := Client.nonce hi_received;
          Client.signature := Client.signature hi_received |} |}.



(** A relay with nobody registered, at a given time. *)
Definition relay (now : Z) : Server.World :=
  {| Server.recipients := ∅;
     Server.clock := now;
     Server.env_TIMESTAMP_TOLERANCE := None;
     Server.trace := [] |}.

(** A well-formed envelope for the shape checks. *)
Definition some_envelope : jsstring :=
  JSON_stringify (envelope_of [Byte.x00] (repeat Byte.x00 12) (repeat Byte.x00 64)).

(** A request of Alice to Bob made at time 1700000000000, signed by
    Alice's device. *)
Definition alice_request : jsval :=
  match (Client.authenticatedPayload
           {| Client.send_origin := Alice;
              Client.send_destination := Bob;
              Client.send_encryptedMessage := some_envelope |} alice_device).1 with
  | Ok body => body
  | Throw => VUndefined
  end.

Definition alice_signature : jsstring :=
  match field alice_request "signature" with
  | VStr s => s
  | _ => []
  end.

(** The same request with the lowest bit of the first byte of its
    signature flipped. *)
Definition forged_request : jsval :=
  obj [("origin", VStr Alice); ("destination", VStr Bob);
       ("encryptedMessage", VStr some_envelope);
       ("timestamp", VNum 1700000000000);
       ("signature", VStr (flip_first_bit alice_signature))].


Definition token1 : jsstring := js "ExponentPushToken[aaaaaaaaaaaaaaaaaaaaaa]".
Definition token2 : jsstring := js "ExponentPushToken[bbbbbbbbbbbbbbbbbbbbbb]".

End Example.

From Stdlib Require DecimalPos.

(** * The client: the rest of utils/keys.ts *)

Module KeyManagement.
Section WithPlatform.
Context `{P : Platform}.
Import Client.

Local Open Scope m_scope.

Definition deleteItemAsync (k : string) : M World unit :=
  fun w =>
    if secureStore_down w then (Throw, w)
    else (Ok (), {| secureStore := delete k (secureStore w);
                    secureStore_down := secureStore_down w;
                    entropy := entropy w; drawn := drawn w;
                    clock := clock w; console := console w |}).

(** [regenerateKeys]: no [try]; a failing store throws to the caller. *)
Definition regenerateKeys : M World Keys :=
  let* keys := generateKeyPair in
  setItemAsync PUBLIC_KEY (publicKey keys);;
  setItemAsync PRIVATE_KEY (privateKey keys);;
  ret keys.

Definition clearKeys : M World unit :=
  try_catch
    (deleteItemAsync PUBLIC_KEY;;
     deleteItemAsync PRIVATE_KEY)
    (console_error "Error clearing keys:";;
     lift Throw).

(** [debugEncryptMessage]: the keys are arguments, and the envelope
    carries the payload object beside its ciphertext. *)
Record DebugEncrypted := {
  debug_destination : jsstring;
  debug_encryptedMessage : jsstring;
}.

Definition debugEncryptMessage
    (message senderPrivateKey senderPublicKey recipientPublicKey : jsstring)
    : M World DebugEncrypted :=
  try_catch
    (let* senderKeyPair := lift (parse senderPrivateKey) in
     let* timestamp := Date_now in
     let payload :=
       obj [("publicKey", VStr senderPublicKey);
            ("message", VStr message);
            ("timestamp", VNum timestamp)] in
     let payloadString := JSON_stringify payload in
     let* recipientPublicKeyData := lift (parse recipientPublicKey) in
     let* x25519PrivateKeyBytes :=
       lift (let? x := prop senderKeyPair "x25519" in
             let? sk := prop x "privateKey" in
             hexToBytes_any sk)%res in
     let* recipientX25519PublicKeyBytes :=
       lift (let? x := prop recipientPublicKeyData "x25519" in
             hexToBytes_any x)%res in
     let* sharedSecret :=
       lift (of_option (x25519_getSharedSecret x25519PrivateKeyBytes
                          recipientX25519PublicKeyBytes)) in
     let payloadBytes := utf8_encode payloadString in
     let* nonce := getRandomBytes 12 in
     let* encrypted :=
       lift (of_option (chacha20poly1305_encrypt sharedSecret nonce payloadBytes)) in
     let encryptedHex := toHex encrypted in
     let nonceHex := toHex nonce in
     let* ed25519PrivateKeyBytes :=
       lift (let? ed := prop senderKeyPair "ed25519" in
             let? sk := prop ed "privateKey" in
             hexToBytes_any sk)%res in
     let* signature := lift (of_option (ed25519_sign encrypted ed25519PrivateKeyBytes)) in
     let encryptedMessage :=
       JSON_stringify (obj [("encrypted", VStr encryptedHex);
                            ("nonce", VStr nonceHex);
                            ("signature", VStr (toHex signature));
                            ("payload", payload)]) in
     ret {| debug_destination := recipientPublicKey;
            debug_encryptedMessage := encryptedMessage |})
    (console_error "Error encrypting message:";;
     lift Throw).

End WithPlatform.
End KeyManagement.

(** * The relay: [POST /cleanup] (server.js) *)

Module Admin.
Section WithPlatform.
Context `{P : Platform}.
Import Server.

Local Open Scope m_scope.

(** [process.env.CLEANUP_KEY || 'change-me-in-production']: the
    variable unset ([None]) or empty gives the default. *)
Definition CLEANUP_KEY (env_CLEANUP_KEY : option jsstring) : jsstring :=
  match env_CLEANUP_KEY with
  | Some (c :: s) => c :: s
  | _ => js "change-me-in-production"
  end.

(** [key !== CLEANUP_KEY], for the string [CLEANUP_KEY]. *)
Definition differs (key : jsval) (secret : jsstring) : bool :=
  match key with
  | VStr s => negb (str_eqb s secret)
  | _ => true
  end.

(** [updated_at < datetime('now', '-24 hours')]: both sides are UTC
    times written [YYYY-MM-DD HH:MM:SS], which compare as their seconds
    do. *)
Definition stale (w : World) (r : Recipient) : bool :=
  (updated_at r <? CURRENT_TIMESTAMP w - 86400)%Z.

(** [DELETE FROM recipients WHERE updated_at < datetime('now', '-24 hours')];
    the result is [result.changes], the number of rows deleted. *)
Definition delete_stale : M World Z :=
  fun w =>
    let kept := filter (fun kv => stale w kv.2 = false) (recipients w) in
    (Ok (Z.of_nat (size (recipients w)) - Z.of_nat (size kept))%Z,
     {| recipients := kept;
        clock := clock w;
        env_TIMESTAMP_TOLERANCE := env_TIMESTAMP_TOLERANCE w;
        trace := trace w |}).

Definition cleanup (env_CLEANUP_KEY : option jsstring) (body : jsval) : M World Response :=
  let key := field body "key" in
  if negb (truthy key) || differs key (CLEANUP_KEY env_CLEANUP_KEY) then
    ret (error_response 401 "Unauthorized: Invalid cleanup key")
  else
    try_catch
      (let* changes := delete_stale in
       ret {| status := 200;
              json := obj [("success", VBool true);
                           ("deletedCount", VNum changes);
                           ("message",
                             VStr (js "Removed " ++ Number_toString changes
                                   ++ js " stale registration(s)"))] |})
      (ret (error_response 500 "Failed to cleanup stale registrations")).

End WithPlatform.
End Admin.

(** * Further definitions the statements use *)

Module Notions.
Section WithPlatform.
Context `{P : Platform}.
Import Server.

(** A handler that leaves the directory, the clock and the
    configuration as they were (it may add to the trace). *)
Definition read_only {A} (m : M World A) : Prop :=
  ∀ w,
    recipients (m w).2 = recipients w
    ∧ clock (m w).2 = clock w
    ∧ env_TIMESTAMP_TOLERANCE (m w).2 = env_TIMESTAMP_TOLERANCE w.

(** The notification [/send] hands to Expo for the request [body]
    from [origin] to [destination], whose recipient registered [token],
    and whose envelope holds [encrypted], [signature] and [nonce]. *)
Definition notification (body : jsval) (token origin destination encrypted signature nonce : jsstring)
    : jsval :=
  VObj ([(js "to", VStr token);
         (js "title", VStr (js "Ring ring!"));
         (js "body", VStr (js "A new message has arrived"));
         (js "data",
           obj [("origin", VStr origin);
                ("destination", VStr destination);
                ("encryptedMessage",
                  obj [("encrypted", VStr encrypted);
                       ("signature", VStr signature);
                       ("nonce", VStr nonce)])]);
         (js "sound",
           if truthy (field body "sound") then field body "sound" else VStr (js "default"))]
        ++ (if field body "badge" is VUndefined then [] else [(js "badge", field body "badge")])
        ++ (if truthy (field body "channelId")
            then [(js "channelId", field body "channelId")] else [])).

(** What [/send] answers once Expo has taken, or refused, the
    notification. *)
Definition push_response (body : jsval) (ticket : option jsval) : Response :=
  match ticket with
  | Some t =>
      {| status := 200;
         json := obj [("success", VBool true);
                      ("recipient", field body "recipientId");
                      ("ticket", t)] |}
  | None => error_response 500 "Failed to send notification"
  end.

Definition recipient_not_found : Response :=
  error_response 404 "Recipient not found".

(** The notification as the client's listener passes it to
    [decryptMessage]: [data.origin], [data.destination] and
    [data.encryptedMessage]. *)
Definition incoming (message : jsval) : option Client.EncryptedPayload :=
  let data := field message "data" in
  match field data "origin", field data "destination",
        Spec.as_EncryptedMessage (field data "encryptedMessage") with
  | VStr o, VStr d, Some em =>
      Some {| Client.origin := o; Client.payload_destination := d;
              Client.encryptedMessage := em |}
  | _, _, _ => None
  end.

End WithPlatform.
End Notions.

(** * A second small platform: text in binary *)

Module Compact.

(** Text: each code unit in binary, the least significant bit first;
    the byte 1 is the leading bit and ends the unit. *)
Fixpoint bits (p : positive) : bytes :=
  match p with
  | xH => [Byte.x01]
  | xO q => Byte.x02 :: bits q
  | xI q => Byte.x03 :: bits q
  end.

Definition unit_bytes (c : N) : bytes :=
  match c with
  | N0 => [Byte.x00]
  | Npos p => bits p
  end.

Definition text_encode (s : jsstring) : bytes := concat (map unit_bytes s).

Fixpoint text_decode_from (k : positive → positive) (bs : bytes) : jsstring :=
  match bs with
  | [] => []
  | Byte.x00 :: r => 0%N :: text_decode_from (fun p => p) r
  | Byte.x01 :: r => Npos (k xH) :: text_decode_from (fun p => p) r
  | Byte.x02 :: r => text_decode_from (fun q => k (xO q)) r
  | Byte.x03 :: r => text_decode_from (fun q => k (xI q)) r
  | _ :: r => text_decode_from k r
  end.

(** [Toy.platform] with this text encoding. *)
Definition platform : Platform := {|
  JSON_stringify := Toy.encode;
  JSON_parse := Toy.parse;
  StringToNumber := fun _ => None;
  utf8_encode := text_encode;
  utf8_decode := text_decode_from (fun p => p);
  sha256 := Toy.pad32;
  ed25519_getPublicKey := Toy.getPublicKey;
  ed25519_sign := Toy.sign;
  ed25519_verify := Toy.verify;
  x25519_getPublicKey := Toy.getPublicKey;
  x25519_getSharedSecret := Toy.getSharedSecret;
  chacha20poly1305_encrypt := Toy.encrypt;
  chacha20poly1305_decrypt := Toy.decrypt;
  nacl_sign_detached_verify := fun msg sig pk => Toy.verify sig msg pk;
  isExpoPushToken := fun s => negb (length s =? 0);
  sendPushNotification := fun _ => Some (obj [("status", VStr (js "ok"))]);
|}.

End Compact.

(** * A message on its way, on the second platform *)

Module Scenario.
Import Spec Notions.

#[local] Existing Instance Compact.platform.

Definition Alice : jsstring := default [] (identity_of Example.seedA).
Definition Bob : jsstring := default [] (identity_of Example.seedB).

(** Alice's device once it has encrypted ["hi"] for Bob, and the
    envelope. *)
Definition alice_after : Client.World :=
  (Client.encryptMessage Example.hi Bob Example.alice_device).2.

Definition hi_envelope : jsstring :=
  match (Client.encryptMessage Example.hi Bob Example.alice_device).1 with
  | Ok e => Client.message e
  | Throw => []
  end.

(** The request [sendMessage] builds for it. *)
Definition hi_request : jsval :=
  match (Client.authenticatedPayload
           {| Client.send_origin := Alice;
              Client.send_destination := Bob;
              Client.send_encryptedMessage := hi_envelope |} alice_after).1 with
  | Ok body => body
  | Throw => VUndefined
  end.

Definition hi_signature : jsstring :=
  match field hi_request "signature" with
  | VStr s => s
  | _ => []
  end.

(** A relay where Bob registered [token1] at time [since], at time
    [now]. *)
Definition bob_row (since : Z) : Server.Recipient :=
  {| Server.expo_push_token := Example.token1;
     Server.created_at := since / 1000;
     Server.updated_at := since / 1000 |}.

Definition relay_with_bob (since now : Z) : Server.World :=
  {| Server.recipients := {[ Bob := bob_row since ]};
     Server.clock := now;
     Server.env_TIMESTAMP_TOLERANCE := None;
     Server.trace := [] |}.

(** A device whose secure store rejects every call. *)
Definition locked_device : Client.World :=
  {| Client.secureStore := ∅;
     Client.secureStore_down := true;
     Client.entropy := fun i => if Nat.ltb i 32 then Byte.x07 else Byte.x08;
     Client.drawn := 0;
     Client.clock := 1700000000000;
     Client.console := [] |}.

(** A device whose stored secret is not JSON. *)
Definition corrupt_device : Client.World :=
  {| Client.secureStore :=
       {[ Client.PUBLIC_KEY := Alice; Client.PRIVATE_KEY := js "not json" ]};
     Client.secureStore_down := false;
     Client.entropy := fun _ => Byte.x07;
     Client.drawn := 0;
     Client.clock := 1700000000000;
     Client.console := [] |}.

(** A request whose [signature] is a number. *)
Definition numeric_signature_request : jsval :=
  obj [("origin", VStr Alice); ("destination", VStr Bob);
       ("encryptedMessage", VStr hi_envelope);
       ("timestamp", VNum 1700000000000);
       ("signature", VNum 7)].

End Scenario.

(** * The client hook: hooks/useBackend.tsx *)

Module Backend.

(** constants.ts *)
Definition DEFAULT_BACKEND_URL : jsstring :=
  js "https://change-me-with-your-backend-url.com".
Definition BACKEND_URL : string := "backend_url".
Definition PUSH_TOKEN : string := "push_token".
Definition LAST_REGISTRATION_TIME : string := "last_registration_time".
Definition REGISTRATION_REFRESH_INTERVAL : Z := 20 * 60 * 60 * 1000.

(** [parseInt(s, 10)]: leading white space, a sign, then the longest
    run of decimal digits; [None] is [NaN]. *)
Definition decval (c : N) : option N :=
  (if (48 <=? c) && (c <=? 57) then Some (c - 48) else None)%N.

Fixpoint dec_run (acc : option N) (s : jsstring) : option N :=
  match s with
  | c :: r =>
      match decval c with
      | Some d => dec_run (Some (10 * default 0 acc + d)%N) r
      | None => acc
      end
  | [] => acc
  end.

Definition parseInt10 (s : jsstring) : option Z :=
  let s1 := skip_ws s in
  let '(neg, s2) :=
    match s1 with
    | 45%N :: r => (true, r)
    | 43%N :: r => (false, r)
    | _ => (false, s1)
    end in
  match dec_run None s2 with
  | None => None
  | Some n => Some (if neg : bool then - Z.of_N n else Z.of_N n)%Z
  end.

(** [s.includes(sub)] *)
Fixpoint starts_with (sub s : jsstring) : bool :=
  match sub, s with
  | [], _ => true
  | x :: sub', y :: s' => (x =? y)%N && starts_with sub' s'
  | _ :: _, [] => false
  end.

Fixpoint includes (s sub : jsstring) : bool :=
  starts_with sub s
  || match s with
     | _ :: s' => includes s' sub
     | [] => false
     end.

(** ** The network, as axios sees it *)

(** What comes back for a request: a response, or no response at all
    (no connection, a timeout) with the message of the error. *)
Inductive Outcome :=
| Responded (status : Z) (data : jsval)
| Failed (message : jsstring).

Record Request := {
  method : string;
  url : jsstring;
  request_body : jsval;
}.

(** What a [catch] receives: an axios error, with its response if there
    was one, or an error thrown by utils/keys.ts or by the secure store
    (an [Error] whose message is not modelled). *)
Inductive Failure :=
| AxiosError (response : option (Z * jsval)) (message : jsstring)
| Thrown.

(** The text of the hook's [error] state. *)
Inductive ErrorText :=
| Text (s : jsstring)
| MessageOfThrown.        (* [err.message] of a [Thrown] *)

(** The hook on a device: its two state variables, the network's
    answers in the order the requests are sent, and the requests sent
    (newest first). *)
Record World := {
  device : Client.World;
  loading : bool;
  error : option ErrorText;
  network : nat → Outcome;
  sent : list Request;
}.

Inductive Result (A : Type) : Type :=
| Done (a : A)
| Raised (e : Failure).
Arguments Done {A} a.
Arguments Raised {A} e.

Definition H (A : Type) : Type := World → Result A * World.

Definition hret {A} (a : A) : H A := fun w => (Done a, w).

Definition hbind {A B} (m : H A) (k : A → H B) : H B :=
  fun w =>
    match m w with
    | (Done a, w') => k a w'
    | (Raised e, w') => (Raised e, w')
    end.

(** [try { body } catch (err) { handler }] and
    [try { body } finally { after }] for an [after] that does not
    throw. *)
Definition hcatch {A} (body : H A) (handler : Failure → H A) : H A :=
  fun w =>
    match body w with
    | (Done a, w') => (Done a, w')
    | (Raised e, w') => handler e w'
    end.

Definition hfinally {A} (body : H A) (after : World → World) : H A :=
  fun w => let '(r, w') := body w in (r, after w').

Declare Scope h_scope.
Delimit Scope h_scope with h.
Notation "'let!' x := e 'in' k" := (hbind e (fun x => k))
  (at level 10, x pattern, e at level 100, k at level 200) : h_scope.
Notation "e ;;; k" := (hbind e (fun _ => k))
  (at level 100, k at level 200, right associativity) : h_scope.

Section WithPlatform.
Context `{P : Platform}.

Local Open Scope h_scope.

(** A call into utils/keys.ts or the secure store. *)
Definition on_device {A} (m : M Client.World A) : H A :=
  fun w =>
    let '(r, d) := m (device w) in
    (match r with
     | Ok a => Done a
     | Throw => Raised Thrown
     end,
     {| device := d; loading := loading w; error := error w;
        network := network w; sent := sent w |}).

Definition console_error (msg : string) : H unit :=
  on_device (Client.console_error msg).

Definition setLoading (b : bool) : H unit :=
  fun w => (Done (), {| device := device w; loading := b; error := error w;
                        network := network w; sent := sent w |}).

Definition setError (e : option ErrorText) : H unit :=
  fun w => (Done (), {| device := device w; loading := loading w; error := e;
                        network := network w; sent := sent w |}).

(** axios rejects every status outside 200..299, with the message
    [Request failed with status code N]. *)
Definition axios_message (status : Z) : jsstring :=
  js "Request failed with status code " ++ Number_toString status.

Definition request (method : string) (url : jsstring) (body : jsval) : H jsval :=
  fun w =>
    let w' := {| device := device w; loading := loading w; error := error w;
                 network := network w;
                 sent := {| method := method; url := url; request_body := body |}
                         :: sent w |} in
    match network w (length (sent w)) with
    | Responded status data =>
        if ((200 <=? status) && (status <? 300))%Z then (Done data, w')
        else (Raised (AxiosError (Some (status, data)) (axios_message status)), w')
    | Failed message => (Raised (AxiosError None message), w')
    end.

Definition axios_get (url : jsstring) : H jsval := request "GET" url VUndefined.
Definition axios_post (url : jsstring) (body : jsval) : H jsval := request "POST" url body.

(** [err.response?.status === n] *)
Definition status_is (e : Failure) (n : Z) : bool :=
  match e with
  | AxiosError (Some (status, _)) _ => (status =? n)%Z
  | _ => false
  end.

(** [err instanceof Error ? err.message : ...]: every error here is an
    [Error]. *)
Definition errorMessage (e : Failure) : ErrorText :=
  match e with
  | AxiosError _ message => Text message
  | Thrown => MessageOfThrown
  end.

(** ** The hook *)

Definition getBackendUrl : H jsstring :=
  hcatch
    (let! url := on_device (Client.getItemAsync BACKEND_URL) in
     hret (if Client.missing url then DEFAULT_BACKEND_URL else default [] url))
    (fun _ =>
       console_error "Error getting backend URL:";;;
       hret DEFAULT_BACKEND_URL).

Definition register (pushToken : jsstring) : H bool :=
  setLoading true;;;
  setError None;;;
  hfinally
    (hcatch
       (let! backendUrl := getBackendUrl in
        let! keys := on_device Client.getKeys in
        hcatch (axios_get (js "https://www.google.com");;; hret ())
               (fun _ => hret ());;;
        axios_post (backendUrl ++ js "/register")
          (obj [("expoPushToken", VStr pushToken);
                ("recipientId", VStr (Client.publicKey keys))]);;;
        on_device (Client.setItemAsync PUSH_TOKEN pushToken);;;
        let! now := on_device Client.Date_now in
        on_device (Client.setItemAsync LAST_REGISTRATION_TIME (Number_toString now));;;
        hret true)
       (fun err =>
          console_error "❌ Registration error:";;;
          (match err with
           | AxiosError _ _ => console_error "Axios error details:"
           | Thrown => hret ()
           end);;;
          if status_is err 429 then
            setError (Some (Text (js "Too many registration attempts. Please wait 15 minutes and try again.")));;;
            hret false
          else
            setError (Some (errorMessage err));;;
            hret false))
    (fun w => (setLoading false w).2).

Definition needsRegistrationRefresh : H bool :=
  hcatch
    (let! lastRegTime := on_device (Client.getItemAsync LAST_REGISTRATION_TIME) in
     if Client.missing lastRegTime then hret true
     else
       let lastRegTimestamp := parseInt10 (default [] lastRegTime) in
       let! now := on_device Client.Date_now in
       hret (match lastRegTimestamp with
             | Some t => (REGISTRATION_REFRESH_INTERVAL <? now - t)%Z
             | None => false        (* [NaN > n] is false *)
             end))
    (fun _ =>
       console_error "Error checking registration time:";;;
       hret true).

Definition getStoredPushToken : H (option jsstring) :=
  hcatch
    (on_device (Client.getItemAsync PUSH_TOKEN))
    (fun _ =>
       console_error "Error getting push token:";;;
       hret None).

Definition refreshRegistrationIfNeeded : H bool :=
  let! needsRefresh := needsRegistrationRefresh in
  if negb needsRefresh then hret true
  else
    let! pushToken := getStoredPushToken in
    if Client.missing pushToken then
      console_error "No push token stored, cannot refresh registration";;;
      hret false
    else register (default [] pushToken).

(** [typeof responseData === 'string' ? responseData : ''] *)
Definition errorText (e : Failure) : jsstring :=
  match e with
  | AxiosError (Some (_, VStr s)) _ => s
  | _ => []
  end.

(** The request [sendMessage] posts: the payload, the time and the
    signature over it. *)
Definition post_send (payload : Client.SendPayload) : H jsval :=
  let! backendUrl := getBackendUrl in
  let! authenticatedPayload := on_device (Client.authenticatedPayload payload) in
  axios_post (backendUrl ++ js "/send") authenticatedPayload.

Definition sendMessage (payload : Client.SendPayload) : H bool :=
  setLoading true;;;
  setError None;;;
  hfinally
    (hcatch
       (post_send payload;;;
        hret true)
       (fun err =>
          console_error "❌ Send message error:";;;
          match err with
          | AxiosError _ _ =>
              console_error "Axios error details:";;;
              if status_is err 401 || status_is err 403 then
                let! retried :=
                  if includes (errorText err) (js "not registered")
                     || includes (errorText err) (js "expired")
                     || status_is err 403
                  then
                    let! pushToken := getStoredPushToken in
                    if Client.missing pushToken then hret None
                    else
                      let! reregistered := register (default [] pushToken) in
                      if reregistered : bool then
                        setLoading true;;;
                        let! outcome :=
                          hfinally
                            (hcatch
                               (post_send payload;;;
                                hret true)
                               (fun retryErr =>
                                  console_error "Message send failed after re-registration:";;;
                                  setError (Some (Text (js "Failed to send message after re-registration")));;;
                                  hret false))
                            (fun w => (setLoading false w).2) in
                        hret (Some outcome)
                      else hret None
                  else hret None in
                match retried with
                | Some outcome => hret outcome
                | None =>
                    (if includes (errorText err) (js "Invalid or expired signature") then
                       setError (Some (Text (js "Authentication failed: Invalid or expired signature")))
                     else
                       setError (Some (Text (js "Authentication failed: Please check your connection and try again"))));;;
                    hret false
                end
              else if status_is err 404 then
                setError (Some (Text (js "Recipient not registered with backend")));;;
                hret false
              else if status_is err 413 then
                setError (Some (Text (js "Message too large. Maximum size is 10KB.")));;;
                hret false
              else if status_is err 429 then
                setError (Some (Text (js "Too many requests. Please wait a few minutes and try again.")));;;
                hret false
              else if status_is err 400 then
                (if includes (errorText err) (js "Invalid signature format") then
                   setError (Some (Text (js "Invalid signature format")))
                 else
                   setError (Some (Text (js "Bad request: Invalid data format"))));;;
                hret false
              else
                setError (Some (errorMessage err));;;
                hret false
          | Thrown =>
              setError (Some MessageOfThrown);;;
              hret false
          end))
    (fun w => (setLoading false w).2).

End WithPlatform.
End Backend.

(** * Definitions the statements about the hook use *)

Module HookNotions.
Import Backend.

(** The device, and the hook on it, at another time of day. *)
Definition device_at (t : Z) (d : Client.World) : Client.World :=
  {| Client.secureStore := Client.secureStore d;
     Client.secureStore_down := Client.secureStore_down d;
     Client.entropy := Client.entropy d;
     Client.drawn := Client.drawn d;
     Client.clock := t;
     Client.console := Client.console d |}.

Definition at_time (t : Z) (w : World) : World :=
  {| device := device_at t (device w);
     loading := loading w; error := error w;
     network := network w; sent := sent w |}.

(** The requests of [register] and of [sendMessage]. *)
Definition connectivity_test : Request :=
  {| method := "GET"; url := js "https://www.google.com"; request_body := VUndefined |}.

Definition registration (backendUrl pushToken identity : jsstring) : Request :=
  {| method := "POST"; url := backendUrl ++ js "/register";
     request_body := obj [("expoPushToken", VStr pushToken);
                          ("recipientId", VStr identity)] |}.

Definition submission (backendUrl : jsstring) (body : jsval) : Request :=
  {| method := "POST"; url := backendUrl ++ js "/send"; request_body := body |}.

(** The backend URL the hook uses on a device whose store works. *)
Definition backendUrl_of (d : Client.World) : jsstring :=
  match Client.secureStore d !! BACKEND_URL with
  | Some (c :: u) => c :: u
  | _ => DEFAULT_BACKEND_URL
  end.

(** An answer in the 200s. *)
Definition accepted (status : Z) : bool := ((200 <=? status) && (status <? 300))%Z.

End HookNotions.

(** * The hook on Alice's device, for examples *)

Module HookScenario.
Import Backend HookNotions.

#[local] Existing Instance Compact.platform.

(** The hook on Alice's device, on a network that gives every request
    the same answer. *)
Definition phone (answer : Outcome) : World :=
  {| device := Example.alice_device;
     loading := false; error := None;
     network := fun _ => answer;
     sent := [] |}.

Definition ok_answer : Outcome := Responded 200 (obj [("success", VBool true)]).

(** Alice's device with a push token and a registration time in its
    secure store. *)
Definition registered_device (last : jsstring) : Client.World :=
  {| Client.secureStore :=
       <[LAST_REGISTRATION_TIME := last]>
         (<[PUSH_TOKEN := Example.token1]> (Client.secureStore Example.alice_device));
     Client.secureStore_down := false;
     Client.entropy := fun _ => Byte.x07;
     Client.drawn := 0;
     Client.clock := 1700000000000;
     Client.console := [] |}.

Definition registered_phone (last : jsstring) : World :=
  {| device := registered_device last;
     loading := false; error := None;
     network := fun _ => ok_answer;
     sent := [] |}.

(** A third party, with keys of its own. *)
Definition seedC : bytes := repeat Byte.x03 32.
Definition Mallory : jsstring := default [] (Spec.identity_of seedC).
Definition Mallory_secret : jsstring := default [] (Spec.secret_of seedC).

End HookScenario.

(** * Properties *)

(** ** Hexadecimal *)

Lemma hex_pair_of_byte (b : byte) :
  ∃ c1 c2, padStart2 (toString16 b) = [c1; c2]
    ∧ ToUint8 (parseInt16 [c1; c2]) = b
    ∧ hexval c1 = Some (Byte.to_N b / 16)%N
    ∧ hexval c2 = Some (Byte.to_N b mod 16)%N
    ∧ c2 ≠ 120%N.
Proof.
  destruct b; do 2 eexists; (split; [reflexivity|]);
    repeat split; try reflexivity; discriminate.
Qed.

Lemma toHex_cons b bs : toHex (b :: bs) = padStart2 (toString16 b) ++ toHex bs.
Proof. reflexivity. Qed.

Lemma hexToBytes_toHex (bs : bytes) : hexToBytes (toHex bs) = bs.
Proof.
  induction bs as [|b bs IH]; [done|].
  rewrite toHex_cons.
  destruct (hex_pair_of_byte b) as (c1 & c2 & -> & Hb & _).
  cbn [app hexToBytes]. by rewrite Hb, IH.
Qed.

Lemma Buffer_from_hex_toHex (bs : bytes) : Buffer_from_hex (toHex bs) = bs.
Proof.
  induction bs as [|b bs IH]; [done|].
  rewrite toHex_cons.
  destruct (hex_pair_of_byte b) as (c1 & c2 & -> & _ & H1 & H2 & _).
  cbn [app Buffer_from_hex]. rewrite H1, H2, IH. f_equal.
  rewrite <- N.div_mod by done. by rewrite Byte.of_to_N.
Qed.

Lemma length_toHex (bs : bytes) : length (toHex bs) = 2 * length bs.
Proof.
  induction bs as [|b bs IH]; [done|].
  rewrite toHex_cons.
  destruct (hex_pair_of_byte b) as (c1 & c2 & -> & _).
  cbn [app length]. lia.
Qed.

Lemma strip_0x_toHex (bs : bytes) : Server.strip_0x (toHex bs) = toHex bs.
Proof.
  destruct bs as [|b bs]; [done|].
  rewrite toHex_cons.
  destruct (hex_pair_of_byte b) as (c1 & c2 & -> & _ & _ & _ & Hx).
  cbn [app Server.strip_0x].
  apply N.eqb_neq in Hx. by rewrite Hx, andb_false_r.
Qed.

Lemma missing_toHex (bs : bytes) : bs ≠ [] → Client.missing (Some (toHex bs)) = false.
Proof.
  destruct bs as [|b bs]; [done|]. intros _.
  rewrite toHex_cons.
  by destruct (hex_pair_of_byte b) as (c1 & c2 & -> & _).
Qed.

(** ** Strings *)

Lemma str_eqb_eq (a b : jsstring) : str_eqb a b = true ↔ a = b.
Proof.
  revert b; induction a as [|x a IH]; intros [|y b]; cbn; try done.
  rewrite andb_true_iff, N.eqb_eq, IH. split.
  - by intros [-> ->].
  - by intros [= -> ->].
Qed.

Lemma str_lt_asym (a b : jsstring) : str_lt a b = true → str_lt b a = false.
Proof.
  revert b; induction a as [|x a IH]; intros [|y b]; cbn; try done.
  rewrite orb_true_iff, andb_true_iff, N.ltb_lt, N.eqb_eq.
  intros [Hlt | [-> Hlt]].
  - apply orb_false_iff; split; [apply N.ltb_ge; lia|].
    apply andb_false_iff; left. apply N.eqb_neq. lia.
  - rewrite N.ltb_irrefl, N.eqb_refl. cbn. by apply IH.
Qed.

Lemma str_lt_total (a b : jsstring) :
  str_lt a b = false → str_lt b a = false → a = b.
Proof.
  revert b; induction a as [|x a IH]; intros [|y b]; cbn; try done.
  rewrite !orb_false_iff, !andb_false_iff, !N.ltb_ge, !N.eqb_neq.
  intros [H1 H2] [H3 H4].
  assert (x = y) as -> by lia.
  f_equal. apply IH; [destruct H2 | destruct H4]; done.
Qed.

(** ** The small platform satisfies the laws *)

Module ToyFacts.
Import Toy.

Lemma chunk_app (s rest : jsstring) :
  chunk (N.of_nat (length s)) (s ++ rest) = Some (s, rest).
Proof.
  unfold chunk. rewrite Nat2N.id, length_app.
  destruct (Nat.ltb_spec (length s + length rest) (length s)); [lia|].
  by rewrite take_app_length, drop_app_length.
Qed.

Lemma decode_encode_pos (p : positive) (rest : jsstring) :
  decode_pos (encode_pos p ++ rest) = Some (p, rest).
Proof. induction p as [p IH|p IH|]; cbn; by rewrite ?IH. Qed.

Lemma decode_encode (fuel : nat) :
  ∀ v rest, weight v ≤ fuel → decode fuel (encode v ++ rest) = Some (v, rest).
Proof.
  induction fuel as [|f IH]; intros v rest Hw.
  { destruct v; cbn in Hw; lia. }
  destruct v as [| |b|n|s|l|fs]; cbn [encode app decode].
  - done.
  - done.
  - by destruct b.
  - destruct n; cbn [app]; by rewrite ?decode_encode_pos.
  - by rewrite chunk_app.
  - rewrite Nat2N.id.
    assert (∀ rest, many (decode f) (length l) (concat (map encode l) ++ rest)
                    = Some (l, rest)) as ->; [|done].
    cbn in Hw. apply Nat.succ_le_mono in Hw. unfold list_sum in *.
    induction l as [|x l IHl]; intros rest'; [done|].
    cbn in Hw. cbn [length map concat many].
    rewrite <- app_assoc, IH by lia. rewrite IHl by lia. done.
  - rewrite Nat2N.id.
    match goal with
    | |- context [many ?d _ _] =>
        assert (∀ rest, many d (length fs)
                  (concat (map (fun kv => N.of_nat (length kv.1) :: kv.1 ++ encode kv.2) fs)
                   ++ rest) = Some (fs, rest)) as ->; [|done]
    end.
    cbn in Hw. apply Nat.succ_le_mono in Hw. unfold list_sum in *.
    induction fs as [|[k x] fs IHfs]; intros rest'; [done|].
    cbn in Hw. cbn [length map concat many fst snd app].
    rewrite <- !app_assoc, chunk_app, IH by lia. rewrite IHfs by lia. done.
Qed.

Lemma weight_le_length : ∀ v, weight v ≤ length (encode v).
Proof.
  fix IH 1. intros [| |b|n|s|l|fs]; cbn [weight encode length]; try lia.
  - apply le_n_S, Nat.le_le_succ_r. unfold list_sum.
    induction l as [|x l IHl]; [done|].
    cbn. rewrite length_app. specialize (IH x). lia.
  - apply le_n_S, Nat.le_le_succ_r. unfold list_sum.
    induction fs as [|[k x] fs IHfs]; [done|].
    cbn. rewrite !length_app. specialize (IH x). lia.
Qed.

Lemma parse_encode (v : jsval) : parse (encode v) = Some v.
Proof.
  unfold parse.
  rewrite <- (app_nil_r (encode v)) at 2.
  rewrite decode_encode; [done|]. pose proof (weight_le_length v). lia.
Qed.

Lemma text_decode_run (k m : nat) (rest : bytes) :
  text_decode_from k (repeat Byte.x01 m ++ Byte.x00 :: rest)
  = N.of_nat (k + m) :: text_decode_from 0 rest.
Proof.
  revert k; induction m as [|m IH]; intros k; cbn.
  - by rewrite Nat.add_0_r.
  - rewrite IH. do 2 f_equal. lia.
Qed.

Lemma text_decode_encode (s : jsstring) : text_decode_from 0 (text_encode s) = s.
Proof.
  induction s as [|c s IH]; [done|].
  unfold text_encode in *. cbn [map concat].
  rewrite <- app_assoc. cbn [app].
  rewrite text_decode_run, IH. cbn. by rewrite N2Nat.id.
Qed.

Lemma same_bytes_refl (a : bytes) : same_bytes a a = true.
Proof.
  induction a as [|x a IH]; [done|]. cbn. rewrite IH, andb_true_r.
  by apply Byte.byte_dec_lb.
Qed.

Lemma length_pad32 (bs : bytes) : length (pad32 bs) = 32.
Proof.
  unfold pad32. rewrite length_take, length_app, repeat_length. lia.
Qed.

Lemma xor_byte_comm (a b : byte) : xor_byte a b = xor_byte b a.
Proof. unfold xor_byte. by rewrite N.lxor_comm. Qed.

Lemma zip_xor_comm (a b : bytes) : zip_with xor_byte a b = zip_with xor_byte b a.
Proof.
  revert b; induction a as [|x a IH]; intros [|y b]; cbn; try done.
  by rewrite xor_byte_comm, IH.
Qed.

Instance laws : PlatformLaws platform.
Proof.
  split; cbn.
  - intros v _. apply parse_encode.
  - done.
  - intros v _. apply text_decode_encode.
  - intros sk msg Hsk. exists sk, (sk ++ pad32 msg).
    unfold getPublicKey, sign, verify.
    rewrite length_app, length_pad32, Hsk. cbn.
    by rewrite same_bytes_refl.
  - intros a b Ha Hb. exists a, b, (zip_with xor_byte a b).
    unfold getPublicKey, getSharedSecret. rewrite Ha, Hb. cbn.
    repeat split; try done.
    + by rewrite zip_xor_comm.
    + rewrite length_zip_with. lia.
  - intros k n pt Hk Hn. exists (tag k n ++ pt).
    unfold encrypt, decrypt. rewrite Hk, Hn. cbn.
    assert (length (tag k n) = 16) as Ht.
    { unfold tag. rewrite length_app, length_take. lia. }
    rewrite <- Ht at 1. rewrite take_app_length, same_bytes_refl.
    rewrite <- Ht. by rewrite drop_app_length.
Qed.

End ToyFacts.

(** ** The client's keys *)

Section ClientFacts.
Context `{P : Platform} {L : PlatformLaws P}.
Import Client Spec.

Lemma length_next_random (w : World) (n : nat) : length (next_random w n) = n.
Proof. unfold next_random. by rewrite length_map, length_seq. Qed.

Lemma public_keys (seed : bytes) :
  length seed = 32 →
  ∃ edPub xPub,
    ed25519_getPublicKey seed = Some edPub ∧ length edPub = 32
    ∧ x25519_getPublicKey seed = Some xPub ∧ length xPub = 32.
Proof.
  intros Hs.
  destruct (ed25519_correct seed [] Hs) as (pk & _ & Hpk & Hlen & _).
  destruct (x25519_agreement seed seed Hs Hs) as (pa & _ & _ & Hpa & _ & Hla & _).
  by exists pk, pa.
Qed.

Lemma json_ok_keyPair (seed edPub xPub : bytes) :
  json_ok (keyPair_of seed edPub xPub) = true.
Proof. reflexivity. Qed.

Lemma json_ok_publicKeyData (edPub xPub : bytes) :
  json_ok (publicKeyData_of edPub xPub) = true.
Proof. reflexivity. Qed.

Lemma stringify_nonempty (v : jsval) : json_ok v = true → JSON_stringify v ≠ [].
Proof.
  intros Hv He. pose proof (json_roundtrip v Hv) as Hr.
  rewrite He, json_parse_empty in Hr. done.
Qed.

Lemma missing_stringify (v : jsval) :
  json_ok v = true → missing (Some (JSON_stringify v)) = false.
Proof.
  intros Hv. pose proof (stringify_nonempty v Hv).
  unfold missing. by destruct (JSON_stringify v).
Qed.

Lemma parse_stringify (v : jsval) :
  json_ok v = true → parse (JSON_stringify v) = Ok v.
Proof. intros Hv. unfold parse. by rewrite json_roundtrip. Qed.

Lemma keyPair_ed25519_privateKey (seed edPub xPub : bytes) :
  (let? ed := prop (keyPair_of seed edPub xPub) "ed25519" in
   let? sk := prop ed "privateKey" in
   hexToBytes_any sk)%res = Ok seed.
Proof.
  transitivity (Ok (A:=bytes) (hexToBytes (toHex seed))); [reflexivity|].
  by rewrite hexToBytes_toHex.
Qed.

Lemma keyPair_x25519_privateKey (seed edPub xPub : bytes) :
  (let? x := prop (keyPair_of seed edPub xPub) "x25519" in
   let? sk := prop x "privateKey" in
   hexToBytes_any sk)%res = Ok seed.
Proof.
  transitivity (Ok (A:=bytes) (hexToBytes (toHex seed))); [reflexivity|].
  by rewrite hexToBytes_toHex.
Qed.

Lemma publicKeyData_ed25519 (edPub xPub : bytes) :
  (let? ed := prop (publicKeyData_of edPub xPub) "ed25519" in
   hexToBytes_any ed)%res = Ok edPub.
Proof.
  transitivity (Ok (A:=bytes) (hexToBytes (toHex edPub))); [reflexivity|].
  by rewrite hexToBytes_toHex.
Qed.

Lemma publicKeyData_x25519 (edPub xPub : bytes) :
  (let? x := prop (publicKeyData_of edPub xPub) "x25519" in
   hexToBytes_any x)%res = Ok xPub.
Proof.
  transitivity (Ok (A:=bytes) (hexToBytes (toHex xPub))); [reflexivity|].
  by rewrite hexToBytes_toHex.
Qed.

Lemma ed25519PrivateKeyBytes_keyPair (seed edPub xPub : bytes) :
  ed25519PrivateKeyBytes (JSON_stringify (keyPair_of seed edPub xPub)) = Ok seed.
Proof.
  unfold ed25519PrivateKeyBytes.
  rewrite parse_stringify by apply json_ok_keyPair.
  apply keyPair_ed25519_privateKey.
Qed.

Lemma x25519PrivateKeyBytes_keyPair (seed edPub xPub : bytes) :
  x25519PrivateKeyBytes (JSON_stringify (keyPair_of seed edPub xPub)) = Ok seed.
Proof.
  unfold x25519PrivateKeyBytes.
  rewrite parse_stringify by apply json_ok_keyPair.
  apply keyPair_x25519_privateKey.
Qed.

Lemma generateKeyPair_run (w : World) :
  ∃ edPub xPub,
    ed25519_getPublicKey (next_random w 32) = Some edPub
    ∧ x25519_getPublicKey (next_random w 32) = Some xPub
    ∧ generateKeyPair w
      = (Ok {| publicKey := JSON_stringify (publicKeyData_of edPub xPub);
               privateKey := JSON_stringify (keyPair_of (next_random w 32) edPub xPub) |},
         (getRandomBytes 32 w).2).
Proof.
  destruct (public_keys (next_random w 32) (length_next_random w 32))
    as (edPub & xPub & Hed & _ & Hx & _).
  exists edPub, xPub. repeat split; try done.
  unfold generateKeyPair, randomSecretKey, bind, lift, ret.
  change (getRandomBytes 32 w) with (Ok (next_random w 32), (getRandomBytes 32 w).2).
  cbv beta iota. by rewrite Hed, Hx.
Qed.

Lemma getKeys_installed (w : World) (seed : bytes) :
  installed w seed →
  ∃ edPub xPub,
    ed25519_getPublicKey seed = Some edPub ∧ length edPub = 32
    ∧ x25519_getPublicKey seed = Some xPub ∧ length xPub = 32
    ∧ getKeys w
      = (Ok {| publicKey := JSON_stringify (publicKeyData_of edPub xPub);
               privateKey := JSON_stringify (keyPair_of seed edPub xPub) |}, w).
Proof.
  intros (Hup & Hlen & Hpub & Hpriv).
  destruct (public_keys seed Hlen) as (edPub & xPub & Hed & Hle & Hx & Hlx).
  exists edPub, xPub. repeat split; try done.
  unfold identity_of in Hpub. unfold secret_of in Hpriv.
  rewrite Hed, Hx in Hpub, Hpriv. cbn in Hpub, Hpriv.
  unfold getKeys, try_catch, bind, getItemAsync.
  rewrite Hup, Hpub. cbv beta iota. rewrite Hup, Hpriv.
  rewrite !missing_stringify by done. reflexivity.
Qed.

(** The first call of [getKeys] on a new device generates the keys of
    the next 32 random bytes and stores them. *)
Lemma getKeys_fresh (w : World) :
  fresh w →
  ∃ keys w',
    getKeys w = (Ok keys, w')
    ∧ identity_of (next_random w 32) = Some (publicKey keys)
    ∧ installed w' (next_random w 32).
Proof.
  intros (Hup & Hnone).
  destruct (generateKeyPair_run w) as (edPub & xPub & Hed & Hx & Hgen).
  unfold getKeys, try_catch, bind, getItemAsync.
  rewrite Hup, Hnone. cbv beta iota. rewrite Hup. cbv beta iota.
  cbn [missing orb]. rewrite Hgen. cbv beta iota.
  unfold setItemAsync. cbn [snd getRandomBytes secureStore_down]. rewrite Hup.
  cbv beta iota. cbn [secureStore_down].
  do 2 eexists. split; [reflexivity|]. cbn [publicKey privateKey].
  unfold installed. unfold identity_of, secret_of. rewrite Hed, Hx.
  split; [done|]. split; [done|]. split; [apply length_next_random|].
  cbn [secureStore]. split.
  - rewrite lookup_insert_ne by (unfold PUBLIC_KEY, PRIVATE_KEY; discriminate).
    by rewrite lookup_insert_eq.
  - by rewrite lookup_insert_eq.
Qed.

End ClientFacts.

(** ** Encryption and decryption *)

Section CipherFacts.
Context `{P : Platform} {L : PlatformLaws P}.
Import Client Spec.

Lemma json_ok_payload (A m : jsstring) (ts : Z) :
  safe_integer ts = true → json_ok (payload_of A m ts) = true.
Proof. intros Hts. cbn. by rewrite Hts. Qed.

Lemma json_ok_envelope (ct n sig : bytes) : json_ok (envelope_of ct n sig) = true.
Proof. reflexivity. Qed.

Lemma received_envelope (ct n sig : bytes) :
  received (JSON_stringify (envelope_of ct n sig))
  = Some {| encrypted := toHex ct; nonce := Some (toHex n); signature := toHex sig |}.
Proof.
  unfold received. rewrite json_roundtrip by apply json_ok_envelope. reflexivity.
Qed.

Lemma exchange_exists (a b : bytes) (A B m : jsstring) (ts : Z) (n : bytes) :
  length a = 32 → length b = 32 → length n = 12 →
  identity_of a = Some A → identity_of b = Some B →
  ∃ ct sig, Exchange a b A B m ts n ct sig.
Proof.
  intros Ha Hb Hn HA HB.
  destruct (x25519_agreement a b Ha Hb) as (xA & xB & k & HxA & HxB & _ & _ & Hab & Hba & Hk).
  destruct (chacha20poly1305_correct k n
              (utf8_encode (JSON_stringify (payload_of A m ts))) Hk Hn)
    as (ct & Henc & Hdec).
  destruct (ed25519_correct a ct Ha) as (edA & sig & HedA & _ & Hsig & _ & Hver & _).
  destruct (ed25519_correct b [] Hb) as (edB & _ & HedB & _).
  unfold identity_of in HA, HB.
  rewrite HedA, HxA in HA. rewrite HedB, HxB in HB. cbn in HA, HB.
  injection HA as <-. injection HB as <-.
  exists ct, sig. by econstructor.
Qed.

Lemma encryptMessage_run (wA : World) (a b : bytes) (A B m : jsstring) (ct sig : bytes) :
  installed wA a →
  Exchange a b A B m (clock wA) (next_random wA 12) ct sig →
  encryptMessage m B wA
  = (Ok {| destination := B;
           message := JSON_stringify (envelope_of ct (next_random wA 12) sig) |},
     (getRandomBytes 12 wA).2).
Proof.
  intros Hinst [edA xA edB xB k HedA HxA HedB HxB -> -> Hab Hba Henc Hdec Hsig Hver].
  destruct (getKeys_installed wA a Hinst) as (edA' & xA' & HedA' & _ & HxA' & _ & Hkeys).
  rewrite HedA in HedA'. rewrite HxA in HxA'.
  injection HedA' as <-. injection HxA' as <-.
  unfold encryptMessage, try_catch, bind.
  rewrite Hkeys. cbv beta iota. unfold lift, Date_now. cbn [publicKey privateKey].
  rewrite !parse_stringify by (apply json_ok_keyPair || apply json_ok_publicKeyData).
  rewrite keyPair_x25519_privateKey, publicKeyData_x25519, keyPair_ed25519_privateKey.
  rewrite Hab.
  change (getRandomBytes 12 wA) with (Ok (next_random wA 12), (getRandomBytes 12 wA).2).
  cbn [of_option]. cbv beta iota.
  unfold payload_of in Henc. rewrite Henc. cbn [of_option]. rewrite Hsig. reflexivity.
Qed.

(** [decryptMessage] on the ciphertext of an honest exchange, whatever
    string stands in the [signature] field and whatever the verifier
    answers ([v]) on it. *)
Lemma decryptMessage_run (wB : World) (a b : bytes) (A B m : jsstring) (ts : Z)
    (n ct sig : bytes) (s d : jsstring) (v : bool) :
  installed wB b →
  n ≠ [] →
  safe_integer ts = true →
  Exchange a b A B m ts n ct sig →
  (∀ edA, ed25519_getPublicKey a = Some edA →
          ed25519_verify (hexToBytes s) ct edA = Some v) →
  decryptMessage
    {| origin := A; payload_destination := d;
       encryptedMessage :=
         {| encrypted := toHex ct; nonce := Some (toHex n); signature := s |} |} wB
  = (Ok (Some {| senderPublicKey := VStr A; decrypted_message := VStr m;
                 timestamp := VNum ts |}),
     if v then wB else logged "Signature verification failed" wB).
Proof.
  intros Hinst Hn Hts [edA xA edB xB k HedA HxA HedB HxB HA -> Hab Hba Henc Hdec Hsig Hver] Hv.
  specialize (Hv edA HedA).
  destruct (getKeys_installed wB b Hinst) as (edB' & xB' & HedB' & _ & HxB' & _ & Hkeys).
  rewrite HedB in HedB'. rewrite HxB in HxB'.
  injection HedB' as <-. injection HxB' as <-.
  unfold decryptMessage, try_catch, bind.
  rewrite Hkeys. cbv beta iota. unfold lift. cbn [publicKey privateKey origin encryptedMessage
    Client.nonce encrypted signature].
  rewrite parse_stringify by apply json_ok_keyPair.
  rewrite missing_toHex by done.
  rewrite HA at 1. rewrite parse_stringify by apply json_ok_publicKeyData.
  rewrite publicKeyData_ed25519. cbn [of_option default from_option id].
  rewrite !hexToBytes_toHex, Hv. cbn [of_option].
  destruct v; cbv beta iota; unfold ret at 1, logged, console_error; cbv beta iota;
    rewrite keyPair_x25519_privateKey, publicKeyData_x25519;
    rewrite Hba; cbn [of_option]; rewrite Hdec; cbn [of_option];
    (rewrite utf8_roundtrip, parse_stringify by by apply json_ok_payload);
    reflexivity.
Qed.

End CipherFacts.

(** ** Claims about the client *)

Section ClientClaims.
Context `{P : Platform}.
Import Client Spec.

Lemma add_text_same_text (k1 k2 : jsval) :
  ToString k1 = ToString k2 → add_text k1 k2 = add_text k2 k1.
Proof.
  intros Heq. unfold add_text.
  rewrite (orb_comm (stringish k1)), Heq.
  destruct (stringish k2 || stringish k1); [done|].
  destruct (ToNumber k1), (ToNumber k2); try done.
  by rewrite Z.add_comm.
Qed.

Lemma sort2_defined (k1 k2 : jsval) :
  k1 ≠ VUndefined → k2 ≠ VUndefined →
  sort2 k1 k2 = if str_lt (ToString k2) (ToString k1) then (k2, k1) else (k1, k2).
Proof. by destruct k1, k2. Qed.

Lemma sort2_undefined_l (k : jsval) : sort2 VUndefined k = (k, VUndefined).
Proof. by destruct k. Qed.

Lemma sort2_undefined_r (k : jsval) : sort2 k VUndefined = (k, VUndefined).
Proof. by destruct k. Qed.

Lemma sorted_text_symmetric (k1 k2 : jsval) :
  (let '(s1, s2) := sort2 k1 k2 in add_text s1 s2)
  = (let '(s1, s2) := sort2 k2 k1 in add_text s1 s2).
Proof.
  assert (∀ k, k = VUndefined ∨ k ≠ VUndefined) as Hcase.
  { intros []; auto. }
  destruct (Hcase k1) as [->|H1].
  { by rewrite sort2_undefined_l, sort2_undefined_r. }
  destruct (Hcase k2) as [->|H2].
  { by rewrite sort2_undefined_l, sort2_undefined_r. }
  rewrite !sort2_defined by done.
  destruct (str_lt (ToString k2) (ToString k1)) eqn:H21.
  - by rewrite (str_lt_asym _ _ H21).
  - destruct (str_lt (ToString k1) (ToString k2)) eqn:H12; [done|].
    apply add_text_same_text. by apply str_lt_total.
Qed.

(** C3: deriving the conversation identifier is symmetric in its two
    arguments: for all public-key strings [A] and [B] (valid Identities
    among them), [generateConversationId A B] and
    [generateConversationId B A] are the same result, character for
    character. *)
Theorem generateConversationId_symmetric (A B : jsstring) :
  generateConversationId A B = generateConversationId B A.
Proof.
  unfold generateConversationId, parse.
  destruct (JSON_parse A) as [kA|], (JSON_parse B) as [kB|]; cbn [of_option rbind];
    try done.
  destruct (prop kA "ed25519") as [k1|], (prop kB "ed25519") as [k2|];
    cbn [rbind]; try done.
  pose proof (sorted_text_symmetric k1 k2) as Hs.
  destruct (sort2 k1 k2) as [s1 s2], (sort2 k2 k1) as [t1 t2].
  by rewrite Hs.
Qed.



End ClientClaims.

Section CipherClaims.
Context `{P : Platform} {L : PlatformLaws P}.
Import Client Spec.

Lemma nonce_not_empty (w : World) : next_random w 12 ≠ [].
Proof.
  intros Hnil. pose proof (length_next_random w 12) as Hlen.
  rewrite Hnil in Hlen. discriminate.
Qed.

(** What [encryptMessage] returned, read back through the lemmas above. *)
Lemma encryptMessage_inv (wA : World) (a b : bytes) (A B m envelope : jsstring)
    (wA' : World) (em : EncryptedMessage) :
  installed wA a → length b = 32 →
  identity_of a = Some A → identity_of b = Some B →
  encryptMessage m B wA = (Ok {| destination := B; message := envelope |}, wA') →
  received envelope = Some em →
  ∃ ct sig,
    Exchange a b A B m (clock wA) (next_random wA 12) ct sig
    ∧ em = {| encrypted := toHex ct; nonce := Some (toHex (next_random wA 12));
              signature := toHex sig |}.
Proof.
  intros HwA Hb HA HB Henc Hrec.
  destruct HwA as (Hup & Ha & Hst) .
  destruct (exchange_exists a b A B m (clock wA) (next_random wA 12) Ha Hb
              (length_next_random wA 12) HA HB) as (ct & sig & Hex).
  exists ct, sig. split; [done|].
  rewrite (encryptMessage_run wA a b A B m ct sig) in Henc by done.
  injection Henc as <- _.
  rewrite received_envelope in Hrec. by injection Hrec as <-.
Qed.

(** C1: for every message [m] and keypairs generated from seeds [a]
    (Alice, whose device is [wA]) and [b] (Bob, whose device is [wB]),
    [encryptMessage m] to Bob's Identity succeeds on Alice's device, and
    [decryptMessage] on Bob's device, given the envelope as the
    notification carries it and Alice's Identity as origin, returns
    exactly [m], with [senderPublicKey] Alice's Identity (and the
    timestamp of the encryption). *)
Theorem decrypt_encrypt_roundtrip (wA wB : World) (a b : bytes) (A B m : jsstring) :
  installed wA a → installed wB b →
  identity_of a = Some A → identity_of b = Some B →
  safe_integer (clock wA) = true →
  ∃ envelope wA' em,
    encryptMessage m B wA = (Ok {| destination := B; message := envelope |}, wA')
    ∧ received envelope = Some em
    ∧ decryptMessage {| origin := A; payload_destination := B; encryptedMessage := em |} wB
      = (Ok (Some {| senderPublicKey := VStr A; decrypted_message := VStr m;
                     timestamp := VNum (clock wA) |}), wB).
Proof.
  intros HwA HwB HA HB Hts.
  pose proof HwA as (_ & Ha & _). pose proof HwB as (_ & Hb & _).
  destruct (exchange_exists a b A B m (clock wA) (next_random wA 12) Ha Hb
              (length_next_random wA 12) HA HB) as (ct & sig & Hex).
  do 3 eexists. split; [by apply (encryptMessage_run wA a b A B m ct sig)|].
  split; [apply received_envelope|].
  apply (decryptMessage_run wB a b A B m (clock wA) _ ct sig (toHex sig) B true
           HwB (nonce_not_empty wA) Hts Hex).
  intros edA HedA. destruct Hex. rewrite hexToBytes_toHex. congruence.
Qed.

(** C2 (what the code does on the failing input): when the signature in
    the envelope does not verify over the ciphertext under the origin's
    signing key, [decryptMessage] logs the failure and goes on: it
    decrypts and returns the plaintext of an otherwise honest envelope. *)
Theorem decryptMessage_proceeds_after_failed_verification
    (wA wB : World) (a b : bytes) (A B m envelope : jsstring) (wA' : World)
    (em : EncryptedMessage) (s : jsstring) :
  installed wA a → installed wB b →
  identity_of a = Some A → identity_of b = Some B →
  safe_integer (clock wA) = true →
  encryptMessage m B wA = (Ok {| destination := B; message := envelope |}, wA') →
  received envelope = Some em →
  isValid A {| encrypted := encrypted em; nonce := nonce em; signature := s |} = Ok false →
  decryptMessage
    {| origin := A; payload_destination := B;
       encryptedMessage :=
         {| encrypted := encrypted em; nonce := nonce em; signature := s |} |} wB
  = (Ok (Some {| senderPublicKey := VStr A; decrypted_message := VStr m;
                 timestamp := VNum (clock wA) |}),
     logged "Signature verification failed" wB).
Proof.
  intros HwA HwB HA HB Hts Henc Hrec Hbad.
  pose proof HwB as (_ & Hb & _).
  destruct (encryptMessage_inv wA a b A B m envelope wA' em HwA Hb HA HB Henc Hrec)
    as (ct & sig & Hex & ->).
  cbn [encrypted nonce signature] in *.
  apply (decryptMessage_run wB a b A B m (clock wA) _ ct sig s B false
           HwB (nonce_not_empty wA) Hts Hex).
  intros edA HedA. destruct Hex as [edA' xA ? ? ? HedA' ? ? ? -> ? ? ? ? ? ? ?].
  assert (edA' = edA) as -> by congruence.
  unfold isValid in Hbad. cbn [encrypted signature] in Hbad.
  rewrite parse_stringify in Hbad by apply json_ok_publicKeyData.
  cbn [rbind] in Hbad. rewrite publicKeyData_ed25519 in Hbad.
  cbn [rbind] in Hbad. rewrite hexToBytes_toHex in Hbad.
  by destruct (ed25519_verify (hexToBytes s) ct edA) as [[]|].
Qed.

(** The conversation id of two generated Identities: the digest of
    their Ed25519 public keys in hexadecimal, the smaller first. *)
Lemma generateConversationId_identities (a b : bytes) (A B : jsstring) (edA edB : bytes) :
  identity_of a = Some A → identity_of b = Some B →
  ed25519_getPublicKey a = Some edA → ed25519_getPublicKey b = Some edB →
  generateConversationId A B
  = Ok (toHex (sha256 (utf8_encode
         (if str_lt (toHex edB) (toHex edA)
          then toHex edB ++ toHex edA
          else toHex edA ++ toHex edB)))).
Proof.
  intros HA HB HedA HedB. unfold identity_of in HA, HB.
  rewrite HedA in HA. rewrite HedB in HB.
  destruct (x25519_getPublicKey a) as [xA|]; [|done].
  destruct (x25519_getPublicKey b) as [xB|]; [|done].
  cbn in HA, HB. injection HA as <-. injection HB as <-.
  unfold generateConversationId.
  rewrite !parse_stringify by apply json_ok_publicKeyData. cbn [rbind].
  assert (∀ e x, prop (publicKeyData_of e x) "ed25519" = Ok (VStr (toHex e)))
    as Hprop by reflexivity.
  rewrite !Hprop. cbn [rbind sort2 ToString].
  by destruct (str_lt (toHex edB) (toHex edA)).
Qed.

(** C9: [generateKeyPair] succeeds, and the bundle it stores holds one
    32-byte secret, the seed, under both roles: the Ed25519 private key
    and the X25519 private key that [signMessage], [encryptMessage] and
    [decryptMessage] read back from it are both the seed. *)
Theorem generateKeyPair_one_secret (w : World) :
  ∃ keys w' edPub xPub,
    generateKeyPair w = (Ok keys, w')
    ∧ length (next_random w 32) = 32
    ∧ privateKey keys = JSON_stringify (keyPair_of (next_random w 32) edPub xPub)
    ∧ ed25519PrivateKeyBytes (privateKey keys) = Ok (next_random w 32)
    ∧ x25519PrivateKeyBytes (privateKey keys) = Ok (next_random w 32).
Proof.
  destruct (generateKeyPair_run w) as (edPub & xPub & _ & _ & Hrun).
  do 4 eexists. split; [exact Hrun|]. cbn [privateKey].
  split; [apply length_next_random|].
  split; [reflexivity|].
  split; [apply ed25519PrivateKeyBytes_keyPair | apply x25519PrivateKeyBytes_keyPair].
Qed.

End CipherClaims.

(** ** The examples *)

Section Examples.
Import Client Spec Example.
#[local] Existing Instance Toy.platform.
#[local] Existing Instance ToyFacts.laws.

Lemma alice_installed : installed alice_device seedA.
Proof. repeat split; vm_compute; reflexivity. Qed.

Lemma bob_installed : installed bob_device seedB.
Proof. repeat split; vm_compute; reflexivity. Qed.

Lemma hi_exchange :
  ∃ ct sig,
    Exchange seedA seedB Alice Bob hi 1700000000000 (next_random alice_device 12) ct sig.
Proof. by apply exchange_exists. Qed.

Lemma hi_encrypted :
  encryptMessage hi Bob alice_device
  = (Ok {| destination := Bob; message := hi_envelope |},
     (encryptMessage hi Bob alice_device).2).
Proof.
  destruct hi_exchange as (ct & sig & Hex).
  unfold hi_envelope.
  by rewrite (encryptMessage_run alice_device seedA seedB Alice Bob hi ct sig
                alice_installed Hex).
Qed.

Lemma hi_is_received : received hi_envelope = Some hi_received.
Proof.
  destruct hi_exchange as (ct & sig & Hex).
  unfold hi_received, hi_envelope.
  rewrite (encryptMessage_run alice_device seedA seedB Alice Bob hi ct sig
             alice_installed Hex).
  cbn [fst message]. by rewrite received_envelope.
Qed.


Lemma decrypt_encrypt_roundtrip_witness :
  ∃ envelope wA' em,
    encryptMessage hi Bob alice_device
    = (Ok {| destination := Bob; message := envelope |}, wA')
    ∧ received envelope = Some em
    ∧ decryptMessage
        {| origin := Alice; payload_destination := Bob;
           encryptedMessage := em |} bob_device
      = (Ok (Some {| senderPublicKey := VStr Alice;
                     decrypted_message := VStr hi;
                     timestamp := VNum 1700000000000 |}), bob_device).
Proof.
  apply (decrypt_encrypt_roundtrip (P:=Toy.platform) (L:=ToyFacts.laws) alice_device bob_device
           seedA seedB Alice Bob hi).
  - apply alice_installed.
  - apply bob_installed.
  - reflexivity.
  - reflexivity.
  - reflexivity.
Defined.

Lemma decryptMessage_proceeds_after_failed_verification_witness :
  decryptMessage
    {| origin := Alice; payload_destination := Bob;
       encryptedMessage := forged_message |} bob_device
  = (Ok (Some {| senderPublicKey := VStr Alice;
                 decrypted_message := VStr hi;
                 timestamp := VNum 1700000000000 |}),
     logged "Signature verification failed" bob_device).
Proof.
  apply (decryptMessage_proceeds_after_failed_verification
           (P:=Toy.platform) (L:=ToyFacts.laws)
           alice_device bob_device seedA seedB
           Alice Bob hi hi_envelope
           (encryptMessage hi Bob
              alice_device).2
           hi_received forged_signature).
  - apply alice_installed.
  - apply bob_installed.
  - reflexivity.
  - reflexivity.
  - reflexivity.
  - apply hi_encrypted.
  - apply hi_is_received.
  - vm_compute. reflexivity.
Defined.

Lemma generateKeyPair_one_secret_witness :
  ∃ keys w' edPub xPub,
    generateKeyPair new_device = (Ok keys, w')
    ∧ length (next_random new_device 32) = 32
    ∧ privateKey keys
      = JSON_stringify (keyPair_of (next_random new_device 32) edPub xPub)
    ∧ ed25519PrivateKeyBytes (privateKey keys)
      = Ok (next_random new_device 32)
    ∧ x25519PrivateKeyBytes (privateKey keys)
      = Ok (next_random new_device 32).
Proof.
  apply (generateKeyPair_one_secret (P:=Toy.platform) (L:=ToyFacts.laws) new_device).
Defined.


End Examples.

(** ** The relay: request authentication *)

Section ServerFacts.
Context `{P : Platform}.
Import Server Spec.

Lemma TIMESTAMP_TOLERANCE_default (w : World) :
  env_TIMESTAMP_TOLERANCE w = None → TIMESTAMP_TOLERANCE w = 300000%Z.
Proof. unfold TIMESTAMP_TOLERANCE. by intros ->. Qed.

Lemma verifyRequestSignature_expired (w : World) (o : jsstring) (ts : Z)
    (d em sig : jsstring) :
  (TIMESTAMP_TOLERANCE w < Z.abs (clock w - ts))%Z →
  verifyRequestSignature o ts d em sig w
  = (Ok false, traced [Log "Timestamp validation failed:"; ReadClock] w).
Proof.
  intros Hlate. apply Z.ltb_lt in Hlate.
  cbv beta iota zeta delta [verifyRequestSignature try_catch bind Date_now emit ret lift].
  unfold TIMESTAMP_TOLERANCE in *. cbn [clock env_TIMESTAMP_TOLERANCE].
  by rewrite Hlate.
Qed.

(** Within the window the answer is the signature check's, and the
    timestamp failure is not what the log shows. *)
Lemma verifyRequestSignature_in_window (w : World) (o : jsstring) (ts : Z)
    (d em sig : jsstring) :
  (Z.abs (clock w - ts) ≤ TIMESTAMP_TOLERANCE w)%Z →
  ∃ e es,
    verifyRequestSignature o ts d em sig w
    = (Ok (or_false (request_signature_valid o ts d em sig)),
       traced (es ++ [e; ReadClock]) w)
    ∧ e ≠ Log "Timestamp validation failed:".
Proof.
  intros Hin. apply Z.ltb_ge in Hin.
  cbv beta iota zeta delta [verifyRequestSignature request_signature_valid try_catch bind
                            Date_now emit ret lift].
  unfold TIMESTAMP_TOLERANCE in *. cbn [clock env_TIMESTAMP_TOLERANCE].
  rewrite Hin.
  destruct (JSON_parse o) as [originKeys|]; cbn [of_option rbind].
  2: { by exists (Log "Signature verification error:"), []. }
  destruct (prop originKeys "ed25519") as [[| | | |e| |]|]; cbn [rbind];
    try by exists (Log "Signature verification error:"), [].
  destruct (nacl_sign_detached_verify _ _ _) as [[]|]; cbn [of_option or_false].
  - by exists VerifySignature, [].
  - by exists VerifySignature, [Log "Signature verification failed"].
  - by exists VerifySignature, [Log "Signature verification error:"].
Qed.

Lemma verifyRequestSignature_result (w : World) (o : jsstring) (ts : Z)
    (d em sig : jsstring) :
  (verifyRequestSignature o ts d em sig w).1
  = Ok (negb (TIMESTAMP_TOLERANCE w <? Z.abs (clock w - ts))%Z
        && or_false (request_signature_valid o ts d em sig)).
Proof.
  destruct (Z.ltb_spec (TIMESTAMP_TOLERANCE w) (Z.abs (clock w - ts))) as [Hlate|Hin].
  - by rewrite verifyRequestSignature_expired.
  - destruct (verifyRequestSignature_in_window w o ts d em sig Hin) as (e & es & -> & _).
    done.
Qed.

(** C5: a call of [verifyRequestSignature] stops at the timestamp check
    exactly when [abs(now - timestamp)] exceeds the tolerance, which is
    300000 ms unless the environment sets it; a request whose signature
    is valid, signed at [ts], is accepted when verified at
    [ts + tolerance - 1] and rejected at [ts + tolerance + 1]. *)
Theorem timestamp_window (w : World) (o : jsstring) (ts : Z) (d em sig : jsstring) :
  request_signature_valid o ts d em sig = Ok true →
  (0 < TIMESTAMP_TOLERANCE w)%Z →
  (∀ now,
     rejected_for_timestamp (at_time now w)
       (after (verifyRequestSignature o ts d em sig) (at_time now w))
     ↔ (TIMESTAMP_TOLERANCE w < Z.abs (now - ts))%Z)
  ∧ (verifyRequestSignature o ts d em sig
       (at_time (ts + TIMESTAMP_TOLERANCE w - 1) w)).1 = Ok true
  ∧ (verifyRequestSignature o ts d em sig
       (at_time (ts + TIMESTAMP_TOLERANCE w + 1) w)).1 = Ok false
  ∧ (env_TIMESTAMP_TOLERANCE w = None → TIMESTAMP_TOLERANCE w = 300000%Z).
Proof.
  intros Hsig Htol. repeat split.
  - intros Hrej.
    destruct (Z.ltb_spec (TIMESTAMP_TOLERANCE w) (Z.abs (now - ts))) as [|Hin]; [done|].
    destruct (verifyRequestSignature_in_window (at_time now w) o ts d em sig Hin)
      as (e & es & Hrun & He).
    unfold rejected_for_timestamp, after in Hrej. rewrite Hrun in Hrej.
    cbn [snd traced trace at_time] in Hrej. rewrite <- app_assoc in Hrej.
    destruct es as [|e1 es].
    + injection Hrej as He'. by subst e.
    + apply (f_equal length) in Hrej.
      cbn [app length] in Hrej. rewrite length_app in Hrej.
      cbn [length] in Hrej. lia.
  - intros Hlate. unfold rejected_for_timestamp, after.
    by rewrite verifyRequestSignature_expired.
  - rewrite verifyRequestSignature_result, Hsig.
    change (TIMESTAMP_TOLERANCE (at_time _ w)) with (TIMESTAMP_TOLERANCE w).
    cbn [clock at_time or_false].
    by rewrite (proj2 (Z.ltb_ge _ _)) by lia.
  - rewrite verifyRequestSignature_result, Hsig.
    change (TIMESTAMP_TOLERANCE (at_time _ w)) with (TIMESTAMP_TOLERANCE w).
    cbn [clock at_time or_false].
    by rewrite (proj2 (Z.ltb_lt _ _)) by lia.
  - apply TIMESTAMP_TOLERANCE_default.
Qed.

End ServerFacts.

Section RelayClaims.
Context `{P : Platform}.
Import Server Spec.

Lemma truthy_str (s : jsstring) : s ≠ [] → truthy (VStr s) = true.
Proof. by destruct s. Qed.

Lemma truthy_num (n : Z) : (0 < n)%Z → truthy (VNum n) = true.
Proof. intros Hn. cbn. by destruct (Z.eqb_spec n 0); [lia|]. Qed.

(** A request that passed the shape checks is answered by the
    authentication step. *)
Lemma send_unauthorized (body : jsval) (w : World) (ts : Z) (o d em sig : jsstring) :
  shape_ok body ts d em sig →
  field body "origin" = VStr o → o ≠ [] → isValidKeyObject (VStr o) = true →
  (verifyRequestSignature o ts d em sig w).1 = Ok false →
  (send body w).1 = Ok unauthorized.
Proof.
  intros (Hlog & Hts & Hpos & Hsig & Hpat & Hd & Hdne & Hdok & Hem & Hemne & Hemok)
    Ho Hone Hook Hverify.
  assert (sig ≠ []) as Hsigne.
  { intros ->. discriminate Hpat. }
  unfold send. rewrite Hlog, Hts, Hsig, Hd, Hem, Ho.
  rewrite (truthy_str em), (truthy_str d), (truthy_str sig), (truthy_str o),
    truthy_num by done.
  unfold bind at 1, lift at 1. cbn [negb orb andb].
  destruct (Z.leb_spec ts 0) as [|_]; [lia|].
  rewrite Hpat, Hdok, Hook, Hemok. cbn [negb andb].
  unfold bind at 1.
  destruct (verifyRequestSignature o ts d em sig w) as [[[]|] w1];
    cbn [fst] in Hverify; try discriminate.
  reflexivity.
Qed.

(** C6 (as amended): a request that passed the shape checks and fails
    authentication gets one and the same response, status 401 with the
    error [Unauthorized: Invalid or expired signature], whether its
    timestamp is outside the window or its signature does not verify. *)
Theorem unauthorized_is_one_response (body : jsval) (w : World) (ts : Z)
    (o d em sig : jsstring) :
  shape_ok body ts d em sig →
  field body "origin" = VStr o → o ≠ [] → isValidKeyObject (VStr o) = true →
  (TIMESTAMP_TOLERANCE w < Z.abs (clock w - ts))%Z
  ∨ or_false (request_signature_valid o ts d em sig) = false →
  (send body w).1 = Ok unauthorized.
Proof.
  intros Hshape Ho Hone Hook Hwhy.
  apply (send_unauthorized body w ts o d em sig); try done.
  rewrite verifyRequestSignature_result. f_equal.
  destruct Hwhy as [Hlate| ->].
  - apply Z.ltb_lt in Hlate. by rewrite Hlate.
  - apply andb_false_r.
Qed.


(** ** The relay: the recipient directory *)

Lemma sanitizeForLog_register (i t : jsstring) :
  sanitizeForLog (register_body i t) = Ok ().
Proof.
  unfold sanitizeForLog.
  change (field (register_body i t) "expoPushToken") with (VStr t).
  change (field (register_body i t) "signature") with VUndefined.
  by destruct (truthy (VStr t)).
Qed.

Lemma register_run (w : World) (i t : jsstring) :
  valid_registration i t = true →
  register (register_body i t) w
  = (Ok {| status := 200;
           json := obj [("success", VBool true); ("recipient", VStr i)] |},
     after (upsert i t) w).
Proof.
  unfold valid_registration. rewrite !andb_true_iff.
  intros [[[Hi Ht] Hkey] Htok].
  unfold register. rewrite sanitizeForLog_register.
  change (field (register_body i t) "expoPushToken") with (VStr t).
  change (field (register_body i t) "recipientId") with (VStr i).
  unfold bind at 1, lift at 1. cbv beta iota.
  rewrite Hi, Ht, Hkey, Htok. cbn [negb orb].
  reflexivity.
Qed.

Lemma upsert_lookup (w : World) (i t : jsstring) :
  recipients (after (upsert i t) w) !! i
  = Some {| expo_push_token := t;
            created_at := from_option created_at (CURRENT_TIMESTAMP w) (recipients w !! i);
            updated_at := CURRENT_TIMESTAMP w |}.
Proof.
  unfold after, upsert, bind, emit. cbn.
  rewrite lookup_insert_eq. by destruct (recipients w !! i).
Qed.

Lemma upsert_other (w : World) (i j t : jsstring) :
  i ≠ j → recipients (after (upsert i t) w) !! j = recipients w !! j.
Proof.
  intros Hne. unfold after, upsert, bind, emit. cbn.
  by rewrite lookup_insert_ne.
Qed.

(** C8: registering [i] with [t1] and then with [t2] leaves [t2] as the
    token [lookup] returns for [i]; each registration sets the row's
    [updated_at] to the time it ran at (and keeps [created_at]);
    registering [t2] once more leaves the stored token [t2]; no other
    row changes. *)
Theorem register_last_write_wins (w : World) (i t1 t2 : jsstring) (c1 c2 c3 : Z) :
  valid_registration i t1 = true →
  valid_registration i t2 = true →
  let w1 := after (register (register_body i t1)) (at_time c1 w) in
  let w2 := after (register (register_body i t2)) (at_time c2 w1) in
  let w3 := after (register (register_body i t2)) (at_time c3 w2) in
  let born := from_option created_at (c1 / 1000)%Z (recipients w !! i) in
  recipients w1 !! i
  = Some {| expo_push_token := t1; created_at := born; updated_at := (c1 / 1000)%Z |}
  ∧ recipients w2 !! i
    = Some {| expo_push_token := t2; created_at := born; updated_at := (c2 / 1000)%Z |}
  ∧ (lookup i w2).1 = Ok (Some t2)
  ∧ recipients w3 !! i
    = Some {| expo_push_token := t2; created_at := born; updated_at := (c3 / 1000)%Z |}
  ∧ (lookup i w3).1 = Ok (Some t2)
  ∧ ∀ j, j ≠ i → recipients w3 !! j = recipients w !! j.
Proof.
  intros H1 H2 w1 w2 w3 born.
  assert (recipients w1 !! i
          = Some {| expo_push_token := t1; created_at := born;
                    updated_at := (c1 / 1000)%Z |}) as E1.
  { unfold w1, after. rewrite register_run by done. apply upsert_lookup. }
  assert (recipients w2 !! i
          = Some {| expo_push_token := t2; created_at := born;
                    updated_at := (c2 / 1000)%Z |}) as E2.
  { unfold w2, after. rewrite register_run by done. cbn [snd].
    rewrite upsert_lookup. cbn [at_time recipients]. by rewrite E1. }
  assert (recipients w3 !! i
          = Some {| expo_push_token := t2; created_at := born;
                    updated_at := (c3 / 1000)%Z |}) as E3.
  { unfold w3, after. rewrite register_run by done. cbn [snd].
    rewrite upsert_lookup. cbn [at_time recipients]. by rewrite E2. }
  repeat split; try done.
  - unfold lookup, bind, emit. cbn. by rewrite E2.
  - unfold lookup, bind, emit. cbn. by rewrite E3.
  - intros j Hj. unfold w3, w2, w1, after.
    rewrite !register_run by done. cbn [snd].
    rewrite upsert_other by done. cbn [at_time recipients].
    rewrite upsert_other by done. cbn [at_time recipients].
    by rewrite upsert_other.
Qed.

End RelayClaims.

(** ** The request signature, from the client to the relay *)

Section RequestSignature.
Context `{P : Platform} {L : PlatformLaws P}.
Import Spec.

Lemma signMessage_run (w : Client.World) (a : bytes) (msg : jsstring) :
  installed w a →
  ∃ edPub xPub sig,
    ed25519_getPublicKey a = Some edPub
    ∧ x25519_getPublicKey a = Some xPub
    ∧ nacl_sign_detached_verify (utf8_encode msg) sig edPub = Some true
    ∧ Client.signMessage msg w = (Ok (toHex sig), w).
Proof.
  intros Hw. pose proof Hw as (_ & Ha & _).
  destruct (getKeys_installed w a Hw) as (edPub & xPub & Hed & _ & Hx & _ & Hkeys).
  destruct (ed25519_correct a (utf8_encode msg) Ha)
    as (pk & sig & Hpk & _ & Hsig & _ & _ & Hnacl).
  assert (pk = edPub) as -> by congruence.
  exists edPub, xPub, sig. repeat split; try done.
  unfold Client.signMessage, try_catch, bind. rewrite Hkeys. cbv beta iota.
  unfold lift. cbn [Client.privateKey].
  rewrite parse_stringify by apply json_ok_keyPair.
  rewrite keyPair_ed25519_privateKey. by rewrite Hsig.
Qed.

Lemma request_signature_valid_honest (edPub xPub sig : bytes) (ts : Z) (d em : jsstring) :
  nacl_sign_detached_verify (utf8_encode (Server.signedMessage ts d em)) sig edPub
  = Some true →
  request_signature_valid (JSON_stringify (Client.publicKeyData_of edPub xPub))
    ts d em (toHex sig) = Ok true.
Proof.
  intros Hnacl. unfold request_signature_valid.
  rewrite json_roundtrip by apply json_ok_publicKeyData.
  cbn [of_option rbind].
  assert (prop (Client.publicKeyData_of edPub xPub) "ed25519" = Ok (VStr (toHex edPub)))
    as -> by reflexivity.
  cbn [rbind].
  by rewrite strip_0x_toHex, !Buffer_from_hex_toHex, Hnacl.
Qed.

(** C4: the string the client signs and the string the relay rebuilds
    are both the sequence of the specification, the decimal digits of
    the timestamp, then the destination, then the envelope, with nothing
    between (and both sides encode it as UTF-8); so the request the
    client builds with its stored key verifies on the relay under the
    origin's signing public key, whenever the relay's clock is within
    the tolerance of the timestamp. *)
Theorem request_signature_verifies (w : Client.World) (ws : Server.World)
    (a : bytes) (A d em : jsstring) :
  installed w a →
  identity_of a = Some A →
  (Z.abs (Server.clock ws - Client.clock w) ≤ Server.TIMESTAMP_TOLERANCE ws)%Z →
  let payload := {| Client.send_origin := A; Client.send_destination := d;
                    Client.send_encryptedMessage := em |} in
  Client.messageToSign (Client.clock w) payload = signed_sequence (Client.clock w) d em
  ∧ Server.signedMessage (Client.clock w) d em = signed_sequence (Client.clock w) d em
  ∧ ∃ sig,
      Client.authenticatedPayload payload w
      = (Ok (obj [("origin", VStr A); ("destination", VStr d);
                  ("encryptedMessage", VStr em);
                  ("timestamp", VNum (Client.clock w));
                  ("signature", VStr sig)]), w)
      ∧ (Server.verifyRequestSignature A (Client.clock w) d em sig ws).1 = Ok true.
Proof.
  intros Hw HA Hwin payload. split; [reflexivity|]. split; [reflexivity|].
  destruct (signMessage_run w a (Client.messageToSign (Client.clock w) payload) Hw)
    as (edPub & xPub & sig & Hed & Hx & Hnacl & Hsign).
  unfold identity_of in HA. rewrite Hed, Hx in HA. cbn in HA. injection HA as <-.
  exists (toHex sig). split.
  - unfold Client.authenticatedPayload, bind, Client.Date_now.
    by rewrite Hsign.
  - rewrite verifyRequestSignature_result.
    rewrite (request_signature_valid_honest edPub xPub sig) by exact Hnacl.
    apply Z.ltb_ge in Hwin. by rewrite Hwin.
Qed.

End RequestSignature.

(** ** The examples on the relay *)

Section RelayExamples.
Import Server Spec Example.
#[local] Existing Instance Toy.platform.
#[local] Existing Instance ToyFacts.laws.

Lemma request_signature_verifies_witness :
  let payload := {| Client.send_origin := Alice; Client.send_destination := Bob;
                    Client.send_encryptedMessage := some_envelope |} in
  Client.messageToSign (Client.clock alice_device) payload
  = signed_sequence (Client.clock alice_device) Bob some_envelope
  ∧ signedMessage (Client.clock alice_device) Bob some_envelope
    = signed_sequence (Client.clock alice_device) Bob some_envelope
  ∧ ∃ sig,
      Client.authenticatedPayload payload alice_device
      = (Ok (obj [("origin", VStr Alice); ("destination", VStr Bob);
                  ("encryptedMessage", VStr some_envelope);
                  ("timestamp", VNum (Client.clock alice_device));
                  ("signature", VStr sig)]), alice_device)
      ∧ (verifyRequestSignature Alice (Client.clock alice_device) Bob some_envelope sig
           (relay 1700000000100)).1 = Ok true.
Proof.
  apply (request_signature_verifies (P:=Toy.platform) (L:=ToyFacts.laws)
           alice_device (relay 1700000000100) seedA Alice Bob some_envelope).
  - apply alice_installed.
  - reflexivity.
  - vm_compute. discriminate.
Defined.

Lemma timestamp_window_witness :
  (∀ now,
     rejected_for_timestamp (at_time now (relay 0))
       (after (verifyRequestSignature Alice 1700000000000 Bob some_envelope alice_signature)
          (at_time now (relay 0)))
     ↔ (TIMESTAMP_TOLERANCE (relay 0) < Z.abs (now - 1700000000000))%Z)
  ∧ (verifyRequestSignature Alice 1700000000000 Bob some_envelope alice_signature
       (at_time (1700000000000 + TIMESTAMP_TOLERANCE (relay 0) - 1) (relay 0))).1 = Ok true
  ∧ (verifyRequestSignature Alice 1700000000000 Bob some_envelope alice_signature
       (at_time (1700000000000 + TIMESTAMP_TOLERANCE (relay 0) + 1) (relay 0))).1 = Ok false
  ∧ (env_TIMESTAMP_TOLERANCE (relay 0) = None
     → TIMESTAMP_TOLERANCE (relay 0) = 300000%Z).
Proof.
  apply (timestamp_window (P:=Toy.platform) (relay 0) Alice 1700000000000 Bob
           some_envelope alice_signature).
  - vm_compute. reflexivity.
  - reflexivity.
Defined.

Lemma forged_request_shape :
  shape_ok forged_request 1700000000000 Bob some_envelope (flip_first_bit alice_signature).
Proof.
  repeat split; try (vm_compute; reflexivity).
  - intros H. vm_compute in H. discriminate.
  - intros H. vm_compute in H. discriminate.
Qed.

Lemma unauthorized_is_one_response_witness :
  (send forged_request (relay 1700000000100)).1 = Ok unauthorized.
Proof.
  apply (unauthorized_is_one_response (P:=Toy.platform) forged_request
           (relay 1700000000100) 1700000000000 Alice Bob some_envelope
           (flip_first_bit alice_signature)).
  - apply forged_request_shape.
  - reflexivity.
  - intros H. vm_compute in H. discriminate.
  - vm_compute. reflexivity.
  - right. vm_compute. reflexivity.
Defined.

(** C6 (as the claim states it) fails: a request with a valid signature
    and a timestamp outside the window, and a request inside the window
    whose signature does not verify, get the same response; the caller
    cannot tell which condition failed. *)
Lemma rejections_indistinguishable_counterexample :
  (TIMESTAMP_TOLERANCE (relay 1700000900100)
   < Z.abs (clock (relay 1700000900100) - 1700000000000))%Z
  ∧ request_signature_valid Alice 1700000000000 Bob some_envelope alice_signature = Ok true
  ∧ (Z.abs (clock (relay 1700000000100) - 1700000000000)
     ≤ TIMESTAMP_TOLERANCE (relay 1700000000100))%Z
  ∧ request_signature_valid Alice 1700000000000 Bob some_envelope
      (flip_first_bit alice_signature) = Ok false
  ∧ (send alice_request (relay 1700000900100)).1 = Ok unauthorized
  ∧ (send forged_request (relay 1700000000100)).1 = Ok unauthorized.
Proof.
  repeat split; try (vm_compute; reflexivity).
  vm_compute. discriminate.
Qed.



Lemma register_last_write_wins_witness :
  let w1 := after (register (register_body Alice token1)) (at_time 1000 (relay 0)) in
  let w2 := after (register (register_body Alice token2)) (at_time 2000 w1) in
  let w3 := after (register (register_body Alice token2)) (at_time 3000 w2) in
  let born := from_option created_at (1000 / 1000)%Z (recipients (relay 0) !! Alice) in
  recipients w1 !! Alice
  = Some {| expo_push_token := token1; created_at := born; updated_at := (1000 / 1000)%Z |}
  ∧ recipients w2 !! Alice
    = Some {| expo_push_token := token2; created_at := born; updated_at := (2000 / 1000)%Z |}
  ∧ (lookup Alice w2).1 = Ok (Some token2)
  ∧ recipients w3 !! Alice
    = Some {| expo_push_token := token2; created_at := born; updated_at := (3000 / 1000)%Z |}
  ∧ (lookup Alice w3).1 = Ok (Some token2)
  ∧ ∀ j, j ≠ Alice → recipients w3 !! j = recipients (relay 0) !! j.
Proof.
  apply (register_last_write_wins (P:=Toy.platform) (relay 0) Alice token1 token2
           1000 2000 3000).
  - vm_compute. reflexivity.
  - vm_compute. reflexivity.
Defined.

End RelayExamples.

(** * Further properties of the code *)

(** ** The hexadecimal codec of the client and the patterns of the relay *)

Section HexCodec.
Import Server.

Lemma pair_ind (Q : jsstring → Prop) :
  Q [] → (∀ a, Q [a]) → (∀ a b r, Q r → Q (a :: b :: r)) → ∀ s, Q s.
Proof.
  intros H0 H1 H2.
  assert (∀ s, Q s ∧ ∀ a, Q (a :: s)) as H.
  { induction s as [|b s [IH1 IH2]]; [by split|].
    split; [apply IH2|]. intros a. by apply H2. }
  intros s. apply H.
Qed.

Lemma all_hex_toHex (bs : bytes) : all_hex (toHex bs) = true.
Proof.
  induction bs as [|b bs IH]; [done|].
  rewrite toHex_cons.
  destruct (hex_pair_of_byte b) as (c1 & c2 & -> & _ & H1 & H2 & _).
  unfold all_hex in *. cbn [app forallb]. by rewrite H1, H2, IH.
Qed.

Lemma hexval_not_x (c : N) (d : N) : hexval c = Some d → c ≠ 120%N ∧ c ≠ 88%N.
Proof. by split; intros ->. Qed.

Lemma hexPattern_key_toHex (bs : bytes) :
  hexPattern_key (toHex bs) = (length bs =? 32).
Proof.
  unfold hexPattern_key.
  assert (match toHex bs with
          | c1 :: c2 :: r =>
              if ((c1 =? 48) && ((c2 =? 120) || (c2 =? 88)))%N then r else toHex bs
          | _ => toHex bs
          end = toHex bs) as ->.
  { destruct bs as [|b bs]; [done|].
    rewrite toHex_cons.
    destruct (hex_pair_of_byte b) as (c1 & c2 & -> & _ & _ & H2 & _).
    destruct (hexval_not_x _ _ H2) as [Hx HX].
    apply N.eqb_neq in Hx, HX. cbn [app]. by rewrite Hx, HX, andb_false_r. }
  rewrite all_hex_toHex, andb_true_r, length_toHex.
  destruct (Nat.eqb_spec (2 * length bs) 64), (Nat.eqb_spec (length bs) 32); done || lia.
Qed.

(** X1: [toHex] writes two characters for each byte, and both decoders
    read its output back: [hexToBytes] of the client and
    [Buffer.from(_, 'hex')] of the relay return the bytes encoded. *)
Theorem toHex_is_decoded_by_both_sides (bs : bytes) :
  length (toHex bs) = 2 * length bs
  ∧ hexToBytes (toHex bs) = bs
  ∧ Buffer_from_hex (toHex bs) = bs.
Proof.
  split; [apply length_toHex|].
  split; [apply hexToBytes_toHex|apply Buffer_from_hex_toHex].
Qed.

(** X2: [hexToBytes] rejects nothing: for any string it returns
    [floor(length / 2)] bytes, and a stray character after a complete
    encoding is dropped without an error. *)
Theorem hexToBytes_truncates (hex : jsstring) (bs : bytes) (c : N) :
  length (hexToBytes hex) = length hex / 2
  ∧ hexToBytes (toHex bs ++ [c]) = bs.
Proof.
  split.
  - induction hex as [| |a b r IH] using pair_ind; [done..|].
    cbn [hexToBytes length]. rewrite IH.
    change (S (S (length r))) with (1 * 2 + length r).
    by rewrite Nat.div_add_l.
  - induction bs as [|b bs IH]; [done|].
    rewrite toHex_cons.
    destruct (hex_pair_of_byte b) as (c1 & c2 & -> & Hb & _).
    cbn [app hexToBytes]. by rewrite Hb, IH.
Qed.

(** X3: what [toHex] writes is what the relay's patterns accept: every
    character is a hexadecimal digit, no output starts with [0x], a
    signature field matches [/^[a-f0-9]{128}$/i] exactly when it encodes
    64 bytes, a key matches [/^(0x)?[a-f0-9]{64}$/i] exactly when it
    encodes 32 bytes, and an envelope field matches [/^[a-f0-9]+$/i]
    unless it encodes no byte. *)
Theorem toHex_matches_relay_patterns (bs : bytes) :
  all_hex (toHex bs) = true
  ∧ strip_0x (toHex bs) = toHex bs
  ∧ hexPattern_signature (toHex bs) = (length bs =? 64)
  ∧ hexPattern_key (toHex bs) = (length bs =? 32)
  ∧ hexPattern (toHex bs) = negb (length bs =? 0).
Proof.
  split; [apply all_hex_toHex|].
  split; [apply strip_0x_toHex|].
  split; [|split; [apply hexPattern_key_toHex|]].
  - unfold hexPattern_signature. rewrite all_hex_toHex, andb_true_r, length_toHex.
    destruct (Nat.eqb_spec (2 * length bs) 128), (Nat.eqb_spec (length bs) 64); done || lia.
  - unfold hexPattern. rewrite all_hex_toHex, andb_true_r, length_toHex.
    by destruct bs.
Qed.

End HexCodec.

(** ** Key management on the device *)

Section KeyManagementFacts.
Context `{P : Platform} {L : PlatformLaws P}.
Import Client Spec KeyManagement.

(** The device after [setItemAsync] of both keys. *)
Lemma store_keys (w : World) (keys : Keys) :
  secureStore_down w = false →
  (setItemAsync PUBLIC_KEY (publicKey keys);;
   setItemAsync PRIVATE_KEY (privateKey keys);;
   ret keys)%m w
  = (Ok keys,
     {| secureStore := <[PRIVATE_KEY := privateKey keys]>
                         (<[PUBLIC_KEY := publicKey keys]> (secureStore w));
        secureStore_down := false;
        entropy := entropy w; drawn := drawn w;
        clock := clock w; console := console w |}).
Proof.
  intros Hup. unfold bind, setItemAsync, ret. rewrite Hup. cbn. by rewrite ?Hup.
Qed.

Lemma installed_after_store (w : World) (seed edPub xPub : bytes) (store : gmap string jsstring)
    (e : nat → byte) (d : nat) (c : Z) (l : list string) :
  length seed = 32 →
  ed25519_getPublicKey seed = Some edPub →
  x25519_getPublicKey seed = Some xPub →
  installed
    {| secureStore :=
         <[PRIVATE_KEY := JSON_stringify (keyPair_of seed edPub xPub)]>
           (<[PUBLIC_KEY := JSON_stringify (publicKeyData_of edPub xPub)]> store);
       secureStore_down := false;
       entropy := e; drawn := d; clock := c; console := l |} seed.
Proof.
  intros Hlen Hed Hx. unfold installed. unfold identity_of, secret_of.
  rewrite Hed, Hx. cbn [secureStore secureStore_down].
  split; [done|]. split; [done|]. split.
  - rewrite lookup_insert_ne by (unfold PUBLIC_KEY, PRIVATE_KEY; discriminate).
    by rewrite lookup_insert_eq.
  - by rewrite lookup_insert_eq.
Qed.

(** X4: the first [getKeys] on a device that holds no public key
    generates a key pair from the next 32 random bytes and stores it;
    every later [getKeys] returns that same pair, reads no more random
    bytes and changes nothing. *)
Theorem getKeys_generates_once (w : World) :
  fresh w →
  ∃ keys w',
    getKeys w = (Ok keys, w')
    ∧ identity_of (next_random w 32) = Some (publicKey keys)
    ∧ secret_of (next_random w 32) = Some (privateKey keys)
    ∧ drawn w' = drawn w + 32
    ∧ getKeys w' = (Ok keys, w').
Proof.
  intros (Hup & Hnone).
  destruct (generateKeyPair_run w) as (edPub & xPub & Hed & Hx & Hgen).
  assert (getKeys w
          = (Ok {| publicKey := JSON_stringify (publicKeyData_of edPub xPub);
                   privateKey := JSON_stringify (keyPair_of (next_random w 32) edPub xPub) |},
             {| secureStore :=
                  <[PRIVATE_KEY := JSON_stringify (keyPair_of (next_random w 32) edPub xPub)]>
                    (<[PUBLIC_KEY := JSON_stringify (publicKeyData_of edPub xPub)]>
                       (secureStore w));
                secureStore_down := false;
                entropy := entropy w; drawn := drawn w + 32;
                clock := clock w; console := console w |})) as Hrun.
  { unfold getKeys, try_catch. unfold bind at 1. unfold getItemAsync at 1.
    rewrite Hup, Hnone. unfold bind at 1. unfold getItemAsync at 1. rewrite Hup.
    cbn [missing orb]. unfold bind at 1. rewrite Hgen.
    rewrite store_keys by done. reflexivity. }
  do 2 eexists. split; [exact Hrun|]. cbn [publicKey privateKey drawn].
  unfold identity_of, secret_of. rewrite Hed, Hx.
  split; [done|]. split; [done|]. split; [done|].
  match goal with |- getKeys ?w' = _ =>
    destruct (getKeys_installed w' (next_random w 32)) as (e & x & He & _ & Hx' & _ & ->)
  end.
  { apply (installed_after_store w); [apply length_next_random|done..]. }
  congruence.
Qed.

(** X5: when the secure store rejects every call, [getKeys] logs the
    error and answers with a key pair generated from the next 32 random
    bytes; nothing is stored, so the next call answers with another
    pair, from the 32 bytes after those. *)
Theorem getKeys_store_down (w : World) :
  secureStore_down w = true →
  ∃ keys w',
    getKeys w = (Ok keys, w')
    ∧ identity_of (next_random w 32) = Some (publicKey keys)
    ∧ secureStore w' = secureStore w
    ∧ console w' = "Error getting keys:" :: console w
    ∧ ∃ keys' w'',
        getKeys w' = (Ok keys', w'')
        ∧ identity_of (map (fun i => entropy w (drawn w + 32 + i)) (seq 0 32))
          = Some (publicKey keys')
        ∧ secureStore w'' = secureStore w.
Proof.
  assert (∀ w, secureStore_down w = true →
               getKeys w = generateKeyPair (logged "Error getting keys:" w)) as Hdown.
  { intros w0 Hd. unfold getKeys, try_catch, bind at 1. unfold getItemAsync at 1.
    by rewrite Hd. }
  intros Hd.
  destruct (generateKeyPair_run (logged "Error getting keys:" w))
    as (edPub & xPub & Hed & Hx & Hgen).
  do 2 eexists. split; [by rewrite Hdown, Hgen|].
  cbn [publicKey snd getRandomBytes logged console_error secureStore console
       secureStore_down entropy drawn].
  split.
  { unfold identity_of.
    change (next_random (logged "Error getting keys:" w) 32) with (next_random w 32) in Hed, Hx.
    by rewrite Hed, Hx. }
  split; [done|]. split; [done|].
  match goal with |- ∃ _ _, getKeys ?w1 = _ ∧ _ => set (w1' := w1) end.
  destruct (generateKeyPair_run (logged "Error getting keys:" w1'))
    as (edPub' & xPub' & Hed' & Hx' & Hgen').
  do 2 eexists. split; [by rewrite Hdown, Hgen'|].
  split; [|done].
  unfold identity_of.
  change (next_random (logged "Error getting keys:" w1') 32)
    with (map (fun i => entropy w (drawn w + 32 + i)) (seq 0 32)) in Hed', Hx'.
  by rewrite Hed', Hx'.
Qed.

(** X6: on a working store, [regenerateKeys] replaces whatever keys the
    device held by the pair generated from the next 32 random bytes, and
    [getKeys] returns the new pair from then on. *)
Theorem regenerateKeys_replaces (w : World) :
  secureStore_down w = false →
  ∃ keys w',
    regenerateKeys w = (Ok keys, w')
    ∧ installed w' (next_random w 32)
    ∧ identity_of (next_random w 32) = Some (publicKey keys)
    ∧ getKeys w' = (Ok keys, w').
Proof.
  intros Hup.
  destruct (generateKeyPair_run w) as (edPub & xPub & Hed & Hx & Hgen).
  unfold regenerateKeys. unfold bind at 1. rewrite Hgen.
  rewrite store_keys by done.
  do 2 eexists. split; [reflexivity|].
  cbn [publicKey privateKey snd getRandomBytes secureStore entropy drawn clock console].
  assert (installed
            {| secureStore :=
                 <[PRIVATE_KEY := JSON_stringify (keyPair_of (next_random w 32) edPub xPub)]>
                   (<[PUBLIC_KEY := JSON_stringify (publicKeyData_of edPub xPub)]>
                      (secureStore w));
               secureStore_down := false;
               entropy := entropy w; drawn := drawn w + 32;
               clock := clock w; console := console w |} (next_random w 32)) as Hinst.
  { apply (installed_after_store w); [apply length_next_random|done..]. }
  split; [exact Hinst|].
  split; [unfold identity_of; by rewrite Hed, Hx|].
  destruct (getKeys_installed _ _ Hinst) as (e & x & He & _ & Hx' & _ & ->).
  congruence.
Qed.

(** X7: on a working store, [clearKeys] removes both keys and nothing
    else from the secure store, and the next [getKeys] generates a new
    key pair from the next 32 random bytes; when the store rejects the
    call, [clearKeys] logs the error and throws it again. *)
Theorem clearKeys_forgets_the_identity (w : World) :
  if secureStore_down w then
    clearKeys w = (Throw, logged "Error clearing keys:" w)
  else
    ∃ w1 keys w2,
      clearKeys w = (Ok (), w1)
      ∧ secureStore w1 !! PUBLIC_KEY = None
      ∧ secureStore w1 !! PRIVATE_KEY = None
      ∧ (∀ k, k ≠ PUBLIC_KEY → k ≠ PRIVATE_KEY → secureStore w1 !! k = secureStore w !! k)
      ∧ getKeys w1 = (Ok keys, w2)
      ∧ identity_of (next_random w 32) = Some (publicKey keys)
      ∧ installed w2 (next_random w 32).
Proof.
  destruct (secureStore_down w) eqn:Hup.
  { unfold clearKeys, try_catch, bind at 1. unfold deleteItemAsync at 1. by rewrite Hup. }
  set (w1 := {| secureStore := delete PRIVATE_KEY (delete PUBLIC_KEY (secureStore w));
                secureStore_down := false;
                entropy := entropy w; drawn := drawn w;
                clock := clock w; console := console w |}).
  assert (clearKeys w = (Ok (), w1)) as Hclear.
  { unfold clearKeys, try_catch, bind, deleteItemAsync. rewrite Hup. cbn. by rewrite ?Hup. }
  assert (secureStore w1 !! PUBLIC_KEY = None) as Hpub.
  { cbn. rewrite lookup_delete_ne by (unfold PUBLIC_KEY, PRIVATE_KEY; discriminate).
    apply lookup_delete_eq. }
  assert (fresh w1) as Hfresh by done.
  destruct (getKeys_fresh w1 Hfresh) as (keys & w2 & Hkeys & Hid & Hinst).
  exists w1, keys, w2. split; [done|]. split; [done|].
  split; [cbn; apply lookup_delete_eq|].
  split.
  { intros k H1 H2. cbn. by rewrite !lookup_delete_ne. }
  done.
Qed.

End KeyManagementFacts.

(** ** Signing and encrypting: results and failures *)

Section SigningFacts.
Context `{P : Platform} {L : PlatformLaws P}.
Import Client Spec.

(** What [signMessage] returns on a device that holds its keys. *)
Lemma signMessage_honest (w : World) (a : bytes) (msg : jsstring) :
  installed w a →
  ∃ edPub xPub sig,
    ed25519_getPublicKey a = Some edPub
    ∧ x25519_getPublicKey a = Some xPub
    ∧ ed25519_sign (utf8_encode msg) a = Some sig
    ∧ length sig = 64
    ∧ nacl_sign_detached_verify (utf8_encode msg) sig edPub = Some true
    ∧ signMessage msg w = (Ok (toHex sig), w).
Proof.
  intros Hw. pose proof Hw as (_ & Ha & _).
  destruct (getKeys_installed w a Hw) as (edPub & xPub & Hed & _ & Hx & _ & Hkeys).
  destruct (ed25519_correct a (utf8_encode msg) Ha)
    as (pk & sig & Hpk & _ & Hsig & Hlen & _ & Hnacl).
  assert (pk = edPub) as -> by congruence.
  exists edPub, xPub, sig. repeat (split; [done|]).
  unfold signMessage, try_catch, bind. rewrite Hkeys. cbv beta iota.
  unfold lift. cbn [privateKey].
  rewrite parse_stringify by apply json_ok_keyPair.
  rewrite keyPair_ed25519_privateKey. by rewrite Hsig.
Qed.

(** X8: on a device that holds its keys, [signMessage] returns the
    Ed25519 signature of the UTF-8 bytes of the message under the stored
    secret, as 128 hexadecimal characters, the form the relay's
    [/send] requires of [signature]; the device is left unchanged. *)
Theorem signMessage_signature_format (w : World) (a : bytes) (msg : jsstring) :
  installed w a →
  ∃ sig,
    signMessage msg w = (Ok sig, w)
    ∧ length sig = 128
    ∧ Server.hexPattern_signature sig = true
    ∧ ed25519_sign (utf8_encode msg) a = Some (hexToBytes sig).
Proof.
  intros Hw.
  destruct (signMessage_honest w a msg Hw) as (edPub & xPub & sig & _ & _ & Hsig & Hlen & _ & Hrun).
  exists (toHex sig). split; [done|].
  split; [rewrite length_toHex; lia|].
  split; [|by rewrite hexToBytes_toHex].
  unfold Server.hexPattern_signature.
  by rewrite all_hex_toHex, length_toHex, Hlen.
Qed.

(** X9: [encryptMessage] to a recipient key that is not JSON logs the
    error and throws; no nonce has been drawn and nothing else on the
    device changed. *)
Theorem encryptMessage_malformed_recipient (w : World) (a : bytes) (m B : jsstring) :
  installed w a →
  JSON_parse B = None →
  encryptMessage m B w = (Throw, logged "Error encrypting message:" w).
Proof.
  intros Hw HB.
  destruct (getKeys_installed w a Hw) as (edPub & xPub & Hed & _ & Hx & _ & Hkeys).
  unfold encryptMessage, try_catch, bind. rewrite Hkeys. cbv beta iota.
  unfold lift, Date_now. cbn [privateKey].
  rewrite parse_stringify by apply json_ok_keyPair.
  unfold parse. by rewrite HB.
Qed.

End SigningFacts.

Section CorruptSecret.
Context `{P : Platform}.
Import Client Spec.

(** X10: when the stored secret is not JSON, [signMessage] and
    [encryptMessage] log the error and throw it again, while
    [decryptMessage] logs it and returns [null]; none of them repairs or
    replaces the stored keys. *)
Theorem corrupt_secret_failure_modes (w : World) (pk sk msg B : jsstring)
    (p : EncryptedPayload) :
  secureStore_down w = false →
  secureStore w !! PUBLIC_KEY = Some pk → pk ≠ [] →
  secureStore w !! PRIVATE_KEY = Some sk → sk ≠ [] →
  JSON_parse sk = None →
  signMessage msg w = (Throw, logged "Error signing message:" w)
  ∧ encryptMessage msg B w = (Throw, logged "Error encrypting message:" w)
  ∧ decryptMessage p w = (Ok None, logged "Error decrypting message:" w).
Proof.
  intros Hup Hpk Hpkne Hsk Hskne Hbad.
  assert (getKeys w = (Ok {| publicKey := pk; privateKey := sk |}, w)) as Hkeys.
  { unfold getKeys, try_catch, bind, getItemAsync. rewrite Hup, Hpk.
    cbv beta iota. rewrite Hup, Hsk. by destruct pk, sk. }
  repeat split.
  - unfold signMessage, try_catch, bind. rewrite Hkeys. cbv beta iota.
    unfold lift, parse. cbn [privateKey]. by rewrite Hbad.
  - unfold encryptMessage, try_catch, bind. rewrite Hkeys. cbv beta iota.
    unfold lift, parse. cbn [privateKey]. by rewrite Hbad.
  - unfold decryptMessage, try_catch, bind. rewrite Hkeys. cbv beta iota.
    unfold lift, parse. cbn [privateKey]. by rewrite Hbad.
Qed.

End CorruptSecret.

(** ** The relay: what [/send] does with an authentic request *)

Section RelayDelivery.
Context `{P : Platform}.
Import Server Spec Notions.

Lemma isValidEncryptedMessage_inv (em : jsstring) :
  isValidEncryptedMessage (VStr em) = true →
  ∃ parsed e s n,
    JSON_parse em = Some parsed
    ∧ prop parsed "encrypted" = Ok (VStr e)
    ∧ prop parsed "signature" = Ok (VStr s)
    ∧ prop parsed "nonce" = Ok (VStr n)
    ∧ hexPattern e = true ∧ hexPattern s = true ∧ hexPattern n = true.
Proof.
  unfold isValidEncryptedMessage.
  destruct (5000 <? length em); [done|].
  destruct (JSON_parse em) as [parsed|]; [|done]. cbn [of_option rbind].
  destruct (prop parsed "encrypted") as [e|] eqn:He; [|done]. cbn [rbind].
  destruct (prop parsed "signature") as [s|] eqn:Hs; [|done]. cbn [rbind].
  destruct (prop parsed "nonce") as [n|] eqn:Hn; [|done]. cbn [rbind].
  destruct (negb (truthy e) || negb (truthy s) || negb (truthy n)); [done|].
  destruct e as [| | | |e| |], s as [| | | |s| |], n as [| | | |n| |]; try done.
  cbn [or_false]. rewrite !andb_true_iff. intros [[He' Hs'] Hn'].
  by exists parsed, e, s, n.
Qed.

Ltac not_among :=
  let Hin := fresh "Hin" in
  intros Hin;
  repeat (apply elem_of_cons in Hin as [Hin|Hin]; [discriminate|]);
  by apply elem_of_nil in Hin.

(** The events of an authentication: the clock, the check, the log. *)
Lemma verifyRequestSignature_events (w : World) (o : jsstring) (ts : Z)
    (d em sig : jsstring) :
  ∃ es, (verifyRequestSignature o ts d em sig w).2 = traced es w
        ∧ PushNotification ∉ es.
Proof.
  cbv beta iota zeta delta [verifyRequestSignature try_catch bind Date_now emit ret lift].
  cbn [clock].
  destruct (_ <? _)%Z.
  { eexists [_; _]. split; [reflexivity|]. not_among. }
  destruct (JSON_parse o) as [originKeys|]; cbn [of_option rbind].
  2: { eexists [_; _]. split; [reflexivity|]. not_among. }
  destruct (prop originKeys "ed25519") as [[| | | |ed| |]|]; cbn [rbind];
    try (eexists [_; _]; split; [reflexivity|]; not_among).
  destruct (nacl_sign_detached_verify _ _ _) as [[]|]; cbn [of_option].
  - eexists [_; _]. split; [reflexivity|]. not_among.
  - eexists [_; _; _]. split; [reflexivity|]. not_among.
  - eexists [_; _; _]. split; [reflexivity|]. not_among.
Qed.

(** An authentic request reaches the lookup; the answer is the
    lookup's, then Expo's. *)
Lemma send_authenticated (body : jsval) (w : World) (ts : Z) (o d em sig : jsstring) :
  shape_ok body ts d em sig →
  field body "origin" = VStr o → o ≠ [] → isValidKeyObject (VStr o) = true →
  (verifyRequestSignature o ts d em sig w).1 = Ok true →
  ∃ es parsed e s n,
    JSON_parse em = Some parsed
    ∧ prop parsed "encrypted" = Ok (VStr e)
    ∧ prop parsed "signature" = Ok (VStr s)
    ∧ prop parsed "nonce" = Ok (VStr n)
    ∧ (PushNotification ∉ es)
    ∧ send body w
      = match recipients w !! d with
        | None => (Ok recipient_not_found, traced (SelectRecipient d :: es) w)
        | Some row =>
            (Ok (push_response body
                   (sendPushNotification
                      (notification body (expo_push_token row) o d e s n))),
             traced (PushNotification :: SelectRecipient d :: es) w)
        end.
Proof.
  intros (Hlog & Hts & Hpos & Hsig & Hpat & Hd & Hdne & Hdok & Hem & Hemne & Hemok)
    Ho Hone Hook Hverify.
  assert (sig ≠ []) as Hsigne.
  { intros ->. discriminate Hpat. }
  destruct (isValidEncryptedMessage_inv em Hemok)
    as (parsed & e & s & n & Hparse & He & Hs & Hn & _).
  destruct (verifyRequestSignature_events w o ts d em sig) as (es & Hw1 & Hquiet).
  exists es, parsed, e, s, n. repeat (split; [done|]).
  unfold send. rewrite Hlog, Hts, Hsig, Hd, Hem, Ho.
  rewrite (truthy_str em), (truthy_str d), (truthy_str sig), (truthy_str o),
    truthy_num by done.
  unfold bind at 1, lift at 1. cbn [negb orb andb].
  destruct (Z.leb_spec ts 0) as [|_]; [lia|].
  rewrite Hpat, Hdok, Hook, Hemok. cbn [negb andb].
  unfold bind at 1.
  destruct (verifyRequestSignature o ts d em sig w) as [[[]|] w1];
    cbn [fst snd] in Hverify, Hw1; try discriminate.
  subst w1. cbn [negb].
  unfold try_catch, bind at 1, lookup, bind at 1, emit.
  cbn [recipients traced].
  destruct (recipients w !! d) as [row|]; cbn [fmap option_fmap option_map].
  - unfold bind, lift, ret, emit. rewrite Hparse. cbn [of_option].
    rewrite He, Hs, Hn. cbn [of_option].
    unfold notification, push_response.
    by destruct (sendPushNotification _).
  - reflexivity.
Qed.

(** X11: an authentic request to a destination nobody registered is
    answered 404 [Recipient not found] right after the lookup; no
    notification is handed to Expo and the directory is unchanged. *)
Theorem send_recipient_not_found (body : jsval) (w : World) (ts : Z)
    (o d em sig : jsstring) :
  shape_ok body ts d em sig →
  field body "origin" = VStr o → o ≠ [] → isValidKeyObject (VStr o) = true →
  (verifyRequestSignature o ts d em sig w).1 = Ok true →
  recipients w !! d = None →
  (send body w).1 = Ok recipient_not_found
  ∧ recipients (after (send body) w) = recipients w
  ∧ ∃ es, trace (after (send body) w) = SelectRecipient d :: es ++ trace w
          ∧ PushNotification ∉ es.
Proof.
  intros Hshape Ho Hone Hook Hverify Hnone.
  destruct (send_authenticated body w ts o d em sig Hshape Ho Hone Hook Hverify)
    as (es & parsed & e & s & n & _ & _ & _ & _ & Hquiet & Hsend).
  rewrite Hnone in Hsend. unfold after. rewrite Hsend. cbn [fst snd].
  split; [done|]. split; [done|]. by exists es.
Qed.

Lemma prop_str_inv (v : jsval) (k : string) (s : jsstring) :
  prop v k = Ok (VStr s) → ∃ fs, v = VObj fs ∧ assoc (js k) fs = Some (VStr s).
Proof.
  destruct v as [| | | | | |fs]; try done. cbn.
  destruct (assoc (js k) fs) as [x|] eqn:Hx; cbn; [|done].
  intros [= ->]. by exists fs.
Qed.

Lemma received_parsed (em : jsstring) (parsed : jsval) (e s n : jsstring) :
  JSON_parse em = Some parsed →
  prop parsed "encrypted" = Ok (VStr e) →
  prop parsed "signature" = Ok (VStr s) →
  prop parsed "nonce" = Ok (VStr n) →
  received em
  = Some {| Client.encrypted := e; Client.nonce := Some n; Client.signature := s |}.
Proof.
  intros Hparse He Hs Hn. unfold received. rewrite Hparse. cbn [mbind option_bind].
  destruct (prop_str_inv _ _ _ He) as (fs & -> & He').
  destruct (prop_str_inv _ _ _ Hs) as (fs' & [= <-] & Hs').
  destruct (prop_str_inv _ _ _ Hn) as (fs' & [= <-] & Hn').
  unfold as_EncryptedMessage. by rewrite He', Hs', Hn'.
Qed.

(** X12: an authentic request to a registered destination hands Expo
    one notification, addressed to the token stored for the destination,
    whose data is the origin, the destination and the three fields of
    the envelope exactly as the client reads them ([incoming] is what
    the recipient's listener passes to [decryptMessage]); the answer is
    200 with Expo's ticket, or 500 when Expo refuses; the directory is
    unchanged. *)
Theorem send_delivers_to_registered_token (body : jsval) (w : World) (ts : Z)
    (o d em sig : jsstring) (row : Recipient) :
  shape_ok body ts d em sig →
  field body "origin" = VStr o → o ≠ [] → isValidKeyObject (VStr o) = true →
  (verifyRequestSignature o ts d em sig w).1 = Ok true →
  recipients w !! d = Some row →
  ∃ e s n,
    received em
    = Some {| Client.encrypted := e; Client.nonce := Some n; Client.signature := s |}
    ∧ (send body w).1
      = Ok (push_response body
              (sendPushNotification (notification body (expo_push_token row) o d e s n)))
    ∧ field (notification body (expo_push_token row) o d e s n) "to"
      = VStr (expo_push_token row)
    ∧ incoming (notification body (expo_push_token row) o d e s n)
      = Some {| Client.origin := o; Client.payload_destination := d;
                Client.encryptedMessage :=
                  {| Client.encrypted := e; Client.nonce := Some n;
                     Client.signature := s |} |}
    ∧ recipients (after (send body) w) = recipients w.
Proof.
  intros Hshape Ho Hone Hook Hverify Hrow.
  destruct (send_authenticated body w ts o d em sig Hshape Ho Hone Hook Hverify)
    as (es & parsed & e & s & n & Hparse & He & Hs & Hn & _ & Hsend).
  rewrite Hrow in Hsend. exists e, s, n.
  split; [by apply (received_parsed em parsed)|].
  unfold after. rewrite Hsend. cbn [fst snd].
  split; [done|]. split; [reflexivity|]. split; [reflexivity|done].
Qed.

(** X13: the relay keeps no record of the requests it accepted: a
    request that was authentic, presented again after it was handled, at
    any time still within the tolerance of its timestamp, gets the same
    answer (and is delivered again). *)
Theorem send_replay_within_window (body : jsval) (w : World) (ts t : Z)
    (o d em sig : jsstring) :
  shape_ok body ts d em sig →
  field body "origin" = VStr o → o ≠ [] → isValidKeyObject (VStr o) = true →
  (verifyRequestSignature o ts d em sig w).1 = Ok true →
  (Z.abs (t - ts) ≤ TIMESTAMP_TOLERANCE w)%Z →
  (verifyRequestSignature o ts d em sig (at_time t (after (send body) w))).1 = Ok true
  ∧ (send body (at_time t (after (send body) w))).1 = (send body w).1.
Proof.
  intros Hshape Ho Hone Hook Hverify Hin.
  destruct (send_authenticated body w ts o d em sig Hshape Ho Hone Hook Hverify)
    as (es & parsed & e & s & n & Hparse & He & Hs & Hn & _ & Hsend).
  assert (∃ es', after (send body) w = traced es' w) as (es' & Hafter).
  { unfold after. rewrite Hsend. destruct (recipients w !! d); by eexists. }
  rewrite Hafter.
  assert ((verifyRequestSignature o ts d em sig (at_time t (traced es' w))).1 = Ok true)
    as Hagain.
  { rewrite verifyRequestSignature_result in Hverify |- *.
    injection Hverify as Hverify. apply andb_true_iff in Hverify as [_ ->].
    rewrite andb_true_r. f_equal.
    change (TIMESTAMP_TOLERANCE (at_time t (traced es' w))) with (TIMESTAMP_TOLERANCE w).
    cbn [clock at_time]. apply Z.ltb_ge in Hin. by rewrite Hin. }
  split; [done|].
  destruct (send_authenticated body (at_time t (traced es' w)) ts o d em sig
              Hshape Ho Hone Hook Hagain)
    as (es2 & parsed2 & e2 & s2 & n2 & Hparse2 & He2 & Hs2 & Hn2 & _ & Hsend2).
  rewrite Hparse in Hparse2. injection Hparse2 as <-.
  rewrite He in He2. rewrite Hs in Hs2. rewrite Hn in Hn2.
  injection He2 as <-. injection Hs2 as <-. injection Hn2 as <-.
  rewrite Hsend, Hsend2. cbn [recipients at_time traced].
  by destruct (recipients w !! d).
Qed.

End RelayDelivery.

(** ** The relay: what the handlers never touch *)

Section RelayFrame.
Context `{P : Platform}.
Import Server Spec Notions.

Lemma read_only_ret {A} (a : A) : read_only (ret a).
Proof. by intros w. Qed.

Lemma read_only_lift {A} (r : Res A) : read_only (lift r).
Proof. by intros w. Qed.

Lemma read_only_emit (e : Event) : read_only (emit e).
Proof. by intros w. Qed.

Lemma read_only_bind {A B} (m : M World A) (k : A → M World B) :
  read_only m → (∀ a, read_only (k a)) → read_only (bind m k).
Proof.
  intros Hm Hk w. unfold bind. specialize (Hm w).
  destruct (m w) as [[a|] w1]; cbn [snd] in *; [|done].
  destruct (Hk a w1) as (H1 & H2 & H3), Hm as (H4 & H5 & H6).
  by rewrite H1, H2, H3.
Qed.

Lemma read_only_try_catch {A} (m h : M World A) :
  read_only m → read_only h → read_only (try_catch m h).
Proof.
  intros Hm Hh w. unfold try_catch. specialize (Hm w).
  destruct (m w) as [[a|] w1]; cbn [snd] in *; [done|].
  destruct (Hh w1) as (H1 & H2 & H3), Hm as (H4 & H5 & H6).
  by rewrite H1, H2, H3.
Qed.

Lemma read_only_verifyRequestSignature (o : jsstring) (ts : Z) (d em sig : jsstring) :
  read_only (verifyRequestSignature o ts d em sig).
Proof.
  intros w. by destruct (verifyRequestSignature_events w o ts d em sig) as (es & -> & _).
Qed.

Lemma read_only_lookup (d : jsstring) : read_only (lookup d).
Proof. by intros w. Qed.

Ltac read_only_step :=
  match goal with
  | |- read_only (ret _) => apply read_only_ret
  | |- read_only (lift _) => apply read_only_lift
  | |- read_only (emit _) => apply read_only_emit
  | |- read_only (lookup _) => apply read_only_lookup
  | |- read_only (verifyRequestSignature _ _ _ _ _) => apply read_only_verifyRequestSignature
  | |- read_only (bind _ _) => apply read_only_bind; [|intros ?]
  | |- read_only (try_catch _ _) => apply read_only_try_catch
  | |- read_only (if ?c then _ else _) => destruct c
  | |- read_only (match ?x with _ => _ end) => destruct x
  end.

(** X14: whatever the request, [/send] leaves the directory, the clock
    and the configuration of the relay as they were, also when it
    answers an error or throws: sending never registers, changes or
    removes a recipient. *)
Theorem send_is_read_only (body : jsval) : read_only (send body).
Proof. unfold send. repeat read_only_step. Qed.

(** X15: [/register] stores a row only for a valid registration: either
    [recipientId] is a string that is a valid key object and
    [expoPushToken] a string Expo accepts as a push token, and the
    answer is 200 after the upsert of that pair; or the state of the
    relay, trace included, is untouched, and the request was answered
    400 or threw while it was logged. *)
Theorem register_stores_only_valid_registrations (body : jsval) (w : World) :
  (∃ i t,
     field body "recipientId" = VStr i
     ∧ field body "expoPushToken" = VStr t
     ∧ valid_registration i t = true
     ∧ register body w
       = (Ok {| status := 200;
                json := obj [("success", VBool true); ("recipient", VStr i)] |},
          after (upsert i t) w))
  ∨ (after (register body) w = w
     ∧ ((register body w).1 = Throw
        ∨ ∃ r, (register body w).1 = Ok r ∧ status r = 400%Z)).
Proof.
  unfold after, register, valid_registration, bind at 1, lift at 1.
  destruct (sanitizeForLog body); [|right; split; [done|by left]].
  destruct (truthy (field body "recipientId")) eqn:Hi; cbn [negb orb];
    [|right; split; [done|right; eexists; split; reflexivity]].
  destruct (truthy (field body "expoPushToken")) eqn:Ht; cbn [negb orb];
    [|right; split; [done|right; eexists; split; reflexivity]].
  destruct (isValidKeyObject (field body "recipientId")) eqn:Hkey; cbn [negb];
    [|right; split; [done|right; eexists; split; reflexivity]].
  destruct (field body "recipientId") as [| | | |i| |]; try discriminate.
  destruct (field body "expoPushToken") as [| | | |t| |]; try discriminate;
    try (right; split; [done|right; eexists; split; reflexivity]).
  destruct (isExpoPushToken t) eqn:Htok;
    [|right; split; [done|right; eexists; split; reflexivity]].
  left. exists i, t. rewrite Hi, Ht, Hkey, Htok. cbn [andb].
  repeat split.
Qed.

(** X16: a request whose [signature] field is truthy and not a string (a
    number, [true], an array, an object) makes [/send] and [/register]
    throw while they log the request, before any validation: the caller
    gets no 400 answer from the handler, and the state is untouched. *)
Theorem truthy_non_string_signature_throws (body : jsval) (w : World) :
  truthy (field body "signature") = true →
  (∀ s, field body "signature" ≠ VStr s) →
  sanitizeForLog body = Throw
  ∧ send body w = (Throw, w)
  ∧ register body w = (Throw, w).
Proof.
  intros Htruthy Hnot.
  assert (sanitizeForLog body = Throw) as Hlog.
  { unfold sanitizeForLog. rewrite Htruthy.
    assert (match field body "signature" with VStr _ => Ok () | _ => Throw end
            = @Throw unit) as ->.
    { destruct (field body "signature"); try done. by destruct (Hnot s). }
    by destruct (if truthy (field body "expoPushToken") then _ else _). }
  split; [done|].
  unfold send, register, bind, lift. by rewrite Hlog.
Qed.

End RelayFrame.

(** ** The relay: cleaning up the directory *)

Section RelayCleanup.
Context `{P : Platform}.
Import Server Spec Notions Admin.

Lemma str_eqb_refl (s : jsstring) : str_eqb s s = true.
Proof. by apply str_eqb_eq. Qed.

Lemma CLEANUP_KEY_not_empty (env : option jsstring) : CLEANUP_KEY env ≠ [].
Proof. by destruct env as [[|c s]|]. Qed.

Lemma delete_stale_count (w : World) :
  (delete_stale w).1
  = Ok (Z.of_nat (size (filter (fun kv => stale w kv.2 = true) (recipients w)))).
Proof.
  unfold delete_stale. cbn [fst]. f_equal.
  set (keep := fun kv : jsstring * Recipient => stale w kv.2 = false).
  rewrite <- (map_filter_union_complement keep (recipients w)) at 1.
  rewrite map_size_disj_union by apply map_disjoint_filter_complement.
  assert (filter (fun v => ¬ keep v) (recipients w)
          = filter (fun kv => stale w kv.2 = true) (recipients w)) as ->.
  { apply map_filter_ext. intros i x _. unfold keep. cbn. by destruct (stale w x). }
  lia.
Qed.

Lemma cleanup_run (env : option jsstring) (body : jsval) (w : World) :
  field body "key" = VStr (CLEANUP_KEY env) →
  cleanup env body w
  = (let* changes := delete_stale in
     ret {| status := 200;
            json := obj [("success", VBool true);
                         ("deletedCount", VNum changes);
                         ("message",
                           VStr (js "Removed " ++ Number_toString changes
                                 ++ js " stale registration(s)"))] |})%m w.
Proof.
  intros Hkey. unfold cleanup. rewrite Hkey.
  rewrite truthy_str by apply CLEANUP_KEY_not_empty.
  unfold differs. rewrite str_eqb_refl. cbn [negb orb].
  unfold try_catch, bind, delete_stale. reflexivity.
Qed.

(** The rows an authorised cleanup keeps. *)
Lemma cleanup_kept (env : option jsstring) (body : jsval) (w : World) (i : jsstring)
    (r : Recipient) :
  field body "key" = VStr (CLEANUP_KEY env) →
  recipients (after (cleanup env body) w) !! i = Some r
  ↔ recipients w !! i = Some r ∧ (CURRENT_TIMESTAMP w - 86400 ≤ updated_at r)%Z.
Proof.
  intros Hkey. unfold after. rewrite cleanup_run by done.
  unfold bind, delete_stale, ret. cbn [snd recipients].
  rewrite map_lookup_filter_Some. unfold stale. cbn [snd].
  by rewrite Z.ltb_ge.
Qed.

(** X17: [/cleanup] with the cleanup key deletes exactly the rows whose
    last registration is more than 24 hours old: every other row stays
    as it was, no row is added or changed, and [deletedCount] is the
    number of rows deleted. *)
Theorem cleanup_removes_exactly_the_stale_rows (env : option jsstring) (body : jsval)
    (w : World) :
  field body "key" = VStr (CLEANUP_KEY env) →
  ∃ n,
    (cleanup env body w).1
    = Ok {| status := 200;
            json := obj [("success", VBool true);
                         ("deletedCount", VNum n);
                         ("message",
                           VStr (js "Removed " ++ Number_toString n
                                 ++ js " stale registration(s)"))] |}
    ∧ n = Z.of_nat (size (filter (fun kv => stale w kv.2 = true) (recipients w)))
    ∧ (n + Z.of_nat (size (recipients (after (cleanup env body) w)))
       = Z.of_nat (size (recipients w)))%Z
    ∧ ∀ i r,
        recipients (after (cleanup env body) w) !! i = Some r
        ↔ recipients w !! i = Some r
          ∧ (CURRENT_TIMESTAMP w - 86400 ≤ updated_at r)%Z.
Proof.
  intros Hkey.
  pose proof (fun i r => cleanup_kept env body w i r Hkey) as Hkept.
  revert Hkept. unfold after. rewrite cleanup_run by done. unfold bind.
  pose proof (delete_stale_count w) as Hcount.
  destruct (delete_stale w) as [[n|] w'] eqn:Hdel; [|done].
  cbn [fst] in Hcount. injection Hcount as Hn.
  intros Hkept. exists n. cbn [ret fst snd] in *. split; [done|]. split; [done|].
  split; [|exact Hkept].
  unfold delete_stale in Hdel. injection Hdel as Hn' <-.
  cbn [recipients]. lia.
Qed.

(** X18: [/cleanup] is guarded by the key alone: a request whose [key]
    is missing, not a string or another string is answered 401 and
    changes nothing; and the key is the environment's [CLEANUP_KEY] or,
    when that is unset or empty, the literal [change-me-in-production]. *)
Theorem cleanup_requires_the_key (env : option jsstring) (body : jsval) (w : World) :
  field body "key" ≠ VStr (CLEANUP_KEY env) →
  cleanup env body w = (Ok (error_response 401 "Unauthorized: Invalid cleanup key"), w)
  ∧ CLEANUP_KEY None = js "change-me-in-production"
  ∧ CLEANUP_KEY (Some []) = js "change-me-in-production".
Proof.
  intros Hkey. split; [|done]. unfold cleanup.
  assert (negb (truthy (field body "key")) || differs (field body "key") (CLEANUP_KEY env)
          = true) as ->; [|done].
  destruct (field body "key") as [| |b|n|s|l|fs]; try done; try apply orb_true_r.
  unfold differs. destruct (str_eqb s (CLEANUP_KEY env)) eqn:Heq.
  - apply str_eqb_eq in Heq. by subst s.
  - apply orb_true_r.
Qed.

(** X19: a registration survives a later [/cleanup] exactly when it was
    made or refreshed no more than 24 hours (86400 s, in whole seconds
    of the relay's clock) before: registered at time [c1] and cleaned up
    at time [c2] (milliseconds), the recipient is still found by
    [/send]'s lookup iff [c2/1000 - c1/1000 <= 86400]. *)
Theorem registration_survives_cleanup_for_a_day (env : option jsstring) (w : World)
    (i t : jsstring) (c1 c2 : Z) :
  valid_registration i t = true →
  expo_push_token
    <$> recipients
          (after (cleanup env (obj [("key", VStr (CLEANUP_KEY env))]))
             (at_time c2 (after (register (register_body i t)) (at_time c1 w)))) !! i
  = if (86400 <? c2 / 1000 - c1 / 1000)%Z then None else Some t.
Proof.
  intros Hvalid.
  set (w1 := after (register (register_body i t)) (at_time c1 w)).
  assert (recipients w1 !! i
          = Some {| expo_push_token := t;
                    created_at := from_option created_at (c1 / 1000)%Z (recipients w !! i);
                    updated_at := (c1 / 1000)%Z |}) as Hrow.
  { unfold w1, after. rewrite register_run by done. cbn [snd].
    by rewrite upsert_lookup. }
  pose proof (fun j r => cleanup_kept env (obj [("key", VStr (CLEANUP_KEY env))])
                          (at_time c2 w1) j r eq_refl) as Hkept.
  cbn [recipients at_time] in Hkept.
  change (CURRENT_TIMESTAMP (at_time c2 w1)) with (c2 / 1000)%Z in Hkept.
  destruct (Z.ltb_spec 86400 (c2 / 1000 - c1 / 1000)) as [Hold|Hrecent].
  - destruct (recipients (after _ _) !! i) as [r|] eqn:Hr; [|done].
    apply Hkept in Hr as [Hr Hle]. rewrite Hrow in Hr. injection Hr as <-.
    cbn [updated_at] in Hle. lia.
  - assert (recipients
              (after (cleanup env (obj [("key", VStr (CLEANUP_KEY env))])) (at_time c2 w1)) !! i
            = Some {| expo_push_token := t;
                      created_at := from_option created_at (c1 / 1000)%Z (recipients w !! i);
                      updated_at := (c1 / 1000)%Z |}) as ->; [|done].
    apply Hkept. split; [done|]. cbn [updated_at]. lia.
Qed.

End RelayCleanup.

(** ** From the client to the relay and on to the recipient *)

Section Interop.
Context `{P : Platform} {L : PlatformLaws P}.
Import Spec Notions.

Lemma isValidKeyObject_publicKeyData (edPub xPub : bytes) :
  length edPub = 32 → length xPub = 32 →
  length (JSON_stringify (Client.publicKeyData_of edPub xPub)) ≤ 500 →
  Server.isValidKeyObject (VStr (JSON_stringify (Client.publicKeyData_of edPub xPub))) = true.
Proof.
  intros He Hx Hlen. unfold Server.isValidKeyObject.
  destruct (Nat.ltb_spec 500 (length (JSON_stringify (Client.publicKeyData_of edPub xPub))))
    as [|_]; [lia|].
  rewrite json_roundtrip by apply json_ok_publicKeyData. cbn [of_option rbind].
  assert (prop (Client.publicKeyData_of edPub xPub) "ed25519" = Ok (VStr (toHex edPub)))
    as -> by reflexivity.
  assert (prop (Client.publicKeyData_of edPub xPub) "x25519" = Ok (VStr (toHex xPub)))
    as -> by reflexivity.
  cbn [rbind].
  rewrite !truthy_str.
  - cbn [negb orb Server.or_false]. by rewrite !hexPattern_key_toHex, He, Hx.
  - intros Hnil. pose proof (length_toHex xPub) as Hl. rewrite Hnil in Hl. cbn in Hl. lia.
  - intros Hnil. pose proof (length_toHex edPub) as Hl. rewrite Hnil in Hl. cbn in Hl. lia.
Qed.

Lemma identity_of_inv (seed : bytes) (A : jsstring) :
  length seed = 32 → identity_of seed = Some A →
  ∃ edPub xPub,
    ed25519_getPublicKey seed = Some edPub ∧ length edPub = 32
    ∧ x25519_getPublicKey seed = Some xPub ∧ length xPub = 32
    ∧ A = JSON_stringify (Client.publicKeyData_of edPub xPub).
Proof.
  intros Hlen HA.
  destruct (public_keys seed Hlen) as (edPub & xPub & Hed & Hle & Hx & Hlx).
  exists edPub, xPub. repeat (split; [done|]).
  unfold identity_of in HA. rewrite Hed, Hx in HA. cbn in HA. by injection HA as <-.
Qed.

(** X20: the Identity of a generated key pair is a key object the relay
    accepts, as [recipientId], [destination] and [origin], whenever its
    JSON text is no longer than the 500 characters the relay allows; so
    registering it succeeds with any token Expo accepts. *)
Theorem generated_identity_is_a_valid_key_object (seed : bytes) (A : jsstring) :
  length seed = 32 →
  identity_of seed = Some A →
  length A ≤ 500 →
  Server.isValidKeyObject (VStr A) = true
  ∧ ∀ t, valid_registration A t = truthy (VStr t) && isExpoPushToken t.
Proof.
  intros Hlen HA Hshort.
  destruct (identity_of_inv seed A Hlen HA) as (edPub & xPub & _ & He & _ & Hx & ->).
  pose proof (isValidKeyObject_publicKeyData edPub xPub He Hx Hshort) as Hok.
  split; [done|]. intros t. unfold valid_registration. rewrite Hok.
  rewrite (truthy_str (JSON_stringify _))
    by (apply stringify_nonempty, json_ok_publicKeyData).
  by rewrite andb_true_r.
Qed.

Lemma isValidEncryptedMessage_envelope (ct n sig : bytes) :
  ct ≠ [] → n ≠ [] → sig ≠ [] →
  length (JSON_stringify (envelope_of ct n sig)) ≤ 5000 →
  Server.isValidEncryptedMessage (VStr (JSON_stringify (envelope_of ct n sig))) = true.
Proof.
  intros Hct Hn Hsig Hlen. unfold Server.isValidEncryptedMessage.
  destruct (Nat.ltb_spec 5000 (length (JSON_stringify (envelope_of ct n sig))))
    as [|_]; [lia|].
  rewrite json_roundtrip by apply json_ok_envelope. cbn [of_option rbind].
  assert (prop (envelope_of ct n sig) "encrypted" = Ok (VStr (toHex ct))) as -> by reflexivity.
  assert (prop (envelope_of ct n sig) "signature" = Ok (VStr (toHex sig))) as -> by reflexivity.
  assert (prop (envelope_of ct n sig) "nonce" = Ok (VStr (toHex n))) as -> by reflexivity.
  cbn [rbind].
  assert (∀ bs : bytes, bs ≠ [] → toHex bs ≠ []) as Hne.
  { intros bs Hbs Hnil. pose proof (length_toHex bs) as Hl. rewrite Hnil in Hl.
    destruct bs; [done|]. cbn in Hl. lia. }
  rewrite !truthy_str by by apply Hne.
  cbn [negb orb Server.or_false].
  assert (∀ bs : bytes, bs ≠ [] → Server.hexPattern (toHex bs) = true) as Hpat.
  { intros bs Hbs. unfold Server.hexPattern.
    rewrite all_hex_toHex, length_toHex. by destruct bs. }
  by rewrite !Hpat.
Qed.

Lemma signature_not_empty (a ct sig : bytes) :
  length a = 32 → ed25519_sign ct a = Some sig → sig ≠ [].
Proof.
  intros Ha Hsig.
  destruct (ed25519_correct a ct Ha) as (pk & sig' & _ & _ & Hsig' & Hlen & _).
  rewrite Hsig in Hsig'. injection Hsig' as <-. by destruct sig.
Qed.

(** X21: the envelope [encryptMessage] returns passes the relay's
    [isValidEncryptedMessage] whenever it is no longer than the 5000
    characters the relay allows (the cipher never returning an empty
    ciphertext). *)
Theorem encrypted_envelope_is_accepted_by_relay (wA : Client.World) (a b : bytes)
    (A B m envelope : jsstring) (wA' : Client.World) :
  installed wA a → length b = 32 →
  identity_of a = Some A → identity_of b = Some B →
  (∀ k n pt ct, chacha20poly1305_encrypt k n pt = Some ct → ct ≠ []) →
  Client.encryptMessage m B wA
  = (Ok {| Client.destination := B; Client.message := envelope |}, wA') →
  length envelope ≤ 5000 →
  Server.isValidEncryptedMessage (VStr envelope) = true.
Proof.
  intros HwA Hb HA HB Hcipher Henc Hlen.
  pose proof HwA as (_ & Ha & _).
  destruct (exchange_exists a b A B m (Client.clock wA) (next_random wA 12) Ha Hb
              (length_next_random wA 12) HA HB) as (ct & sig & Hex).
  rewrite (encryptMessage_run wA a b A B m ct sig) in Henc by done.
  injection Henc as <- _.
  destruct Hex as [? ? ? ? ? ? ? ? ? ? ? ? ? Hct ? Hsig ?].
  apply isValidEncryptedMessage_envelope; try done.
  - by apply Hcipher in Hct.
  - by apply (signature_not_empty a ct).
Qed.

(** X22: the conversation id of two generated Identities is the SHA-256,
    in hexadecimal, of their two Ed25519 public keys in hexadecimal, the
    smaller first: the X25519 keys play no part; and an argument that is
    not JSON makes [generateConversationId] throw, on either side. *)
Theorem conversation_id_of_generated_identities (a b : bytes) (A B : jsstring) :
  length a = 32 → length b = 32 →
  identity_of a = Some A → identity_of b = Some B →
  ∃ edA edB,
    ed25519_getPublicKey a = Some edA
    ∧ ed25519_getPublicKey b = Some edB
    ∧ Client.generateConversationId A B
      = Ok (toHex (sha256 (utf8_encode
              (if str_lt (toHex edB) (toHex edA)
               then toHex edB ++ toHex edA
               else toHex edA ++ toHex edB))))
    ∧ ∀ garbage,
        JSON_parse garbage = None →
        Client.generateConversationId A garbage = Throw
        ∧ Client.generateConversationId garbage A = Throw.
Proof.
  intros Ha Hb HA HB.
  destruct (identity_of_inv a A Ha HA) as (edA & xA & HedA & _ & _ & _ & HAeq).
  destruct (identity_of_inv b B Hb HB) as (edB & xB & HedB & _ & _ & _ & HBeq).
  exists edA, edB. split; [done|]. split; [done|].
  split; [by apply (generateConversationId_identities a b)|].
  intros garbage Hbad. unfold Client.generateConversationId, Client.parse.
  rewrite Hbad, HAeq. rewrite json_roundtrip by apply json_ok_publicKeyData.
  done.
Qed.

End Interop.

Section DebugCipher.
Context `{P : Platform} {L : PlatformLaws P}.
Import Client Spec KeyManagement.

(** X23: [debugEncryptMessage], given the sender's stored secret and
    Identity, returns an envelope that carries the same ciphertext,
    nonce and signature [encryptMessage] would, and beside them the
    payload in the clear: who reads the envelope reads the sender's
    Identity, the message and the timestamp without any key.  The
    recipient's notification fields are those of an ordinary envelope. *)
Theorem debugEncryptMessage_ships_the_plaintext (w : World) (a b : bytes)
    (A B sk m : jsstring) :
  length a = 32 → length b = 32 →
  identity_of a = Some A → secret_of a = Some sk → identity_of b = Some B →
  safe_integer (clock w) = true →
  ∃ ct sig envelope parsed,
    Exchange a b A B m (clock w) (next_random w 12) ct sig
    ∧ debugEncryptMessage m sk A B w
      = (Ok {| debug_destination := B; debug_encryptedMessage := envelope |},
         (getRandomBytes 12 w).2)
    ∧ JSON_parse envelope = Some parsed
    ∧ prop parsed "payload" = Ok (payload_of A m (clock w))
    ∧ received envelope
      = Some {| encrypted := toHex ct; nonce := Some (toHex (next_random w 12));
                signature := toHex sig |}.
Proof.
  intros Ha Hb HA Hsk HB Hts.
  destruct (exchange_exists a b A B m (clock w) (next_random w 12) Ha Hb
              (length_next_random w 12) HA HB) as (ct & sig & Hex).
  exists ct, sig.
  set (envelope :=
         obj [("encrypted", VStr (toHex ct));
              ("nonce", VStr (toHex (next_random w 12)));
              ("signature", VStr (toHex sig));
              ("payload", payload_of A m (clock w))]).
  assert (json_ok envelope = true) as Hok.
  { unfold envelope. cbn. by rewrite Hts. }
  exists (JSON_stringify envelope), envelope.
  split; [done|].
  split.
  { destruct Hex as [edA xA edB xB k HedA HxA HedB HxB -> -> Hab Hba Henc Hdec Hsig Hver].
    unfold secret_of in Hsk. rewrite HedA, HxA in Hsk. cbn in Hsk. injection Hsk as <-.
    unfold debugEncryptMessage, try_catch, bind, lift, Date_now.
    rewrite !parse_stringify by (apply json_ok_keyPair || apply json_ok_publicKeyData).
    rewrite keyPair_x25519_privateKey, publicKeyData_x25519, keyPair_ed25519_privateKey.
    rewrite Hab.
    change (getRandomBytes 12 w) with (Ok (next_random w 12), (getRandomBytes 12 w).2).
    cbn [of_option]. cbv beta iota.
    unfold payload_of in Henc. rewrite Henc. cbn [of_option]. rewrite Hsig. reflexivity. }
  split; [by apply json_roundtrip|].
  split; [reflexivity|].
  unfold received. rewrite json_roundtrip by done. reflexivity.
Qed.

End DebugCipher.

(** ** A message on its way: sender, relay, recipient *)

Section EndToEnd.
Context `{P : Platform} {L : PlatformLaws P}.
Import Spec Notions.

Lemma sanitizeForLog_signed (body : jsval) (sig : jsstring) :
  field body "expoPushToken" = VUndefined →
  field body "signature" = VStr sig →
  Server.sanitizeForLog body = Ok ().
Proof.
  intros Htok Hsig. unfold Server.sanitizeForLog. rewrite Htok, Hsig.
  cbn [truthy rbind]. by destruct sig.
Qed.

Lemma installed_after_random (w : Client.World) (a : bytes) (n : nat) :
  installed w a → installed (Client.getRandomBytes n w).2 a.
Proof. by intros (? & ? & ? & ?). Qed.

(** X24: a message goes through.  Alice's [encryptMessage] for Bob,
    then the request [sendMessage] builds and signs for it, presented to
    a relay where Bob is registered and whose clock is within the
    tolerance of Alice's: [/send] accepts the request and hands Expo a
    notification for Bob's token; and what Bob's listener takes from
    that notification, [decryptMessage] on Bob's device turns into
    exactly Alice's message, with Alice's Identity as sender.  (The
    lengths are the relay's limits: 500 characters for a key object,
    5000 for an envelope.) *)
Theorem message_reaches_its_recipient (wA wB : Client.World) (ws : Server.World)
    (a b : bytes) (A B m envelope : jsstring) (wA1 : Client.World)
    (row : Server.Recipient) :
  installed wA a → installed wB b →
  identity_of a = Some A → identity_of b = Some B →
  safe_integer (Client.clock wA) = true → (0 < Client.clock wA)%Z →
  (∀ k n pt ct, chacha20poly1305_encrypt k n pt = Some ct → ct ≠ []) →
  length A ≤ 500 → length B ≤ 500 →
  Client.encryptMessage m B wA
  = (Ok {| Client.destination := B; Client.message := envelope |}, wA1) →
  length envelope ≤ 5000 →
  Server.recipients ws !! B = Some row →
  (Z.abs (Server.clock ws - Client.clock wA) ≤ Server.TIMESTAMP_TOLERANCE ws)%Z →
  ∃ body e s n p,
    Client.authenticatedPayload
      {| Client.send_origin := A; Client.send_destination := B;
         Client.send_encryptedMessage := envelope |} wA1
    = (Ok body, wA1)
    ∧ (Server.send body ws).1
      = Ok (push_response body
              (sendPushNotification
                 (notification body (Server.expo_push_token row) A B e s n)))
    ∧ incoming (notification body (Server.expo_push_token row) A B e s n) = Some p
    ∧ Client.decryptMessage p wB
      = (Ok (Some {| Client.senderPublicKey := VStr A;
                     Client.decrypted_message := VStr m;
                     Client.timestamp := VNum (Client.clock wA) |}), wB).
Proof.
  intros HwA HwB HA HB Hsafe Hpos Hcipher HlenA HlenB Henc Hlen Hrow Hwin.
  pose proof HwA as (_ & Ha & _). pose proof HwB as (_ & Hb & _).
  destruct (exchange_exists a b A B m (Client.clock wA) (next_random wA 12) Ha Hb
              (length_next_random wA 12) HA HB) as (ct & sig & Hex).
  rewrite (encryptMessage_run wA a b A B m ct sig) in Henc by done.
  injection Henc as <- <-.
  set (envelope := JSON_stringify (envelope_of ct (next_random wA 12) sig)) in *.
  set (wA1 := (Client.getRandomBytes 12 wA).2).
  assert (installed wA1 a) as HwA1 by by apply installed_after_random.
  set (payload := {| Client.send_origin := A; Client.send_destination := B;
                     Client.send_encryptedMessage := envelope |}).
  destruct (signMessage_honest wA1 a (Client.messageToSign (Client.clock wA) payload) HwA1)
    as (edA & xA & rs & HedA & HxA & _ & Hrs & Hnacl & Hsign).
  destruct (identity_of_inv a A Ha HA) as (edA' & xA' & HedA' & HlA & HxA' & HlxA & HAeq).
  assert (edA' = edA) as -> by congruence.
  assert (xA' = xA) as -> by congruence.
  destruct (identity_of_inv b B Hb HB) as (edB & xB & HedB & HlB & HxB & HlxB & HBeq).
  set (body := obj [("origin", VStr A); ("destination", VStr B);
                    ("encryptedMessage", VStr envelope);
                    ("timestamp", VNum (Client.clock wA));
                    ("signature", VStr (toHex rs))]).
  assert (ct ≠ []) as Hct.
  { destruct Hex as [? ? ? ? ? ? ? ? ? ? ? ? ? Henc' ? ? ?]. by apply Hcipher in Henc'. }
  assert (sig ≠ []) as Hsig.
  { destruct Hex as [? ? ? ? ? ? ? ? ? ? ? ? ? ? ? Hs ?]. by apply (signature_not_empty a ct). }
  assert (shape_ok body (Client.clock wA) B envelope (toHex rs)) as Hshape.
  { unfold shape_ok. split; [by apply (sanitizeForLog_signed body (toHex rs))|].
    split; [reflexivity|]. split; [done|].
    split; [reflexivity|].
    split. { unfold Server.hexPattern_signature.
             by rewrite all_hex_toHex, length_toHex, Hrs. }
    split; [reflexivity|].
    split. { rewrite HBeq. apply stringify_nonempty, json_ok_publicKeyData. }
    split. { rewrite HBeq in HlenB |- *. by apply isValidKeyObject_publicKeyData. }
    split; [reflexivity|].
    split. { apply stringify_nonempty, json_ok_envelope. }
    apply isValidEncryptedMessage_envelope; try done. }
  assert (A ≠ []) as HAne.
  { rewrite HAeq. apply stringify_nonempty, json_ok_publicKeyData. }
  assert (Server.isValidKeyObject (VStr A) = true) as HAok.
  { rewrite HAeq in HlenA |- *. by apply isValidKeyObject_publicKeyData. }
  assert ((Server.verifyRequestSignature A (Client.clock wA) B envelope (toHex rs) ws).1
          = Ok true) as Hverify.
  { rewrite verifyRequestSignature_result.
    rewrite HAeq at 1.
    rewrite (request_signature_valid_honest edA xA rs) by exact Hnacl.
    apply Z.ltb_ge in Hwin. by rewrite Hwin. }
  destruct (send_authenticated body ws (Client.clock wA) A B envelope (toHex rs)
              Hshape eq_refl HAne HAok Hverify)
    as (es & parsed & e & s & n & Hparse & He & Hs & Hn & _ & Hsend).
  unfold envelope in Hparse. rewrite json_roundtrip in Hparse by apply json_ok_envelope.
  injection Hparse as <-.
  injection He as <-. injection Hs as <-. injection Hn as <-.
  rewrite Hrow in Hsend.
  exists body, (toHex ct), (toHex sig), (toHex (next_random wA 12)).
  eexists. split.
  { change (Client.authenticatedPayload payload wA1 = (Ok body, wA1)).
    unfold Client.authenticatedPayload, bind, Client.Date_now.
    change (Client.clock wA1) with (Client.clock wA). by rewrite Hsign. }
  split; [by rewrite Hsend|].
  split; [reflexivity|].
  apply (decryptMessage_run wB a b A B m (Client.clock wA) _ ct sig (toHex sig) B true
           HwB (nonce_not_empty wA) Hsafe Hex).
  intros edA0 HedA0. destruct Hex. rewrite hexToBytes_toHex. congruence.
Qed.

End EndToEnd.

(** ** The second platform satisfies the laws *)

Module CompactFacts.
Import Compact.

Lemma text_decode_bits (k : positive → positive) (p : positive) (rest : bytes) :
  text_decode_from k (bits p ++ rest)
  = Npos (k p) :: text_decode_from (fun p => p) rest.
Proof.
  revert k. induction p as [q IH|q IH|]; intros k; cbn [bits app text_decode_from].
  - by rewrite IH.
  - by rewrite IH.
  - done.
Qed.

Lemma compact_text_roundtrip (s : jsstring) :
  text_decode_from (fun p => p) (text_encode s) = s.
Proof.
  induction s as [|c s IH]; [done|].
  unfold text_encode in *. cbn [map concat].
  destruct c as [|p]; cbn [unit_bytes].
  - cbn [app text_decode_from]. by rewrite IH.
  - by rewrite text_decode_bits, IH.
Qed.

Instance compact_laws : PlatformLaws platform.
Proof.
  split; cbn.
  - intros v _. apply ToyFacts.parse_encode.
  - done.
  - intros v _. apply compact_text_roundtrip.
  - intros sk msg Hsk. exists sk, (sk ++ Toy.pad32 msg).
    unfold Toy.getPublicKey, Toy.sign, Toy.verify.
    rewrite length_app, ToyFacts.length_pad32, Hsk. cbn.
    by rewrite ToyFacts.same_bytes_refl.
  - intros a b Ha Hb. exists a, b, (zip_with Toy.xor_byte a b).
    unfold Toy.getPublicKey, Toy.getSharedSecret. rewrite Ha, Hb. cbn.
    repeat split; try done.
    + by rewrite ToyFacts.zip_xor_comm.
    + rewrite length_zip_with. lia.
  - intros k n pt Hk Hn. exists (Toy.tag k n ++ pt).
    unfold Toy.encrypt, Toy.decrypt. rewrite Hk, Hn. cbn.
    assert (length (Toy.tag k n) = 16) as Ht.
    { unfold Toy.tag. rewrite length_app, length_take. lia. }
    rewrite <- Ht at 1. rewrite take_app_length, ToyFacts.same_bytes_refl.
    rewrite <- Ht. by rewrite drop_app_length.
Qed.

End CompactFacts.

(** ** The scenario *)

Section ScenarioFacts.
Import Spec Notions Scenario.
#[local] Existing Instance Compact.platform.
#[local] Existing Instance CompactFacts.compact_laws.

Lemma alice_holds_her_keys : installed Example.alice_device Example.seedA.
Proof. repeat split; vm_compute; reflexivity. Qed.

Lemma bob_holds_his_keys : installed Example.bob_device Example.seedB.
Proof. repeat split; vm_compute; reflexivity. Qed.

Lemma cipher_output_not_empty (k n pt ct : bytes) :
  chacha20poly1305_encrypt k n pt = Some ct → ct ≠ [].
Proof.
  cbn. unfold Toy.encrypt. destruct (_ && _) eqn:Hlen; [|done].
  intros [= <-]. apply andb_true_iff in Hlen as [_ Hn]. apply Nat.eqb_eq in Hn.
  unfold Toy.tag. by destruct n.
Qed.

Lemma hi_is_encrypted :
  Client.encryptMessage Example.hi Bob Example.alice_device
  = (Ok {| Client.destination := Bob; Client.message := hi_envelope |}, alice_after).
Proof.
  destruct (exchange_exists Example.seedA Example.seedB Alice Bob Example.hi
              1700000000000 (next_random Example.alice_device 12))
    as (ct & sig & Hex); [done..|].
  unfold hi_envelope, alice_after.
  by rewrite (encryptMessage_run Example.alice_device Example.seedA Example.seedB
                Alice Bob Example.hi ct sig alice_holds_her_keys Hex).
Qed.

Lemma hi_envelope_length : length hi_envelope ≤ 5000.
Proof. apply Nat.leb_le. vm_compute. reflexivity. Qed.

Lemma message_reaches_its_recipient_witness :
  ∃ body e s n p,
    Client.authenticatedPayload
      {| Client.send_origin := Alice; Client.send_destination := Bob;
         Client.send_encryptedMessage := hi_envelope |} alice_after
    = (Ok body, alice_after)
    ∧ (Server.send body (relay_with_bob 1699999000000 1700000000100)).1
      = Ok (push_response body
              (sendPushNotification (notification body Example.token1 Alice Bob e s n)))
    ∧ incoming (notification body Example.token1 Alice Bob e s n) = Some p
    ∧ Client.decryptMessage p Example.bob_device
      = (Ok (Some {| Client.senderPublicKey := VStr Alice;
                     Client.decrypted_message := VStr Example.hi;
                     Client.timestamp := VNum 1700000000000 |}), Example.bob_device).
Proof.
  apply (message_reaches_its_recipient (P:=Compact.platform) (L:=CompactFacts.compact_laws)
           Example.alice_device Example.bob_device
           (relay_with_bob 1699999000000 1700000000100)
           Example.seedA Example.seedB Alice Bob Example.hi hi_envelope alice_after
           (bob_row 1699999000000)).
  - apply alice_holds_her_keys.
  - apply bob_holds_his_keys.
  - reflexivity.
  - reflexivity.
  - reflexivity.
  - reflexivity.
  - apply cipher_output_not_empty.
  - apply Nat.leb_le. vm_compute. reflexivity.
  - apply Nat.leb_le. vm_compute. reflexivity.
  - apply hi_is_encrypted.
  - apply hi_envelope_length.
  - reflexivity.
  - vm_compute. discriminate.
Defined.

Lemma getKeys_generates_once_witness :
  ∃ keys w',
    Client.getKeys Example.new_device = (Ok keys, w')
    ∧ identity_of (next_random Example.new_device 32) = Some (Client.publicKey keys)
    ∧ secret_of (next_random Example.new_device 32) = Some (Client.privateKey keys)
    ∧ Client.drawn w' = Client.drawn Example.new_device + 32
    ∧ Client.getKeys w' = (Ok keys, w').
Proof.
  apply (getKeys_generates_once (P:=Compact.platform) (L:=CompactFacts.compact_laws)
           Example.new_device).
  split; reflexivity.
Defined.

Lemma getKeys_store_down_witness :
  ∃ keys w',
    Client.getKeys locked_device = (Ok keys, w')
    ∧ identity_of (next_random locked_device 32) = Some (Client.publicKey keys)
    ∧ Client.secureStore w' = Client.secureStore locked_device
    ∧ Client.console w' = "Error getting keys:" :: Client.console locked_device
    ∧ ∃ keys' w'',
        Client.getKeys w' = (Ok keys', w'')
        ∧ identity_of
            (map (fun i => Client.entropy locked_device (Client.drawn locked_device + 32 + i))
               (seq 0 32))
          = Some (Client.publicKey keys')
        ∧ Client.secureStore w'' = Client.secureStore locked_device.
Proof.
  apply (getKeys_store_down (P:=Compact.platform) (L:=CompactFacts.compact_laws)
           locked_device).
  reflexivity.
Defined.

Lemma regenerateKeys_replaces_witness :
  ∃ keys w',
    KeyManagement.regenerateKeys Example.alice_device = (Ok keys, w')
    ∧ installed w' (next_random Example.alice_device 32)
    ∧ identity_of (next_random Example.alice_device 32) = Some (Client.publicKey keys)
    ∧ Client.getKeys w' = (Ok keys, w').
Proof.
  apply (regenerateKeys_replaces (P:=Compact.platform) (L:=CompactFacts.compact_laws)
           Example.alice_device).
  reflexivity.
Defined.

Lemma clearKeys_forgets_the_identity_witness :
  ∃ w1 keys w2,
    KeyManagement.clearKeys Example.alice_device = (Ok (), w1)
    ∧ Client.secureStore w1 !! Client.PUBLIC_KEY = None
    ∧ Client.secureStore w1 !! Client.PRIVATE_KEY = None
    ∧ (∀ k, k ≠ Client.PUBLIC_KEY → k ≠ Client.PRIVATE_KEY →
            Client.secureStore w1 !! k = Client.secureStore Example.alice_device !! k)
    ∧ Client.getKeys w1 = (Ok keys, w2)
    ∧ identity_of (next_random Example.alice_device 32) = Some (Client.publicKey keys)
    ∧ installed w2 (next_random Example.alice_device 32).
Proof.
  exact (clearKeys_forgets_the_identity (P:=Compact.platform)
           (L:=CompactFacts.compact_laws) Example.alice_device).
Defined.

Lemma signMessage_signature_format_witness :
  ∃ sig,
    Client.signMessage Example.hi Example.alice_device = (Ok sig, Example.alice_device)
    ∧ length sig = 128
    ∧ Server.hexPattern_signature sig = true
    ∧ ed25519_sign (utf8_encode Example.hi) Example.seedA = Some (hexToBytes sig).
Proof.
  apply (signMessage_signature_format (P:=Compact.platform)
           (L:=CompactFacts.compact_laws) Example.alice_device Example.seedA Example.hi).
  apply alice_holds_her_keys.
Defined.

Lemma corrupt_secret_failure_modes_witness :
  Client.signMessage Example.hi corrupt_device
  = (Throw, logged "Error signing message:" corrupt_device)
  ∧ Client.encryptMessage Example.hi Bob corrupt_device
    = (Throw, logged "Error encrypting message:" corrupt_device)
  ∧ Client.decryptMessage Example.stray_payload corrupt_device
    = (Ok None, logged "Error decrypting message:" corrupt_device).
Proof.
  apply (corrupt_secret_failure_modes (P:=Compact.platform) corrupt_device
           Alice (js "not json") Example.hi Bob Example.stray_payload).
  - reflexivity.
  - reflexivity.
  - intros H. vm_compute in H. discriminate.
  - reflexivity.
  - discriminate.
  - vm_compute. reflexivity.
Defined.

Lemma encryptMessage_malformed_recipient_witness :
  Client.encryptMessage Example.hi (js "not json") Example.alice_device
  = (Throw, logged "Error encrypting message:" Example.alice_device).
Proof.
  apply (encryptMessage_malformed_recipient (P:=Compact.platform)
           (L:=CompactFacts.compact_laws) Example.alice_device Example.seedA).
  - apply alice_holds_her_keys.
  - vm_compute. reflexivity.
Defined.

(** The request for ["hi"] is well-formed and authentic. *)
Lemma hi_request_shape :
  shape_ok hi_request 1700000000000 Bob hi_envelope hi_signature.
Proof.
  repeat split; try (vm_compute; reflexivity).
  - intros H. vm_compute in H. discriminate.
  - intros H. vm_compute in H. discriminate.
Qed.

Lemma hi_request_origin : field hi_request "origin" = VStr Alice.
Proof. vm_compute. reflexivity. Qed.

Lemma Alice_not_empty : Alice ≠ [].
Proof. intros H. vm_compute in H. discriminate. Qed.

Lemma Alice_valid : Server.isValidKeyObject (VStr Alice) = true.
Proof. vm_compute. reflexivity. Qed.

Lemma hi_request_authentic (since : Z) :
  (Server.verifyRequestSignature Alice 1700000000000 Bob hi_envelope hi_signature
     (relay_with_bob since 1700000000100)).1 = Ok true.
Proof.
  rewrite verifyRequestSignature_result.
  assert (Server.or_false (request_signature_valid Alice 1700000000000 Bob hi_envelope hi_signature)
          = true) as -> by (vm_compute; reflexivity).
  reflexivity.
Qed.

Lemma hi_request_authentic_nobody :
  (Server.verifyRequestSignature Alice 1700000000000 Bob hi_envelope hi_signature
     (Example.relay 1700000000100)).1 = Ok true.
Proof. vm_compute. reflexivity. Qed.

Lemma send_recipient_not_found_witness :
  (Server.send hi_request (Example.relay 1700000000100)).1 = Ok recipient_not_found
  ∧ Server.recipients (after (Server.send hi_request) (Example.relay 1700000000100))
    = Server.recipients (Example.relay 1700000000100)
  ∧ ∃ es,
      Server.trace (after (Server.send hi_request) (Example.relay 1700000000100))
      = Server.SelectRecipient Bob :: es ++ Server.trace (Example.relay 1700000000100)
      ∧ Server.PushNotification ∉ es.
Proof.
  apply (send_recipient_not_found (P:=Compact.platform) hi_request
           (Example.relay 1700000000100) 1700000000000 Alice Bob hi_envelope hi_signature).
  - apply hi_request_shape.
  - apply hi_request_origin.
  - apply Alice_not_empty.
  - apply Alice_valid.
  - apply hi_request_authentic_nobody.
  - reflexivity.
Defined.

Lemma send_delivers_to_registered_token_witness :
  ∃ e s n,
    received hi_envelope
    = Some {| Client.encrypted := e; Client.nonce := Some n; Client.signature := s |}
    ∧ (Server.send hi_request (relay_with_bob 1699999000000 1700000000100)).1
      = Ok (push_response hi_request
              (sendPushNotification
                 (notification hi_request
                    (Server.expo_push_token (bob_row 1699999000000)) Alice Bob e s n)))
    ∧ field (notification hi_request
               (Server.expo_push_token (bob_row 1699999000000)) Alice Bob e s n) "to"
      = VStr (Server.expo_push_token (bob_row 1699999000000))
    ∧ incoming (notification hi_request
                  (Server.expo_push_token (bob_row 1699999000000)) Alice Bob e s n)
      = Some {| Client.origin := Alice; Client.payload_destination := Bob;
                Client.encryptedMessage :=
                  {| Client.encrypted := e; Client.nonce := Some n;
                     Client.signature := s |} |}
    ∧ Server.recipients
        (after (Server.send hi_request) (relay_with_bob 1699999000000 1700000000100))
      = Server.recipients (relay_with_bob 1699999000000 1700000000100).
Proof.
  apply (send_delivers_to_registered_token (P:=Compact.platform) hi_request
           (relay_with_bob 1699999000000 1700000000100) 1700000000000
           Alice Bob hi_envelope hi_signature (bob_row 1699999000000)).
  - apply hi_request_shape.
  - apply hi_request_origin.
  - apply Alice_not_empty.
  - apply Alice_valid.
  - apply hi_request_authentic.
  - reflexivity.
Defined.

Lemma send_replay_within_window_witness :
  (Server.verifyRequestSignature Alice 1700000000000 Bob hi_envelope hi_signature
     (at_time 1700000299000
        (after (Server.send hi_request) (relay_with_bob 1699999000000 1700000000100)))).1
  = Ok true
  ∧ (Server.send hi_request
       (at_time 1700000299000
          (after (Server.send hi_request)
             (relay_with_bob 1699999000000 1700000000100)))).1
    = (Server.send hi_request (relay_with_bob 1699999000000 1700000000100)).1.
Proof.
  apply (send_replay_within_window (P:=Compact.platform) hi_request
           (relay_with_bob 1699999000000 1700000000100) 1700000000000 1700000299000
           Alice Bob hi_envelope hi_signature).
  - apply hi_request_shape.
  - apply hi_request_origin.
  - apply Alice_not_empty.
  - apply Alice_valid.
  - apply hi_request_authentic.
  - vm_compute. discriminate.
Defined.

Lemma truthy_non_string_signature_throws_witness :
  Server.sanitizeForLog numeric_signature_request = Throw
  ∧ Server.send numeric_signature_request (Example.relay 1700000000100)
    = (Throw, Example.relay 1700000000100)
  ∧ Server.register numeric_signature_request (Example.relay 1700000000100)
    = (Throw, Example.relay 1700000000100).
Proof.
  apply (truthy_non_string_signature_throws (P:=Compact.platform)
           numeric_signature_request (Example.relay 1700000000100)).
  - reflexivity.
  - intros s H. vm_compute in H. discriminate.
Defined.

Lemma cleanup_removes_exactly_the_stale_rows_witness :
  ∃ n,
    (Admin.cleanup None (obj [("key", VStr (js "change-me-in-production"))])
       (relay_with_bob 1699000000000 1700000000100)).1
    = Ok {| Server.status := 200;
            Server.json :=
              obj [("success", VBool true);
                   ("deletedCount", VNum n);
                   ("message",
                     VStr (js "Removed " ++ Number_toString n
                           ++ js " stale registration(s)"))] |}
    ∧ n = Z.of_nat
            (size (filter
                     (fun kv =>
                        Admin.stale (relay_with_bob 1699000000000 1700000000100) kv.2 = true)
                     (Server.recipients (relay_with_bob 1699000000000 1700000000100))))
    ∧ (n + Z.of_nat
             (size (Server.recipients
                      (after (Admin.cleanup None
                                (obj [("key", VStr (js "change-me-in-production"))]))
                         (relay_with_bob 1699000000000 1700000000100))))
       = Z.of_nat (size (Server.recipients (relay_with_bob 1699000000000 1700000000100))))%Z
    ∧ ∀ i r,
        Server.recipients
          (after (Admin.cleanup None (obj [("key", VStr (js "change-me-in-production"))]))
             (relay_with_bob 1699000000000 1700000000100)) !! i = Some r
        ↔ Server.recipients (relay_with_bob 1699000000000 1700000000100) !! i = Some r
          ∧ (Server.CURRENT_TIMESTAMP (relay_with_bob 1699000000000 1700000000100) - 86400
             ≤ Server.updated_at r)%Z.
Proof.
  apply (cleanup_removes_exactly_the_stale_rows None
           (obj [("key", VStr (js "change-me-in-production"))])
           (relay_with_bob 1699000000000 1700000000100)).
  reflexivity.
Defined.

Lemma cleanup_requires_the_key_witness :
  Admin.cleanup (Some (js "s3cret")) (obj [("key", VStr (js "change-me-in-production"))])
    (relay_with_bob 1699000000000 1700000000100)
  = (Ok (Server.error_response 401 "Unauthorized: Invalid cleanup key"),
     relay_with_bob 1699000000000 1700000000100)
  ∧ Admin.CLEANUP_KEY None = js "change-me-in-production"
  ∧ Admin.CLEANUP_KEY (Some []) = js "change-me-in-production".
Proof.
  apply (cleanup_requires_the_key (Some (js "s3cret"))
           (obj [("key", VStr (js "change-me-in-production"))])
           (relay_with_bob 1699000000000 1700000000100)).
  intros H. vm_compute in H. discriminate.
Defined.

Lemma registration_survives_cleanup_for_a_day_witness :
  Server.expo_push_token
    <$> Server.recipients
          (after (Admin.cleanup None (obj [("key", VStr (Admin.CLEANUP_KEY None))]))
             (at_time 1700086400999
                (after (Server.register (register_body Bob Example.token1))
                   (at_time 1700000000000 (Example.relay 0))))) !! Bob
  = if (86400 <? 1700086400999 / 1000 - 1700000000000 / 1000)%Z
    then None else Some Example.token1.
Proof.
  apply (registration_survives_cleanup_for_a_day (P:=Compact.platform) None
           (Example.relay 0) Bob Example.token1 1700000000000 1700086400999).
  vm_compute. reflexivity.
Defined.

Lemma generated_identity_is_a_valid_key_object_witness :
  Server.isValidKeyObject (VStr Alice) = true
  ∧ ∀ t, valid_registration Alice t = truthy (VStr t) && isExpoPushToken t.
Proof.
  apply (generated_identity_is_a_valid_key_object (P:=Compact.platform)
           (L:=CompactFacts.compact_laws) Example.seedA Alice).
  - reflexivity.
  - reflexivity.
  - apply Nat.leb_le. vm_compute. reflexivity.
Defined.

Lemma encrypted_envelope_is_accepted_by_relay_witness :
  Server.isValidEncryptedMessage (VStr hi_envelope) = true.
Proof.
  apply (encrypted_envelope_is_accepted_by_relay (P:=Compact.platform)
           (L:=CompactFacts.compact_laws) Example.alice_device Example.seedA Example.seedB
           Alice Bob Example.hi hi_envelope alice_after).
  - apply alice_holds_her_keys.
  - reflexivity.
  - reflexivity.
  - reflexivity.
  - apply cipher_output_not_empty.
  - apply hi_is_encrypted.
  - apply hi_envelope_length.
Defined.

Lemma conversation_id_of_generated_identities_witness :
  ∃ edA edB,
    ed25519_getPublicKey Example.seedA = Some edA
    ∧ ed25519_getPublicKey Example.seedB = Some edB
    ∧ Client.generateConversationId Alice Bob
      = Ok (toHex (sha256 (utf8_encode
              (if str_lt (toHex edB) (toHex edA)
               then toHex edB ++ toHex edA
               else toHex edA ++ toHex edB))))
    ∧ ∀ garbage,
        JSON_parse garbage = None →
        Client.generateConversationId Alice garbage = Throw
        ∧ Client.generateConversationId garbage Alice = Throw.
Proof.
  apply (conversation_id_of_generated_identities (P:=Compact.platform)
           (L:=CompactFacts.compact_laws) Example.seedA Example.seedB Alice Bob);
    reflexivity.
Defined.

Lemma debugEncryptMessage_ships_the_plaintext_witness :
  ∃ ct sig envelope parsed,
    Exchange Example.seedA Example.seedB Alice Bob Example.hi
      (Client.clock Example.alice_device) (next_random Example.alice_device 12) ct sig
    ∧ KeyManagement.debugEncryptMessage Example.hi
        (default [] (secret_of Example.seedA)) Alice Bob Example.alice_device
      = (Ok {| KeyManagement.debug_destination := Bob;
               KeyManagement.debug_encryptedMessage := envelope |},
         (Client.getRandomBytes 12 Example.alice_device).2)
    ∧ JSON_parse envelope = Some parsed
    ∧ prop parsed "payload"
      = Ok (payload_of Alice Example.hi (Client.clock Example.alice_device))
    ∧ received envelope
      = Some {| Client.encrypted := toHex ct;
                Client.nonce := Some (toHex (next_random Example.alice_device 12));
                Client.signature := toHex sig |}.
Proof.
  apply (debugEncryptMessage_ships_the_plaintext (P:=Compact.platform)
           (L:=CompactFacts.compact_laws) Example.alice_device Example.seedA Example.seedB
           Alice Bob (default [] (secret_of Example.seedA)) Example.hi);
    reflexivity.
Defined.

End ScenarioFacts.

(** ** The client hook: registering and sending *)

Section DecimalText.
Import Backend.

Lemma js_string (c : Ascii.ascii) (s : string) :
  js (String c s) = Ascii.N_of_ascii c :: js s.
Proof. reflexivity. Qed.

Ltac digit_value :=
  repeat match goal with
  | |- context [(Ascii.N_of_ascii ?c - 48)%N] =>
      let v := eval vm_compute in (Ascii.N_of_ascii c - 48)%N in
      change (Ascii.N_of_ascii c - 48)%N with v
  end.

Lemma dec_run_step (c : N) (r : jsstring) (acc d : N) :
  decval c = Some d →
  dec_run (Some acc) (c :: r) = dec_run (Some (10 * acc + d)%N) r.
Proof. intros Hc. cbn [dec_run]. by rewrite Hc. Qed.

Lemma dec_run_acc (d : Decimal.uint) (acc : positive) :
  dec_run (Some (Npos acc)) (js (NilEmpty.string_of_uint d))
  = Some (Npos (Pos.of_uint_acc d acc)).
Proof.
  revert acc. induction d as [|d IH|d IH|d IH|d IH|d IH|d IH|d IH|d IH|d IH|d IH];
    intros acc; [done|..];
    cbn [NilEmpty.string_of_uint Pos.of_uint_acc]; rewrite js_string;
    erewrite dec_run_step by reflexivity;
    rewrite <- IH; f_equal; f_equal; digit_value; lia.
Qed.

Lemma dec_run_zero (d : Decimal.uint) :
  dec_run (Some 0%N) (js (NilEmpty.string_of_uint d)) = Some (Pos.of_uint d).
Proof.
  induction d as [|d IH|d IH|d IH|d IH|d IH|d IH|d IH|d IH|d IH|d IH]; [done|exact IH|..];
    cbn [NilEmpty.string_of_uint Pos.of_uint]; rewrite js_string;
    erewrite dec_run_step by reflexivity;
    rewrite <- dec_run_acc; digit_value; reflexivity.
Qed.

Lemma dec_run_digits (p : positive) :
  dec_run None (js (NilEmpty.string_of_uint (Pos.to_uint p))) = Some (Npos p).
Proof.
  rewrite <- DecimalPos.Unsigned.of_to, <- dec_run_zero.
  pose proof (DecimalPos.Unsigned.to_uint_nonnil p) as Hnil.
  by destruct (Pos.to_uint p).
Qed.

Lemma first_digit (p : positive) :
  ∃ c r, js (NilEmpty.string_of_uint (Pos.to_uint p)) = c :: r
         ∧ (48 ≤ c ≤ 57)%N.
Proof.
  pose proof (DecimalPos.Unsigned.to_uint_nonnil p) as Hnil.
  destruct (Pos.to_uint p); [done|..]; cbn [NilEmpty.string_of_uint];
    rewrite js_string; eexists _, _; (split; [reflexivity|]); cbn; lia.
Qed.

(** [parseInt(String(n), 10)] is [n]. *)
Lemma parseInt10_Number_toString (n : Z) : parseInt10 (Number_toString n) = Some n.
Proof.
  unfold Number_toString. destruct n as [|p|p]; [reflexivity|..];
    cbn [Z.to_int NilZero.string_of_int].
  - assert (NilZero.string_of_uint (Pos.to_uint p)
            = NilEmpty.string_of_uint (Pos.to_uint p)) as ->.
    { pose proof (DecimalPos.Unsigned.to_uint_nonnil p). by destruct (Pos.to_uint p). }
    pose proof (dec_run_digits p) as Hrun.
    destruct (first_digit p) as (c & r & Hs & Hc). rewrite Hs in *.
    assert (c = 48 ∨ c = 49 ∨ c = 50 ∨ c = 51 ∨ c = 52 ∨ c = 53 ∨ c = 54 ∨ c = 55
            ∨ c = 56 ∨ c = 57)%N as Hcases by lia.
    unfold parseInt10.
    repeat (destruct Hcases as [->|Hcases];
            [cbn [skip_ws];
             match goal with |- context [is_ws ?x] => change (is_ws x) with false end;
             cbv iota; by rewrite Hrun|]).
    subst c. cbn [skip_ws].
    match goal with |- context [is_ws ?x] => change (is_ws x) with false end.
    cbv iota. by rewrite Hrun.
  - assert (NilZero.string_of_uint (Pos.to_uint p)
            = NilEmpty.string_of_uint (Pos.to_uint p)) as ->.
    { pose proof (DecimalPos.Unsigned.to_uint_nonnil p). by destruct (Pos.to_uint p). }
    rewrite js_string. unfold parseInt10.
    match goal with |- context [Ascii.N_of_ascii ?c] =>
      change (Ascii.N_of_ascii c) with 45%N end.
    cbn [skip_ws]. change (is_ws 45) with false. cbv iota.
    by rewrite dec_run_digits.
Qed.

End DecimalText.

Section HookFacts.
Context `{P : Platform} {L : PlatformLaws P}.
Import Spec Backend HookNotions.

Lemma getBackendUrl_up (d : Client.World) (l : bool) (e : option ErrorText)
    (n : nat → Outcome) (s : list Request) :
  Client.secureStore_down d = false →
  getBackendUrl {| device := d; loading := l; error := e; network := n; sent := s |}
  = (Done (backendUrl_of d),
     {| device := d; loading := l; error := e; network := n; sent := s |}).
Proof.
  intros Hup.
  unfold getBackendUrl, hcatch, hbind, on_device, Client.getItemAsync, backendUrl_of.
  cbn [device loading error network sent]. rewrite Hup.
  by destruct (Client.secureStore d !! BACKEND_URL) as [[|c u]|].
Qed.

Lemma on_device_getKeys (d : Client.World) (l : bool) (e : option ErrorText)
    (n : nat → Outcome) (s : list Request) (a : bytes) (A : jsstring) :
  installed d a → identity_of a = Some A →
  ∃ sk,
    secret_of a = Some sk
    ∧ on_device Client.getKeys
        {| device := d; loading := l; error := e; network := n; sent := s |}
      = (Done {| Client.publicKey := A; Client.privateKey := sk |},
         {| device := d; loading := l; error := e; network := n; sent := s |}).
Proof.
  intros Hd HA.
  destruct (getKeys_installed d a Hd) as (edPub & xPub & Hed & _ & Hx & _ & Hkeys).
  unfold identity_of in HA. rewrite Hed, Hx in HA. cbn in HA. injection HA as <-.
  eexists. split; [unfold secret_of; by rewrite Hed, Hx|].
  unfold on_device. cbn [device loading error network sent]. by rewrite Hkeys.
Qed.

(** The connectivity test changes nothing but the list of requests. *)
Lemma connectivity_test_run (d : Client.World) (l : bool) (e : option ErrorText)
    (n : nat → Outcome) (s : list Request) :
  hcatch (axios_get (js "https://www.google.com");;; hret ())%h (fun _ => hret ())
    {| device := d; loading := l; error := e; network := n; sent := s |}
  = (Done (),
     {| device := d; loading := l; error := e; network := n;
        sent := connectivity_test :: s |}).
Proof.
  unfold hcatch, hbind, axios_get, request, hret. cbn [device loading error network sent].
  destruct (n (length s)) as [status data|message]; [|done].
  by destruct ((200 <=? status) && (status <? 300))%Z.
Qed.

(** X25: when the relay answers the registration with a status in the
    200s, [register] returns true, having sent the connectivity test and
    then one POST to [/register] with the push token and the device's
    Identity, and having stored the push token and the time of the
    registration, in decimal, in the secure store; the keys are
    untouched, [loading] is false and [error] is null.  On any other
    answer, or none, it returns false and stores nothing. *)
Theorem register_records_the_registration (w : World) (a : bytes) (A token : jsstring) :
  installed (device w) a →
  identity_of a = Some A →
  ∃ w',
    register token w
    = (Done (match network w (S (length (sent w))) with
             | Responded status _ => accepted status
             | Failed _ => false
             end), w')
    ∧ sent w'
      = registration (backendUrl_of (device w)) token A :: connectivity_test :: sent w
    ∧ loading w' = false
    ∧ installed (device w') a
    ∧ match network w (S (length (sent w))) with
      | Responded status _ =>
          if accepted status then
            Client.secureStore (device w') !! PUSH_TOKEN = Some token
            ∧ Client.secureStore (device w') !! LAST_REGISTRATION_TIME
              = Some (Number_toString (Client.clock (device w)))
            ∧ error w' = None
          else
            Client.secureStore (device w') = Client.secureStore (device w)
            ∧ error w' ≠ None
      | Failed _ =>
          Client.secureStore (device w') = Client.secureStore (device w)
          ∧ error w' ≠ None
      end.
Proof.
  intros Hd HA. destruct w as [d l e n s]. cbn [device loading error network sent] in *.
  pose proof Hd as (Hup & Ha & Hpub & Hpriv).
  destruct (on_device_getKeys d true None n s a A Hd HA) as (sk & Hsk & Hkeys).
  unfold register.
  unfold hbind at 1, setLoading at 1. cbn [device loading error network sent].
  unfold hbind at 1, setError at 1. cbn [device loading error network sent].
  unfold hfinally, hcatch at 1.
  unfold hbind at 1. rewrite getBackendUrl_up by done.
  unfold hbind at 1. rewrite Hkeys.
  unfold hbind at 1. rewrite connectivity_test_run.
  unfold hbind at 1, axios_post, request at 1. cbn [device loading error network sent length].
  destruct (n (S (length s))) as [status data|message].
  - unfold accepted. destruct ((200 <=? status) && (status <? 300))%Z eqn:Hok.
    + unfold hbind, on_device, Client.setItemAsync, Client.Date_now, hret, setLoading.
      cbn [device loading error network sent Client.secureStore_down Client.secureStore
           Client.clock fst snd Client.publicKey].
      repeat (rewrite Hup;
              cbn [device loading error network sent Client.secureStore_down
                   Client.secureStore Client.clock fst snd]).
      eexists. split; [reflexivity|]. cbn [device loading error network sent].
      split; [reflexivity|]. split; [reflexivity|].
      split.
      { unfold installed. cbn [Client.secureStore Client.secureStore_down].
        rewrite !lookup_insert_ne by done. done. }
      cbn [Client.secureStore]. split.
      { rewrite lookup_insert_ne by done. by rewrite lookup_insert_eq. }
      split; [by rewrite lookup_insert_eq|done].
    + unfold hbind, console_error, on_device, Client.console_error, status_is, setError,
        hret, setLoading.
      cbn [device loading error network sent fst snd].
      destruct (status =? 429)%Z;
        cbn [device loading error network sent fst snd];
        (eexists; split; [reflexivity|]); cbn [device loading error network sent];
        (split; [reflexivity|]); (split; [reflexivity|]); (split; [done|]);
        cbn [Client.secureStore]; done.
  - unfold hbind, console_error, on_device, Client.console_error, status_is, setError,
      hret, setLoading.
    cbn [device loading error network sent fst snd].
    eexists. split; [reflexivity|]. cbn [device loading error network sent].
    split; [reflexivity|]. split; [reflexivity|]. split; [done|].
    cbn [Client.secureStore]. done.
Qed.

Lemma Number_toString_not_empty (n : Z) : Number_toString n ≠ [].
Proof.
  intros Hnil. pose proof (parseInt10_Number_toString n) as Hparse.
  rewrite Hnil in Hparse. discriminate.
Qed.

(** X26: with the time of the last registration in the secure store as
    [register] writes it, [needsRegistrationRefresh] answers true
    exactly when more than 20 hours (72000000 ms) have passed since, and
    [refreshRegistrationIfNeeded] then registers again with the stored
    push token; before that it returns true and sends nothing. *)
Theorem registration_is_refreshed_after_20_hours (w : World) (t0 : Z) (token : jsstring) :
  Client.secureStore_down (device w) = false →
  Client.secureStore (device w) !! LAST_REGISTRATION_TIME = Some (Number_toString t0) →
  Client.secureStore (device w) !! PUSH_TOKEN = Some token →
  token ≠ [] →
  REGISTRATION_REFRESH_INTERVAL = 72000000%Z
  ∧ needsRegistrationRefresh w
    = (Done (REGISTRATION_REFRESH_INTERVAL <? Client.clock (device w) - t0)%Z, w)
  ∧ refreshRegistrationIfNeeded w
    = if (REGISTRATION_REFRESH_INTERVAL <? Client.clock (device w) - t0)%Z
      then register token w
      else (Done true, w).
Proof.
  intros Hup Hlast Htoken Hne. destruct w as [d l e n s].
  cbn [device loading error network sent] in *.
  split; [reflexivity|].
  assert (needsRegistrationRefresh
            {| device := d; loading := l; error := e; network := n; sent := s |}
          = (Done (REGISTRATION_REFRESH_INTERVAL <? Client.clock d - t0)%Z,
             {| device := d; loading := l; error := e; network := n; sent := s |})) as Hneeds.
  { unfold needsRegistrationRefresh, hcatch, hbind, on_device, Client.getItemAsync,
      Client.Date_now, hret.
    cbn [device loading error network sent]. rewrite Hup, Hlast.
    pose proof (Number_toString_not_empty t0) as Hnil.
    unfold Client.missing. destruct (Number_toString t0) as [|c r] eqn:Htext; [done|].
    cbn [default from_option id device loading error network sent].
    by rewrite <- Htext, parseInt10_Number_toString. }
  split; [exact Hneeds|].
  unfold refreshRegistrationIfNeeded, hbind at 1. rewrite Hneeds.
  destruct (REGISTRATION_REFRESH_INTERVAL <? Client.clock d - t0)%Z; cbn [negb]; [|done].
  unfold hbind at 1, getStoredPushToken, hcatch, on_device, Client.getItemAsync.
  cbn [device loading error network sent]. rewrite Hup, Htoken.
  unfold Client.missing. by destruct token.
Qed.

(** X27: when the stored registration time is text [parseInt] cannot
    read, [needsRegistrationRefresh] compares with [NaN] and answers
    false at every time of day, so [refreshRegistrationIfNeeded] returns
    true without sending anything: the registration is never refreshed. *)
Theorem unreadable_registration_time_is_never_refreshed (w : World) (text : jsstring)
    (t : Z) :
  Client.secureStore_down (device w) = false →
  Client.secureStore (device w) !! LAST_REGISTRATION_TIME = Some text →
  text ≠ [] →
  parseInt10 text = None →
  needsRegistrationRefresh (at_time t w) = (Done false, at_time t w)
  ∧ refreshRegistrationIfNeeded (at_time t w) = (Done true, at_time t w).
Proof.
  intros Hup Hlast Hne Hnan. destruct w as [d l e n s].
  cbn [device loading error network sent] in *.
  assert (needsRegistrationRefresh
            (at_time t {| device := d; loading := l; error := e; network := n; sent := s |})
          = (Done false,
             at_time t {| device := d; loading := l; error := e; network := n; sent := s |}))
    as Hneeds.
  { unfold needsRegistrationRefresh, hcatch, hbind, on_device, Client.getItemAsync,
      Client.Date_now, hret, at_time, device_at.
    cbn [device loading error network sent Client.secureStore Client.secureStore_down
         Client.clock].
    rewrite Hup, Hlast. unfold Client.missing. destruct text as [|c r]; [done|].
    cbn [default from_option id device loading error network sent].
    by rewrite Hnan. }
  split; [exact Hneeds|].
  unfold refreshRegistrationIfNeeded, hbind at 1. by rewrite Hneeds.
Qed.

Lemma authenticatedPayload_run (d : Client.World) (a : bytes) (payload : Client.SendPayload) :
  installed d a →
  ∃ body, Client.authenticatedPayload payload d = (Ok body, d).
Proof.
  intros Hd.
  destruct (signMessage_honest d a (Client.messageToSign (Client.clock d) payload) Hd)
    as (edPub & xPub & sig & _ & _ & _ & _ & _ & Hsign).
  eexists. unfold Client.authenticatedPayload, bind, Client.Date_now.
  by rewrite Hsign.
Qed.

(** X28: what [sendMessage] makes of the relay's answers.  The relay
    answers with JSON objects, never with a string; so on its 401 the
    hook does not re-register and does not retry: it sends exactly one
    request and reports the general authentication message, never
    [Invalid or expired signature]; on 404 it reports that the recipient
    is not registered, on 400 a bad request; it returns true exactly
    when the status is in the 200s, and [loading] is false at the end. *)
Theorem sendMessage_reads_the_relay_answer (w : World) (a : bytes)
    (payload : Client.SendPayload) (r : Server.Response) :
  installed (device w) a →
  network w (length (sent w)) = Responded (Server.status r) (Server.json r) →
  (∀ s, Server.json r ≠ VStr s) →
  Server.status r ≠ 403%Z →
  ∃ body w',
    Client.authenticatedPayload payload (device w) = (Ok body, device w)
    ∧ sendMessage payload w = (Done (accepted (Server.status r)), w')
    ∧ sent w' = submission (backendUrl_of (device w)) body :: sent w
    ∧ loading w' = false
    ∧ error w'
      = if accepted (Server.status r) then None
        else
          Some (Text
            (if (Server.status r =? 401)%Z then
               js "Authentication failed: Please check your connection and try again"
             else if (Server.status r =? 404)%Z then
               js "Recipient not registered with backend"
             else if (Server.status r =? 413)%Z then
               js "Message too large. Maximum size is 10KB."
             else if (Server.status r =? 429)%Z then
               js "Too many requests. Please wait a few minutes and try again."
             else if (Server.status r =? 400)%Z then
               js "Bad request: Invalid data format"
             else axios_message (Server.status r))).
Proof.
  intros Hd Hnet Hobj H403. destruct w as [d l e n s], r as [status data].
  cbn [device loading error network sent Server.status Server.json] in *.
  pose proof Hd as (Hup & _).
  destruct (authenticatedPayload_run d a payload Hd) as (body & Hbody).
  exists body.
  assert (post_send payload
            {| device := d; loading := true; error := None; network := n; sent := s |}
          = (if accepted status then Done data
             else Raised (AxiosError (Some (status, data)) (axios_message status)),
             {| device := d; loading := true; error := None; network := n;
                sent := submission (backendUrl_of d) body :: s |})) as Hpost.
  { unfold post_send, hbind at 1. rewrite getBackendUrl_up by done.
    unfold hbind, on_device. cbn [device loading error network sent].
    rewrite Hbody. unfold axios_post, request. cbn [device loading error network sent].
    rewrite Hnet. unfold accepted.
    by destruct ((200 <=? status) && (status <? 300))%Z. }
  assert (errorText (AxiosError (Some (status, data)) (axios_message status)) = [])
    as Htext.
  { cbn. destruct data; try done. by destruct (Hobj s0). }
  unfold sendMessage.
  unfold hbind at 1, setLoading at 1. cbn [device loading error network sent].
  unfold hbind at 1, setError at 1. cbn [device loading error network sent].
  unfold hfinally, hcatch at 1. unfold hbind at 1. rewrite Hpost.
  destruct (accepted status) eqn:Hok.
  { eexists. split; [done|]. split; [reflexivity|]. done. }
  unfold hbind at 1, console_error at 1, on_device at 1, Client.console_error at 1.
  cbn [device loading error network sent].
  unfold hbind at 1, console_error at 1, on_device at 1, Client.console_error at 1.
  cbn [device loading error network sent].
  rewrite Htext.
  change (includes [] (js "not registered")) with false.
  change (includes [] (js "expired")) with false.
  change (includes [] (js "Invalid or expired signature")) with false.
  change (includes [] (js "Invalid signature format")) with false.
  unfold status_is.
  destruct (Z.eqb_spec status 403) as [|_]; [done|].
  destruct (status =? 401)%Z; cbn [orb];
    [eexists; split; [done|]; split; [reflexivity|]; done|].
  destruct (status =? 404)%Z;
    [eexists; split; [done|]; split; [reflexivity|]; done|].
  destruct (status =? 413)%Z;
    [eexists; split; [done|]; split; [reflexivity|]; done|].
  destruct (status =? 429)%Z;
    [eexists; split; [done|]; split; [reflexivity|]; done|].
  destruct (status =? 400)%Z;
    eexists; (split; [done|]); (split; [reflexivity|]); done.
Qed.

End HookFacts.

(** ** Whose message is it *)

Section SenderIdentity.
Context `{P : Platform} {L : PlatformLaws P}.
Import Client Spec KeyManagement.

(** X29: the sender [decryptMessage] reports is the one the payload
    names, not the origin whose signature it checked.  Whoever holds a
    key pair (seed [c], Identity [C]) can name any string [claimed] as
    the sender: [debugEncryptMessage] with their own secret and
    [claimed] as [senderPublicKey] gives an envelope whose signature
    verifies under [C], and the recipient's [decryptMessage], given
    origin [C], returns the message with [senderPublicKey] [claimed],
    without logging anything. *)
Theorem sender_identity_is_the_payloads_claim (w wB : World) (c b : bytes)
    (C B sk claimed m : jsstring) :
  installed wB b →
  length c = 32 →
  identity_of c = Some C → secret_of c = Some sk → identity_of b = Some B →
  safe_integer (clock w) = true →
  ∃ envelope em,
    debugEncryptMessage m sk claimed B w
    = (Ok {| debug_destination := B; debug_encryptedMessage := envelope |},
       (getRandomBytes 12 w).2)
    ∧ received envelope = Some em
    ∧ isValid C em = Ok true
    ∧ decryptMessage
        {| origin := C; payload_destination := B; encryptedMessage := em |} wB
      = (Ok (Some {| senderPublicKey := VStr claimed;
                     decrypted_message := VStr m;
                     timestamp := VNum (clock w) |}), wB).
Proof.
  intros HwB Hc HC Hsk HB Hts. pose proof HwB as (_ & Hb & _).
  destruct (x25519_agreement c b Hc Hb)
    as (xC & xB & k & HxC & HxB & _ & _ & Hcb & Hbc & Hk).
  set (n := next_random w 12).
  set (payload := payload_of claimed m (clock w)).
  destruct (chacha20poly1305_correct k n (utf8_encode (JSON_stringify payload)) Hk
              (length_next_random w 12)) as (ct & Henc & Hdec).
  destruct (ed25519_correct c ct Hc) as (edC & sig & HedC & _ & Hsig & _ & Hver & _).
  destruct (ed25519_correct b [] Hb) as (edB & _ & HedB & _).
  unfold identity_of in HC, HB. unfold secret_of in Hsk.
  rewrite HedC, HxC in HC, Hsk. rewrite HedB, HxB in HB. cbn in HC, HB, Hsk.
  injection HC as <-. injection HB as <-. injection Hsk as <-.
  set (envelope :=
         obj [("encrypted", VStr (toHex ct)); ("nonce", VStr (toHex n));
              ("signature", VStr (toHex sig)); ("payload", payload)]).
  assert (json_ok payload = true) as Hpayload.
  { unfold payload. cbn. by rewrite Hts. }
  assert (json_ok envelope = true) as Hok.
  { unfold envelope, payload. cbn. by rewrite Hts. }
  exists (JSON_stringify envelope),
    {| encrypted := toHex ct; nonce := Some (toHex n); signature := toHex sig |}.
  split.
  { unfold debugEncryptMessage, try_catch, bind, lift, Date_now.
    rewrite !parse_stringify by (apply json_ok_keyPair || apply json_ok_publicKeyData).
    rewrite keyPair_x25519_privateKey, publicKeyData_x25519, keyPair_ed25519_privateKey.
    rewrite Hcb.
    change (getRandomBytes 12 w) with (Ok n, (getRandomBytes 12 w).2).
    cbn [of_option]. cbv beta iota.
    unfold payload, payload_of in Henc. rewrite Henc. cbn [of_option]. rewrite Hsig.
    reflexivity. }
  split.
  { unfold received. rewrite json_roundtrip by done. reflexivity. }
  split.
  { unfold isValid. cbn [encrypted signature].
    rewrite parse_stringify by apply json_ok_publicKeyData. cbn [rbind].
    rewrite publicKeyData_ed25519. cbn [rbind].
    by rewrite !hexToBytes_toHex, Hver. }
  destruct (getKeys_installed wB b HwB) as (edB' & xB' & HedB' & _ & HxB' & _ & Hkeys).
  rewrite HedB in HedB'. rewrite HxB in HxB'.
  injection HedB' as <-. injection HxB' as <-.
  unfold decryptMessage, try_catch, bind.
  rewrite Hkeys. cbv beta iota. unfold lift.
  cbn [publicKey privateKey origin encryptedMessage Client.nonce encrypted signature].
  rewrite parse_stringify by apply json_ok_keyPair.
  rewrite missing_toHex by apply nonce_not_empty.
  rewrite parse_stringify by apply json_ok_publicKeyData.
  rewrite publicKeyData_ed25519. cbn [of_option default from_option id].
  rewrite !hexToBytes_toHex, Hver. cbn [of_option]. cbv beta iota. unfold ret at 1.
  rewrite keyPair_x25519_privateKey, publicKeyData_x25519.
  rewrite Hbc. cbn [of_option]. rewrite Hdec. cbn [of_option].
  rewrite utf8_roundtrip, parse_stringify by done.
  reflexivity.
Qed.

End SenderIdentity.

(** ** Whose registration is it *)

Section RegistrationTakeover.
Context `{P : Platform}.
Import Server Spec Notions.

(** X30: [/register] asks for no proof that the caller holds the keys of
    the Identity it registers: the request is the public Identity and a
    push token.  So after the owner registered [t1], a second
    registration of the same Identity with another token [t2], by
    anyone, takes its place, and an authentic message for that Identity
    is then handed to Expo for [t2], not [t1]. *)
Theorem registration_can_be_taken_over (body : jsval) (w : World) (ts : Z)
    (o d em sig t1 t2 : jsstring) :
  valid_registration d t1 = true →
  valid_registration d t2 = true →
  shape_ok body ts d em sig →
  field body "origin" = VStr o → o ≠ [] → isValidKeyObject (VStr o) = true →
  (verifyRequestSignature o ts d em sig w).1 = Ok true →
  ∃ e s n,
    (send body
       (after (register (register_body d t2))
          (after (register (register_body d t1)) w))).1
    = Ok (push_response body (sendPushNotification (notification body t2 o d e s n)))
    ∧ field (notification body t2 o d e s n) "to" = VStr t2.
Proof.
  intros Hv1 Hv2 Hshape Ho Hone Hook Hverify.
  set (w1 := after (register (register_body d t1)) w).
  set (w2 := after (register (register_body d t2)) w1).
  assert (recipients w2 !! d
          = Some {| expo_push_token := t2;
                    created_at := from_option created_at (CURRENT_TIMESTAMP w1)
                                    (recipients w1 !! d);
                    updated_at := CURRENT_TIMESTAMP w1 |}) as Hrow.
  { unfold w2, after. rewrite register_run by done. cbn [snd]. apply upsert_lookup. }
  assert ((verifyRequestSignature o ts d em sig w2).1 = Ok true) as Hverify2.
  { rewrite verifyRequestSignature_result in Hverify |- *.
    assert (clock w2 = clock w ∧ TIMESTAMP_TOLERANCE w2 = TIMESTAMP_TOLERANCE w)
      as [-> ->]; [|done].
    unfold w2, w1, after. rewrite !register_run by done. done. }
  destruct (send_authenticated body w2 ts o d em sig Hshape Ho Hone Hook Hverify2)
    as (es & parsed & e & s & n & _ & _ & _ & _ & _ & Hsend).
  rewrite Hrow in Hsend. exists e, s, n. rewrite Hsend. done.
Qed.

End RegistrationTakeover.

(** ** The hook and the two takeovers, on the second platform *)

Section HookExamples.
Import Spec Notions Backend HookNotions Scenario HookScenario.
#[local] Existing Instance Compact.platform.
#[local] Existing Instance CompactFacts.compact_laws.

Lemma register_records_the_registration_witness :
  ∃ w',
    register Example.token1 (phone ok_answer)
    = (Done (match network (phone ok_answer) (S (length (sent (phone ok_answer)))) with
             | Responded status _ => accepted status
             | Failed _ => false
             end), w')
    ∧ sent w'
      = registration (backendUrl_of (device (phone ok_answer))) Example.token1 Alice
        :: connectivity_test :: sent (phone ok_answer)
    ∧ loading w' = false
    ∧ installed (device w') Example.seedA
    ∧ match network (phone ok_answer) (S (length (sent (phone ok_answer)))) with
      | Responded status _ =>
          if accepted status then
            Client.secureStore (device w') !! PUSH_TOKEN = Some Example.token1
            ∧ Client.secureStore (device w') !! LAST_REGISTRATION_TIME
              = Some (Number_toString (Client.clock (device (phone ok_answer))))
            ∧ error w' = None
          else
            Client.secureStore (device w') = Client.secureStore (device (phone ok_answer))
            ∧ error w' ≠ None
      | Failed _ =>
          Client.secureStore (device w') = Client.secureStore (device (phone ok_answer))
          ∧ error w' ≠ None
      end.
Proof.
  apply (register_records_the_registration (P:=Compact.platform)
           (L:=CompactFacts.compact_laws) (phone ok_answer) Example.seedA Alice
           Example.token1).
  - apply alice_holds_her_keys.
  - reflexivity.
Defined.

Lemma registration_is_refreshed_after_20_hours_witness :
  REGISTRATION_REFRESH_INTERVAL = 72000000%Z
  ∧ needsRegistrationRefresh (registered_phone (Number_toString 1699900000000))
    = (Done (REGISTRATION_REFRESH_INTERVAL
             <? Client.clock (device (registered_phone (Number_toString 1699900000000)))
                - 1699900000000)%Z,
       registered_phone (Number_toString 1699900000000))
  ∧ refreshRegistrationIfNeeded (registered_phone (Number_toString 1699900000000))
    = if (REGISTRATION_REFRESH_INTERVAL
          <? Client.clock (device (registered_phone (Number_toString 1699900000000)))
             - 1699900000000)%Z
      then register Example.token1 (registered_phone (Number_toString 1699900000000))
      else (Done true, registered_phone (Number_toString 1699900000000)).
Proof.
  apply (registration_is_refreshed_after_20_hours (P:=Compact.platform)
           (registered_phone (Number_toString 1699900000000)) 1699900000000
           Example.token1).
  - reflexivity.
  - vm_compute. reflexivity.
  - vm_compute. reflexivity.
  - discriminate.
Defined.

Lemma unreadable_registration_time_is_never_refreshed_witness :
  needsRegistrationRefresh (at_time 1800000000000 (registered_phone (js "soon")))
  = (Done false, at_time 1800000000000 (registered_phone (js "soon")))
  ∧ refreshRegistrationIfNeeded (at_time 1800000000000 (registered_phone (js "soon")))
    = (Done true, at_time 1800000000000 (registered_phone (js "soon"))).
Proof.
  apply (unreadable_registration_time_is_never_refreshed (P:=Compact.platform)
           (registered_phone (js "soon")) (js "soon") 1800000000000).
  - reflexivity.
  - vm_compute. reflexivity.
  - discriminate.
  - vm_compute. reflexivity.
Defined.

Lemma sendMessage_reads_the_relay_answer_witness :
  ∃ body w',
    Client.authenticatedPayload
      {| Client.send_origin := Alice; Client.send_destination := Bob;
         Client.send_encryptedMessage := hi_envelope |}
      (device (phone (Responded 401 (Server.json unauthorized))))
    = (Ok body, device (phone (Responded 401 (Server.json unauthorized))))
    ∧ sendMessage
        {| Client.send_origin := Alice; Client.send_destination := Bob;
           Client.send_encryptedMessage := hi_envelope |}
        (phone (Responded 401 (Server.json unauthorized)))
      = (Done (accepted (Server.status unauthorized)), w')
    ∧ sent w'
      = submission (backendUrl_of (device (phone (Responded 401 (Server.json unauthorized)))))
          body
        :: sent (phone (Responded 401 (Server.json unauthorized)))
    ∧ loading w' = false
    ∧ error w'
      = if accepted (Server.status unauthorized) then None
        else
          Some (Text
            (if (Server.status unauthorized =? 401)%Z then
               js "Authentication failed: Please check your connection and try again"
             else if (Server.status unauthorized =? 404)%Z then
               js "Recipient not registered with backend"
             else if (Server.status unauthorized =? 413)%Z then
               js "Message too large. Maximum size is 10KB."
             else if (Server.status unauthorized =? 429)%Z then
               js "Too many requests. Please wait a few minutes and try again."
             else if (Server.status unauthorized =? 400)%Z then
               js "Bad request: Invalid data format"
             else axios_message (Server.status unauthorized))).
Proof.
  apply (sendMessage_reads_the_relay_answer (P:=Compact.platform)
           (L:=CompactFacts.compact_laws)
           (phone (Responded 401 (Server.json unauthorized))) Example.seedA
           {| Client.send_origin := Alice; Client.send_destination := Bob;
              Client.send_encryptedMessage := hi_envelope |} unauthorized).
  - apply alice_holds_her_keys.
  - reflexivity.
  - discriminate.
  - discriminate.
Defined.

Lemma sender_identity_is_the_payloads_claim_witness :
  ∃ envelope em,
    KeyManagement.debugEncryptMessage Example.hi Mallory_secret Alice Bob Example.new_device
    = (Ok {| KeyManagement.debug_destination := Bob;
             KeyManagement.debug_encryptedMessage := envelope |},
       (Client.getRandomBytes 12 Example.new_device).2)
    ∧ received envelope = Some em
    ∧ isValid Mallory em = Ok true
    ∧ Client.decryptMessage
        {| Client.origin := Mallory; Client.payload_destination := Bob;
           Client.encryptedMessage := em |} Example.bob_device
      = (Ok (Some {| Client.senderPublicKey := VStr Alice;
                     Client.decrypted_message := VStr Example.hi;
                     Client.timestamp := VNum (Client.clock Example.new_device) |}),
         Example.bob_device).
Proof.
  apply (sender_identity_is_the_payloads_claim (P:=Compact.platform)
           (L:=CompactFacts.compact_laws) Example.new_device Example.bob_device
           seedC Example.seedB Mallory Bob Mallory_secret Alice Example.hi).
  - apply bob_holds_his_keys.
  - reflexivity.
  - reflexivity.
  - reflexivity.
  - reflexivity.
  - reflexivity.
Defined.

Lemma registration_can_be_taken_over_witness :
  ∃ e s n,
    (Server.send hi_request
       (after (Server.register (register_body Bob Example.token2))
          (after (Server.register (register_body Bob Example.token1))
             (Example.relay 1700000000100)))).1
    = Ok (push_response hi_request
            (sendPushNotification (notification hi_request Example.token2 Alice Bob e s n)))
    ∧ field (notification hi_request Example.token2 Alice Bob e s n) "to"
      = VStr Example.token2.
Proof.
  apply (registration_can_be_taken_over (P:=Compact.platform) hi_request
           (Example.relay 1700000000100) 1700000000000 Alice Bob hi_envelope hi_signature
           Example.token1 Example.token2).
  - vm_compute. reflexivity.
  - vm_compute. reflexivity.
  - apply hi_request_shape.
  - apply hi_request_origin.
  - apply Alice_not_empty.
  - apply Alice_valid.
  - apply hi_request_authentic_nobody.
Defined.

End HookExamples.
